(** * Password_check: a shallow embedding of the password-strength engine

    The development follows the Python sources module by module:
    [config.py], [patterns.py], [entropy.py], [breach.py], [scorer.py],
    [evaluator.py] and the word-list loader of [cli.py].  The Python
    run-time the sources rely on (strings, exceptions, floats, [hashlib],
    [requests], [difflib]) is modelled first.

    Conventions.
    - A Python [str] is a [string] whose characters are the code points
      U+0000..U+00FF; the character tables ([isalpha], [isdigit], [lower], ...)
      are Python's on that range.
    - A Python exception is a value [Raise e] of the error monad [Exc].
    - A Python [float] is an abstract type with the operations the sources use
      (class [PyFloat]); the theorems hold for every implementation of it,
      and exact rational arithmetic ([QFloat.exact]) makes the model run.
    - A [dict] is an association list in insertion order, a [set] that is only
      tested for membership is a [gset], a [set] that is iterated is the list
      of its elements in iteration order. *)

From Stdlib Require Import ZArith QArith Qround Qabs String Ascii List Bool Lia.
From Stdlib Require Import Lqa.
From stdpp Require Import base gmap strings.
Import ListNotations.

Local Open Scope string_scope.
Local Open Scope list_scope.
Local Open Scope Z_scope.

(** ** Exceptions *)

Module Py.

(** The exception classes that occur in the sources, all subclasses of
    [Exception]; [RequestException] stands for what [requests.get] raises
    (timeouts, connection errors, ...). *)
Inductive exn_class : Type :=
  | ValueError
  | OverflowError
  | ZeroDivisionError
  | ImportError
  | RequestException.

(** An exception object: its class and [str(e)]. *)
Record exn : Type := Exn { exn_cls : exn_class; exn_str : string }.

Inductive Exc (A : Type) : Type :=
  | Ok (a : A)
  | Raise (e : exn).
Arguments Ok {A} a.
Arguments Raise {A} e.

Definition bind {A B : Type} (m : Exc A) (f : A -> Exc B) : Exc B :=
  match m with
  | Ok a => f a
  | Raise e => Raise e
  end.

Definition raised {A : Type} (m : Exc A) : bool :=
  match m with Ok _ => false | Raise _ => true end.

End Py.
Export Py.

Notation "'let*' x ':=' m 'in' k" := (Py.bind m (fun x => k))
  (at level 10, x name, m at level 100, k at level 200).

(** ** Strings *)

Module Str.

Definition chars (s : string) : list ascii := list_ascii_of_string s.
Definition of_chars (l : list ascii) : string := string_of_list_ascii l.

(** [len(s)] *)
Definition len (s : string) : nat := String.length s.

(** [ord(c)] and [chr(n)] *)
Definition ord (c : ascii) : N := N_of_ascii c.
Definition chr (n : N) : ascii := ascii_of_N n.

Definition in_range (lo hi : N) (c : ascii) : bool :=
  ((lo <=? ord c) && (ord c <=? hi))%N.

(** Character tables of Python 3 (Unicode) on U+0000..U+00FF. *)

(** [c.isdecimal()], also the regular expression class [\d]: 0-9. *)
Definition isdecimal_char (c : ascii) : bool := in_range 48 57 c.

(** [c.isdigit()]: 0-9 and the superscripts two, three (U+00B2, U+00B3) and
    one (U+00B9), whose Numeric_Type is Digit. *)
Definition isdigit_char (c : ascii) : bool :=
  in_range 48 57 c || in_range 178 179 c || in_range 185 185 c.

(** [c.isalpha()]: A-Z, a-z, U+00AA, U+00B5, U+00BA, U+00C0..U+00D6,
    U+00D8..U+00F6, U+00F8..U+00FF. *)
Definition isalpha_char (c : ascii) : bool :=
  in_range 65 90 c || in_range 97 122 c || in_range 170 170 c
  || in_range 181 181 c || in_range 186 186 c || in_range 192 214 c
  || in_range 216 246 c || in_range 248 255 c.

(** [c.islower()] *)
Definition islower_char (c : ascii) : bool :=
  in_range 97 122 c || in_range 170 170 c || in_range 181 181 c
  || in_range 186 186 c || in_range 223 246 c || in_range 248 255 c.

(** [c.isupper()] *)
Definition isupper_char (c : ascii) : bool :=
  in_range 65 90 c || in_range 192 214 c || in_range 216 222 c.

(** [c.isspace()], the characters [str.strip()] removes. *)
Definition isspace_char (c : ascii) : bool :=
  in_range 9 13 c || in_range 28 32 c || in_range 133 133 c
  || in_range 160 160 c.

(** [c.lower()] *)
Definition lower_char (c : ascii) : ascii :=
  if isupper_char c then chr (ord c + 32) else c.

(** [c.upper()] where the result is again below U+0100.  (U+00B5, U+00DF and
    U+00FF have upper-case forms outside the range; the sources apply
    [upper()] to the keyboard rows only.) *)
Definition upper_char (c : ascii) : ascii :=
  if in_range 97 122 c || in_range 224 246 c || in_range 248 254 c
  then chr (ord c - 32) else c.

Definition map_str (f : ascii -> ascii) (s : string) : string :=
  of_chars (map f (chars s)).

Definition lower (s : string) : string := map_str lower_char s.
Definition upper (s : string) : string := map_str upper_char s.

(** [s.isalpha()], [s.isdigit()]: every character in the class, and at least
    one character. *)
Definition all_chars (p : ascii -> bool) (s : string) : bool :=
  match chars s with
  | [] => false
  | l => forallb p l
  end.

Definition isalpha (s : string) : bool := all_chars isalpha_char s.
Definition isdigit (s : string) : bool := all_chars isdigit_char s.

(** [any(p(c) for c in s)] *)
Definition any_char (p : ascii -> bool) (s : string) : bool :=
  existsb p (chars s).

(** [c in s] for a character [c] *)
Definition char_in (c : ascii) (s : string) : bool :=
  existsb (Ascii.eqb c) (chars s).

(** [sub in s] *)
Fixpoint contains (s sub : string) : bool :=
  String.prefix sub s
  || match s with
     | EmptyString => false
     | String _ s' => contains s' sub
     end.

(** [s[i:i+n]] for [0 <= i] *)
Definition slice (s : string) (i n : nat) : string := String.substring i n s.

(** [s[n:]] *)
Definition drop (s : string) (n : nat) : string := of_chars (skipn n (chars s)).

(** [s[::-1]] *)
Definition reversed (s : string) : string := of_chars (rev (chars s)).

(** [s.split(sep)] for a one-character separator *)
Fixpoint split_chars (sep : ascii) (cur : list ascii) (l : list ascii)
  : list string :=
  match l with
  | [] => [of_chars (rev cur)]
  | c :: l' =>
      if Ascii.eqb c sep then of_chars (rev cur) :: split_chars sep [] l'
      else split_chars sep (c :: cur) l'
  end.

Definition split (s : string) (sep : ascii) : list string :=
  split_chars sep [] (chars s).

(** [s.split(sep, 1)] when [sep in s]: the text before the first separator
    and the text after it. *)
Fixpoint split1_chars (sep : ascii) (cur : list ascii) (l : list ascii)
  : option (string * string) :=
  match l with
  | [] => None
  | c :: l' =>
      if Ascii.eqb c sep then Some (of_chars (rev cur), of_chars l')
      else split1_chars sep (c :: cur) l'
  end.

Definition split1 (s : string) (sep : ascii) : option (string * string) :=
  split1_chars sep [] (chars s).

(** [s.splitlines()]: lines end at LF, VT, FF, CR, CR LF, FS, GS, RS and NEL;
    a final line break does not open an empty last line. *)
Definition is_linebreak (c : ascii) : bool :=
  in_range 10 13 c || in_range 28 30 c || in_range 133 133 c.

Fixpoint splitlines_chars (cur : list ascii) (l : list ascii) : list string :=
  match l with
  | [] => match cur with [] => [] | _ => [of_chars (rev cur)] end
  | c :: l' =>
      if is_linebreak c then
        of_chars (rev cur) ::
        match l' with
        | c' :: l'' =>
            if Ascii.eqb c (chr 13) && Ascii.eqb c' (chr 10)
            then splitlines_chars [] l''
            else splitlines_chars [] l'
        | [] => []
        end
      else splitlines_chars (c :: cur) l'
  end.

Definition splitlines (s : string) : list string :=
  splitlines_chars [] (chars s).

(** [s.strip()] *)
Fixpoint lstrip_chars (l : list ascii) : list ascii :=
  match l with
  | c :: l' => if isspace_char c then lstrip_chars l' else l
  | [] => []
  end.

Definition strip (s : string) : string :=
  of_chars (rev (lstrip_chars (rev (lstrip_chars (chars s))))).

(** [len(set(s))] *)
Fixpoint distinct (seen : list ascii) (l : list ascii) : nat :=
  match l with
  | [] => O
  | c :: l' =>
      if existsb (Ascii.eqb c) seen then distinct seen l'
      else S (distinct (c :: seen) l')
  end.

Definition unique_count (s : string) : nat := distinct [] (chars s).

(** [str(n)] for an [int] *)
Definition digit_char (d : Z) : ascii := chr (48 + Z.to_N d).

Fixpoint digits_of (fuel : nat) (n : Z) (acc : list ascii) : list ascii :=
  match fuel with
  | O => acc
  | S fuel' =>
      let acc' := digit_char (n mod 10) :: acc in
      if n <? 10 then acc' else digits_of fuel' (n / 10) acc'
  end.

Definition str_of_int (n : Z) : string :=
  if n <? 0
  then String "-" (of_chars (digits_of (S (Z.to_nat (Z.log2 (- n)))) (- n) []))
  else of_chars (digits_of (S (Z.to_nat (Z.log2 n))) n []).

(** [int(c)] for a one-character string: the decimal digits convert, every
    other character raises [ValueError]. *)
Definition int_of_char (c : ascii) : Exc Z :=
  if isdecimal_char c then Ok (Z.of_N (ord c) - 48)
  else Raise (Exn ValueError
         ("invalid literal for int() with base 10: '" +:+ String c "'")).

(** [int(s)] for a string of decimal digits (what [\d{4}] matches); other
    strings, for which [int] also accepts signs, blanks and underscores, do
    not reach it. *)
Fixpoint int_of_digits (acc : Z) (l : list ascii) : option Z :=
  match l with
  | [] => Some acc
  | c :: l' =>
      if isdecimal_char c then int_of_digits (10 * acc + (Z.of_N (ord c) - 48)) l'
      else None
  end.

Definition int_of_str (s : string) : Exc Z :=
  match chars s with
  | [] => Raise (Exn ValueError "invalid literal for int() with base 10: ''")
  | l =>
      match int_of_digits 0 l with
      | Some n => Ok n
      | None =>
          Raise (Exn ValueError
            ("invalid literal for int() with base 10: '" +:+ s +:+ "'"))
      end
  end.

End Str.

(** ** Dictionaries

    A [dict] with string keys, in insertion order. *)

Module Dict.

Definition dict (V : Type) : Type := list (string * V).

(** [d.get(key)] *)
Fixpoint get {V : Type} (d : dict V) (key : string) : option V :=
  match d with
  | [] => None
  | (k, v) :: d' => if String.eqb k key then Some v else get d' key
  end.

(** [key in d] *)
Definition mem {V : Type} (key : string) (d : dict V) : bool :=
  match get d key with Some _ => true | None => false end.

(** [d.keys()] *)
Definition keys {V : Type} (d : dict V) : list string := map fst d.

End Dict.

(** ** Floats

    The operations of Python's [float] that the sources use.  [of_int] is the
    conversion of an [int] operand in mixed arithmetic, [lit] the value of a
    decimal literal, [flt] and [fle] are [<] and [<=] (false on NaN),
    [log2] is [math.log2] on a positive [int], [int_of_float] is [int(x)]
    (which raises on infinities and NaN), [round_float x n] is [round(x, n)]
    and [format_f x n] is [format(x, '.nf')].  [fdiv] is the division by a
    divisor that is not zero: the sources divide by the constant 20 and by
    lengths they have checked. *)

Class PyFloat : Type := {
  float : Type;
  of_int : Z -> float;
  lit : Q -> float;
  fadd : float -> float -> float;
  fsub : float -> float -> float;
  fmul : float -> float -> float;
  fdiv : float -> float -> float;
  flt : float -> float -> bool;
  fle : float -> float -> bool;
  log2 : Z -> float;
  int_of_float : float -> Exc Z;
  round_float : float -> Z -> float;
  format_f : float -> nat -> string
}.

Module Float.
Section Builtins.
Context `{PyFloat}.

(** [max(a, b)]: the first argument unless the second is greater. *)
Definition max (a b : float) : float := if flt a b then b else a.

(** [math.log2(n)] for an [int]: a domain error at [n <= 0]. *)
Definition math_log2 (n : Z) : Exc float :=
  if n <=? 0 then Raise (Exn ValueError "math domain error")
  else Ok (log2 n).

(** [a / b] for two [int]s with [b <> 0] (the sources guard the division):
    both operands are far below 2^53, where the quotient of the converted
    operands is the correctly rounded quotient. *)
Definition int_truediv (a b : Z) : float := fdiv (of_int a) (of_int b).

End Builtins.
End Float.

(** [math.log2(x)] for a [float] argument: a domain error unless [x] is
    positive (or a NaN).  Only [calculate_positional_entropy] takes the
    logarithm of a float. *)
Class PyFloatLog2 `{PyFloat} : Type := {
  log2_float : float -> Exc float
}.

(** ** hashlib

    [hashlib.sha1(s.encode('utf-8')).hexdigest()], after FIPS 180-4. *)

Module Hashlib.

(** [s.encode('utf-8')]: one byte below U+0080, two bytes from there on. *)
Definition utf8_char (c : ascii) : list Z :=
  let n := Z.of_N (Str.ord c) in
  if n <? 128 then [n]
  else [Z.lor 192 (Z.shiftr n 6); Z.lor 128 (Z.land n 63)].

Definition encode_utf8 (s : string) : list Z :=
  flat_map utf8_char (Str.chars s).

Definition w32 (x : Z) : Z := x mod 2 ^ 32.

Definition rotl (n x : Z) : Z :=
  w32 (Z.lor (Z.shiftl x n) (Z.shiftr x (32 - n))).

(** Padding: the bit 1, zeros up to 56 modulo 64 bytes, and the length in bits
    as a 64-bit big-endian number. *)
Definition be_bytes (count : nat) (x : Z) : list Z :=
  map (fun i => Z.land (Z.shiftr x (8 * Z.of_nat i)) 255) (rev (seq 0 count)).

Definition pad (msg : list Z) : list Z :=
  let l := Z.of_nat (List.length msg) in
  let zeros := Z.to_nat ((55 - l) mod 64) in
  msg ++ [128] ++ repeat 0 zeros ++ be_bytes 8 (8 * l).

Fixpoint words_of (fuel : nat) (bytes : list Z) : list Z :=
  match fuel, bytes with
  | S fuel', b0 :: b1 :: b2 :: b3 :: rest =>
      (Z.shiftl b0 24 + Z.shiftl b1 16 + Z.shiftl b2 8 + b3)
        :: words_of fuel' rest
  | _, _ => []
  end.

Fixpoint blocks_of (fuel : nat) (ws : list Z) : list (list Z) :=
  match fuel, ws with
  | S fuel', _ :: _ => firstn 16 ws :: blocks_of fuel' (skipn 16 ws)
  | _, _ => []
  end.

(** The message schedule, most recent word first. *)
Fixpoint schedule (n : nat) (ws : list Z) : list Z :=
  match n with
  | O => ws
  | S n' =>
      let w := rotl 1 (Z.lxor (Z.lxor (nth 2 ws 0) (nth 7 ws 0))
                              (Z.lxor (nth 13 ws 0) (nth 15 ws 0))) in
      schedule n' (w :: ws)
  end.

Definition state : Type := (Z * Z * Z * Z * Z)%type.

Definition round (st : state) (iw : nat * Z) : state :=
  let '(a, b, c, d, e) := st in
  let '(i, w) := iw in
  let '(f, k) :=
    if (i <? 20)%nat then
      (Z.lor (Z.land b c) (Z.land (Z.lxor b 4294967295) d), 1518500249)
    else if (i <? 40)%nat then
      (Z.lxor (Z.lxor b c) d, 1859775393)
    else if (i <? 60)%nat then
      (Z.lor (Z.lor (Z.land b c) (Z.land b d)) (Z.land c d), 2400959708)
    else
      (Z.lxor (Z.lxor b c) d, 3395469782) in
  (w32 (rotl 5 a + f + e + k + w), a, rotl 30 b, c, d).

Definition compress (h : state) (block : list Z) : state :=
  let ws := rev (schedule 64 (rev block)) in
  let '(a, b, c, d, e) := fold_left round (combine (seq 0 80) ws) h in
  let '(h0, h1, h2, h3, h4) := h in
  (w32 (h0 + a), w32 (h1 + b), w32 (h2 + c), w32 (h3 + d), w32 (h4 + e)).

Definition initial : state :=
  (1732584193, 4023233417, 2562383102, 271733878, 3285377520).

Definition hex_digit (d : Z) : ascii :=
  if d <? 10 then Str.chr (48 + Z.to_N d) else Str.chr (87 + Z.to_N d).

Definition hex_word (w : Z) : list ascii :=
  map (fun i => hex_digit (Z.land (Z.shiftr w (4 * Z.of_nat i)) 15))
      (rev (seq 0 8)).

Definition sha1_hexdigest (s : string) : string :=
  let bytes := pad (encode_utf8 s) in
  let n := List.length bytes in
  let '(h0, h1, h2, h3, h4) :=
    fold_left compress (blocks_of n (words_of n bytes)) initial in
  Str.of_chars (flat_map hex_word [h0; h1; h2; h3; h4]).

End Hashlib.

(** ** requests

    The remote service as the program sees it: whether [import requests]
    succeeds, and what [requests.get(url, timeout=t)] does, a response or a
    raised exception.  A call is recorded as the request it sends. *)

Module Requests.

Record Response : Type := { status_code : Z; text : string }.

Record HttpRequest : Type := { url : string; timeout : Z }.

Record Library : Type := {
  importable : bool;
  get : string -> Z -> Exc Response
}.

End Requests.

(** ** difflib

    [difflib.SequenceMatcher(None, a, b)] on strings: no junk, [autojunk]
    on. *)

Module SequenceMatcher.

(** [__chain_b]: with [autojunk], in a [b] of 200 elements or more the
    elements that make up more than 1% + 1 of it are "popular" and are left
    out of [b2j]; there is no junk. *)
Definition occurrences (c : ascii) (b : list ascii) : nat :=
  List.length (List.filter (Ascii.eqb c) b).

Definition popular (b : list ascii) (c : ascii) : bool :=
  let n := List.length b in
  (200 <=? n)%nat && (n / 100 + 1 <? occurrences c b)%nat.

(** [b2j.get(c, [])]: the indices of [c] in [b], ascending. *)
Definition b2j (b : list ascii) (c : ascii) : list nat :=
  if popular b c then []
  else List.filter (fun j => match nth_error b j with
                             | Some x => Ascii.eqb x c
                             | None => false
                             end)
                   (seq 0 (List.length b)).

Definition j2len_get (j2len : list (nat * nat)) (j : nat) : nat :=
  match List.find (fun e => (fst e =? j)%nat) j2len with
  | Some e => snd e
  | None => O
  end.

(** A match: [(besti, bestj, bestsize)]. *)
Definition Match : Type := (nat * nat * nat)%type.

(** The inner loop of [find_longest_match] at [a[i]]. *)
Definition extend_at (i : nat) (j2len : list (nat * nat))
  (st : Match * list (nat * nat)) (j : nat) : Match * list (nat * nat) :=
  let '((besti, bestj, bestsize), newj2len) := st in
  let k := S (match j with O => O | S j' => j2len_get j2len j' end) in
  let newj2len := (j, k) :: newj2len in
  if (bestsize <? k)%nat then ((i + 1 - k, j + 1 - k, k), newj2len)%nat
  else ((besti, bestj, bestsize), newj2len).

Definition scan_row (a b : list ascii) (blo bhi : nat)
  (st : Match * list (nat * nat)) (i : nat) : Match * list (nat * nat) :=
  let '(best, j2len) := st in
  match nth_error a i with
  | Some c =>
      fold_left (extend_at i j2len)
                (List.filter (fun j => (blo <=? j)%nat && (j <? bhi)%nat)
                             (b2j b c))
                (best, [])
  | None => (best, [])
  end.

(** The two loops that extend the match by equal neighbours. *)
Fixpoint extend_left (fuel : nat) (a b : list ascii) (alo blo : nat)
  (m : Match) : Match :=
  let '(besti, bestj, bestsize) := m in
  match fuel with
  | O => m
  | S fuel' =>
      if (alo <? besti)%nat && (blo <? bestj)%nat
         && match nth_error a (besti - 1), nth_error b (bestj - 1) with
            | Some x, Some y => Ascii.eqb x y
            | _, _ => false
            end
      then extend_left fuel' a b alo blo
                       (besti - 1, bestj - 1, S bestsize)%nat
      else m
  end.

Fixpoint extend_right (fuel : nat) (a b : list ascii) (ahi bhi : nat)
  (m : Match) : Match :=
  let '(besti, bestj, bestsize) := m in
  match fuel with
  | O => m
  | S fuel' =>
      if (besti + bestsize <? ahi)%nat && (bestj + bestsize <? bhi)%nat
         && match nth_error a (besti + bestsize),
                  nth_error b (bestj + bestsize) with
            | Some x, Some y => Ascii.eqb x y
            | _, _ => false
            end
      then extend_right fuel' a b ahi bhi (besti, bestj, S bestsize)
      else m
  end.

Definition find_longest_match (a b : list ascii) (alo ahi blo bhi : nat)
  : Match :=
  let '(best, _) :=
    fold_left (scan_row a b blo bhi) (seq alo (ahi - alo)) ((alo, blo, O), []) in
  let fuel := List.length a in
  extend_right fuel a b ahi bhi (extend_left fuel a b alo blo best).

(** The sum of the sizes of the matching blocks: the longest match, then the
    blocks to its left and to its right. *)
Fixpoint matched (fuel : nat) (a b : list ascii) (alo ahi blo bhi : nat)
  : nat :=
  match fuel with
  | O => O
  | S fuel' =>
      let '(i, j, k) := find_longest_match a b alo ahi blo bhi in
      match k with
      | O => O
      | _ =>
          (k
           + (if (alo <? i)%nat && (blo <? j)%nat
              then matched fuel' a b alo i blo j else O)
           + (if (i + k <? ahi)%nat && (j + k <? bhi)%nat
              then matched fuel' a b (i + k) ahi (j + k) bhi else O))%nat
      end
  end.

Definition matches (a b : string) : nat :=
  let la := Str.chars a in
  let lb := Str.chars b in
  matched (S (List.length la)) la lb 0 (List.length la) 0 (List.length lb).

(** [SequenceMatcher(None, a, b).ratio()]: [2.0 * matches / length], and 1.0
    when both strings are empty. *)
Definition ratio `{PyFloat} (a b : string) : float :=
  let length := (Str.len a + Str.len b)%nat in
  if (length =? 0)%nat then lit 1
  else fdiv (fmul (lit 2) (of_int (Z.of_nat (matches a b))))
            (of_int (Z.of_nat length)).

End SequenceMatcher.

(** ** config.py *)

Module config.

Record ScoreThresholds : Type := {
  WEAK : Z; MEDIUM : Z; STRONG : Z; VERY_STRONG : Z
}.

Definition SCORE_THRESHOLDS : ScoreThresholds :=
  {| WEAK := 40; MEDIUM := 60; STRONG := 80; VERY_STRONG := 100 |}.

Definition MIN_ENTROPY_BITS : Z := 20.
Definition ENTROPY_PENALTY_MULTIPLIER : Q := 3 # 10.

Record CharPoolSizes : Type := {
  lowercase : Z; uppercase : Z; digits : Z; special : Z
}.

Definition CHAR_POOL_SIZES : CharPoolSizes :=
  {| lowercase := 26; uppercase := 26; digits := 10; special := 33 |}.

Record PatternThresholds : Type := {
  min_repeat_length : nat;
  min_sequence_length : nat;
  min_keyboard_pattern_length : nat;
  max_year_range : Z * Z;
  min_dictionary_word_length : nat
}.

Definition PATTERN_THRESHOLDS : PatternThresholds :=
  {| min_repeat_length := 3;
     min_sequence_length := 4;
     min_keyboard_pattern_length := 4;
     max_year_range := (1900, 2099);
     min_dictionary_word_length := 4 |}.

Definition PATTERN_PENALTIES : Dict.dict Z :=
  [ ("repeated_chars", 15);
    ("sequential_chars", 20);
    ("keyboard_pattern", 25);
    ("leetspeak", 10);
    ("dictionary_word", 30);
    ("year_pattern", 15);
    ("username_similarity", 25);
    ("low_variety", 20) ].

Record BreachConfig : Type := {
  local_blacklist_file : string;
  hibp_api_url : string;
  hibp_enabled : bool;
  breach_force_weak : bool
}.

Definition BREACH_CONFIG : BreachConfig :=
  {| local_blacklist_file := "data/top_10k_passwords.txt";
     hibp_api_url := "https://api.pwnedpasswords.com/range/";
     hibp_enabled := false;
     breach_force_weak := true |}.

Definition DATA_DIR : string := "data".

Definition SIMILARITY_THRESHOLD : Q := 1 # 2.
Definition MIN_CHAR_VARIETY_RATIO : Q := 3 # 10.

Definition get_char_pool_size (has_lower has_upper has_digit has_special : bool)
  : Z :=
  let pool_size := 0 in
  let pool_size :=
    if has_lower then pool_size + lowercase CHAR_POOL_SIZES else pool_size in
  let pool_size :=
    if has_upper then pool_size + uppercase CHAR_POOL_SIZES else pool_size in
  let pool_size :=
    if has_digit then pool_size + digits CHAR_POOL_SIZES else pool_size in
  let pool_size :=
    if has_special then pool_size + special CHAR_POOL_SIZES else pool_size in
  Z.max pool_size 1.

End config.

(** ** patterns.py *)

Module PatternDetector.
Import config.

(** The pattern-issue map: category to issues, in insertion order. *)
Definition PatternIssues : Type := Dict.dict (list string).

Definition KEYBOARD_ROWS : list string :=
  ["qwertyuiop"; "asdfghjkl"; "zxcvbnm"; "1234567890"].

Definition LEETSPEAK_MAP : list (ascii * list ascii) :=
  [ ("a", ["4"; "@"]); ("e", ["3"]); ("i", ["1"; "!"]); ("o", ["0"]);
    ("s", ["5"; "$"]); ("t", ["7"]); ("l", ["1"]); ("z", ["2"]) ]%char.

Record t : Type := {
  dictionary_words : list string;
  keyboard_patterns : gset string
}.

(** [row[i:i + n] for i in range(len(row) - n + 1)] *)
Definition windows (row : string) (n : nat) : list string :=
  map (fun i => Str.slice row i n) (seq 0 (Str.len row + 1 - n)).

Definition with_upper (patterns : list string) : list string :=
  flat_map (fun pattern => [pattern; Str.upper pattern]) patterns.

Definition column (rows : list string) (col_idx : nat) : string :=
  Str.of_chars
    (flat_map (fun row => match nth_error (Str.chars row) col_idx with
                          | Some c => [c]
                          | None => []
                          end) rows).

Definition _build_keyboard_patterns : gset string :=
  let n := min_keyboard_pattern_length PATTERN_THRESHOLDS in
  let forward := flat_map (fun row => with_upper (windows row n)) KEYBOARD_ROWS in
  let reverse :=
    flat_map (fun row => with_upper (windows (Str.reversed row) n))
             KEYBOARD_ROWS in
  let columns :=
    flat_map (fun col_idx =>
                let col_pattern := column (firstn 3 KEYBOARD_ROWS) col_idx in
                if (n <=? Str.len col_pattern)%nat
                then [col_pattern; Str.upper col_pattern] else [])
             (seq 0 10) in
  list_to_set (forward ++ reverse ++ columns).

(** [PatternDetector(dictionary_words)] *)
Definition init (dictionary_words : option (list string)) : t :=
  {| dictionary_words := match dictionary_words with
                         | Some ws => ws
                         | None => []
                         end;
     keyboard_patterns := _build_keyboard_patterns |}.

(** *** Repeated characters *)

(** The inner loop: how many of the next characters equal [char]. *)
Fixpoint run_after (char : ascii) (rest : list ascii) : nat :=
  match rest with
  | c :: rest' => if Ascii.eqb c char then S (run_after char rest') else O
  | [] => O
  end.

Fixpoint repeated_from (fuel : nat) (l : list ascii) : list string :=
  match fuel, l with
  | S fuel', char :: rest =>
      let count := S (run_after char rest) in
      (if (min_repeat_length PATTERN_THRESHOLDS <=? count)%nat
       then ["Repeated character '" +:+ String char "' "
               +:+ Str.str_of_int (Z.of_nat count) +:+ " times"]
       else [])
      ++ repeated_from fuel' (skipn (count - 1) rest)
  | _, _ => []
  end.

Definition _detect_repeated_chars (password : string) : list string :=
  repeated_from (Str.len password) (Str.chars password).

(** *** Sequential characters *)

(** [all(rel(s[i], s[i + 1]) for i in range(len(s) - 1))] *)
Fixpoint adjacent (rel : ascii -> ascii -> bool) (l : list ascii) : bool :=
  match l with
  | a :: (b :: _) as l' => rel a b && adjacent rel l'
  | _ => true
  end.

Definition _is_ascending_alpha (s : string) : bool :=
  if negb (Str.isalpha s) then false
  else adjacent (fun a b => (Str.ord b =? Str.ord a + 1)%N)
                (Str.chars (Str.lower s)).

Definition _is_descending_alpha (s : string) : bool :=
  if negb (Str.isalpha s) then false
  else adjacent (fun a b => Z.of_N (Str.ord b) =? Z.of_N (Str.ord a) - 1)
                (Str.chars (Str.lower s)).

(** The loop of the two numeric tests: [int(s[i + 1])] is evaluated before
    [int(s[i])], and the first pair out of step ends the loop. *)
Fixpoint numeric_steps (step : Z -> Z) (l : list ascii) : Exc bool :=
  match l with
  | a :: (b :: _) as l' =>
      let* next := Str.int_of_char b in
      let* cur := Str.int_of_char a in
      if negb (next =? step cur mod 10) then Ok false
      else numeric_steps step l'
  | _ => Ok true
  end.

Definition _is_ascending_numeric (s : string) : Exc bool :=
  if negb (Str.isdigit s) then Ok false
  else numeric_steps (fun d => d + 1) (Str.chars s).

Definition _is_descending_numeric (s : string) : Exc bool :=
  if negb (Str.isdigit s) then Ok false
  else numeric_steps (fun d => d - 1) (Str.chars s).

Definition sequential_issue (window kind : string) : string :=
  "Sequential pattern: '" +:+ window +:+ "' (" +:+ kind +:+ ")".

(** The body of the loop over the windows: the first test that holds names
    the issue. *)
Definition window_issue (window : string) : Exc (list string) :=
  if _is_ascending_alpha window then
    Ok [sequential_issue window "ascending"]
  else if _is_descending_alpha window then
    Ok [sequential_issue window "descending"]
  else
    let* asc := _is_ascending_numeric window in
    if asc then Ok [sequential_issue window "numerical"]
    else
      let* desc := _is_descending_numeric window in
      if desc then Ok [sequential_issue window "numerical descending"]
      else Ok [].

Fixpoint scan_windows (ws : list string) : Exc (list string) :=
  match ws with
  | [] => Ok []
  | window :: ws' =>
      let* issue := window_issue window in
      let* issues := scan_windows ws' in
      Ok (issue ++ issues)
  end.

Definition _detect_sequential_chars (password : string) : Exc (list string) :=
  scan_windows (windows password (min_sequence_length PATTERN_THRESHOLDS)).

(** *** Keyboard patterns *)

Definition _detect_keyboard_patterns (self : t) (password_lower : string)
  : list string :=
  flat_map (fun window =>
              if bool_decide (window ∈ keyboard_patterns self)
              then ["Keyboard pattern detected: '" +:+ window +:+ "'"]
              else [])
           (windows password_lower
                    (min_keyboard_pattern_length PATTERN_THRESHOLDS)).

(** *** Leetspeak *)

(** The regular expressions of [leet_patterns] are sequences of character
    classes: [re.search] looks for a position where every class matches. *)
Definition regex : Type := list string.

Fixpoint match_here (pattern : regex) (l : list ascii) : bool :=
  match pattern, l with
  | [], _ => true
  | cls :: pattern', c :: l' => Str.char_in c cls && match_here pattern' l'
  | _ :: _, [] => false
  end.

Fixpoint search_chars (pattern : regex) (l : list ascii) : bool :=
  match_here pattern l
  || match l with
     | [] => false
     | _ :: l' => search_chars pattern l'
     end.

Definition re_search (pattern : regex) (s : string) : bool :=
  search_chars pattern (Str.chars s).

Definition leet_patterns : list (regex * string) :=
  [ (["a@"; "d"; "m"; "i1"; "n"], "admin");
    (["p"; "@a"; "s"; "s"; "w"; "o0"; "r"; "d"], "password");
    (["l1"; "0"; "v"; "3"], "love");
    (["h4"; "a"; "c"; "k"], "hack");
    (["t7"; "e"; "s"; "t"], "test") ].

Definition is_leet_char (char : ascii) : bool :=
  existsb (fun entry => existsb (Ascii.eqb char) (snd entry)) LEETSPEAK_MAP.

Definition leet_count (password_lower : string) : nat :=
  List.length (List.filter is_leet_char (Str.chars password_lower)).

(** *** Dictionary words *)

(** [issue.split("'")[1]] for the issues that contain a quote *)
Definition quoted_words (issues : list string) : list string :=
  flat_map (fun issue =>
              if Str.char_in "'" issue
              then match nth_error (Str.split issue "'") 1 with
                   | Some w => [w]
                   | None => []
                   end
              else [])
           issues.

Definition dictionary_step (password_lower : string) (issues : list string)
  (word : string) : list string :=
  if (min_dictionary_word_length PATTERN_THRESHOLDS <=? Str.len word)%nat
     && Str.contains password_lower word
  then
    if negb (existsb (String.eqb word) (quoted_words issues))
    then issues ++ ["Contains dictionary word: '" +:+ word +:+ "'"]
    else issues
  else issues.

Definition _detect_dictionary_words (self : t) (password_lower : string)
  : list string :=
  match dictionary_words self with
  | [] => []
  | words =>
      let issues :=
        if (min_dictionary_word_length PATTERN_THRESHOLDS
              <=? Str.len password_lower)%nat
           && existsb (String.eqb password_lower) words
        then ["Password is a common dictionary word: '"
                +:+ password_lower +:+ "'"]
        else [] in
      fold_left (dictionary_step password_lower) words issues
  end.

(** *** Year patterns *)

(** [re.finditer(r'\d{4}', s)]: the matches from left to right, the search
    resuming after each match. *)
Fixpoint finditer_4digits (l : list ascii) : list string :=
  match l with
  | a :: l' =>
      match l' with
      | b :: c :: d :: rest =>
          if forallb Str.isdecimal_char [a; b; c; d]
          then Str.of_chars [a; b; c; d] :: finditer_4digits rest
          else finditer_4digits l'
      | _ => []
      end
  | [] => []
  end.

(** The body of the loop over the matches; [except ValueError: continue]
    catches all that [int] raises. *)
Definition year_issue (year_str : string) : list string :=
  let '(min_year, max_year) := max_year_range PATTERN_THRESHOLDS in
  match Str.int_of_str year_str with
  | Ok year =>
      if (min_year <=? year) && (year <=? max_year)
      then ["Year pattern detected: '" +:+ year_str +:+ "'"]
      else []
  | Raise _ => []
  end.

Definition _detect_year_patterns (password : string) : list string :=
  flat_map year_issue (finditer_4digits (Str.chars password)).

(** *** Username and e-mail similarity, low variety *)

(** The truth value of an optional string: [None] and [''] are false. *)
Definition truthy (s : option string) : bool :=
  match s with
  | Some s => negb (String.eqb s "")
  | None => false
  end.

Section WithFloat.
Context `{PyFloat}.

Definition _detect_leetspeak (password_lower : string) : list string :=
  let issues :=
    flat_map (fun entry =>
                if re_search (fst entry) password_lower
                then ["Leetspeak substitution detected (resembles '"
                        +:+ snd entry +:+ "')"]
                else [])
             leet_patterns in
  if (0 <? Str.len password_lower)%nat
     && flt (lit (3 # 10))
            (Float.int_truediv (Z.of_nat (leet_count password_lower))
                               (Z.of_nat (Str.len password_lower)))
  then issues ++ ["High leetspeak substitution ratio detected"]
  else issues.

Definition username_issues (password_lower : string) (username : string)
  : list string :=
  let username_lower := Str.lower username in
  let similarity := SequenceMatcher.ratio password_lower username_lower in
  (if Str.contains password_lower username_lower
   then ["Password contains username: '" +:+ username +:+ "'"] else [])
  ++
  (if fle (lit SIMILARITY_THRESHOLD) similarity
   then ["Password too similar to username (similarity: "
           +:+ format_f similarity 2 +:+ ")"]
   else []).

Definition email_issues (password_lower : string) (email : string)
  : list string :=
  let email_lower := Str.lower email in
  let email_local :=
    if Str.char_in "@" email_lower
    then hd "" (Str.split email_lower "@")
    else email_lower in
  let similarity := SequenceMatcher.ratio password_lower email_local in
  (if Str.contains password_lower email_local
   then ["Password contains email username: '" +:+ email_local +:+ "'"]
   else [])
  ++
  (if fle (lit SIMILARITY_THRESHOLD) similarity
   then ["Password too similar to email (similarity: "
           +:+ format_f similarity 2 +:+ ")"]
   else []).

Definition _detect_username_similarity (password : string)
  (username email : option string) : list string :=
  if negb (truthy username) && negb (truthy email) then []
  else
    let password_lower := Str.lower password in
    (match username with
     | Some u => if truthy username then username_issues password_lower u
                 else []
     | None => []
     end)
    ++
    (match email with
     | Some e => if truthy email then email_issues password_lower e else []
     | None => []
     end).

Definition _detect_low_variety (password : string) : list string :=
  if (Str.len password =? 0)%nat then []
  else
    let unique_chars := Str.unique_count password in
    let variety_ratio :=
      Float.int_truediv (Z.of_nat unique_chars) (Z.of_nat (Str.len password)) in
    if flt variety_ratio (lit MIN_CHAR_VARIETY_RATIO)
    then ["Low character variety: " +:+ Str.str_of_int (Z.of_nat unique_chars)
            +:+ " unique characters out of "
            +:+ Str.str_of_int (Z.of_nat (Str.len password))
            +:+ " (ratio: " +:+ format_f variety_ratio 2 +:+ ")"]
    else [].

(** *** All detectors *)

(** The categories in the order [detect_all] inserts them. *)
Definition categories : list string :=
  [ "repeated_chars"; "sequential_chars"; "keyboard_pattern"; "leetspeak";
    "dictionary_word"; "year_pattern"; "username_similarity"; "low_variety" ].

Definition detect_all (self : t) (password : string)
  (username email : option string) : Exc PatternIssues :=
  let password_lower := Str.lower password in
  let repeated_chars := _detect_repeated_chars password in
  let* sequential_chars := _detect_sequential_chars password in
  let keyboard_pattern := _detect_keyboard_patterns self password_lower in
  let leetspeak := _detect_leetspeak password_lower in
  let dictionary_word := _detect_dictionary_words self password_lower in
  let year_pattern := _detect_year_patterns password in
  let username_similarity :=
    _detect_username_similarity password username email in
  let low_variety := _detect_low_variety password in
  let issues : PatternIssues :=
    [ ("repeated_chars", repeated_chars);
      ("sequential_chars", sequential_chars);
      ("keyboard_pattern", keyboard_pattern);
      ("leetspeak", leetspeak);
      ("dictionary_word", dictionary_word);
      ("year_pattern", year_pattern);
      ("username_similarity", username_similarity);
      ("low_variety", low_variety) ] in
  Ok (List.filter (fun kv => match snd kv with [] => false | _ => true end) issues).

End WithFloat.
End PatternDetector.

(** ** entropy.py *)

Module EntropyCalculator.
Import config.

(** The character-class flags; [pool_size] is absent in the flags of the
    empty password. *)
Record CharClasses : Type := {
  has_lower : bool;
  has_upper : bool;
  has_digit : bool;
  has_special : bool;
  pool_size : option Z
}.

(** The special characters: [!], the double quote (U+0022), and the rest of
    the ASCII punctuation. *)
Definition SPECIAL_CHARS : string :=
  "!" +:+ String (Str.chr 34) "#$%&'()*+,-./:;<=>?@[\]^_`{|}~".

Section WithFloat.
Context `{PyFloat}.

Definition calculate_entropy (password : string) (has_patterns : bool)
  : Exc (float * CharClasses) :=
  if String.eqb password "" then
    Ok (lit 0, {| has_lower := false; has_upper := false; has_digit := false;
                  has_special := false; pool_size := None |})
  else
    let has_lower := Str.any_char Str.islower_char password in
    let has_upper := Str.any_char Str.isupper_char password in
    let has_digit := Str.any_char Str.isdigit_char password in
    let has_special :=
      Str.any_char (fun c => Str.char_in c SPECIAL_CHARS) password in
    let pool_size :=
      get_char_pool_size has_lower has_upper has_digit has_special in
    let length := Z.of_nat (Str.len password) in
    let* log_pool := Float.math_log2 pool_size in
    let base_entropy := fmul (of_int length) log_pool in
    let effective_entropy :=
      if has_patterns
      then fmul base_entropy (fsub (of_int 1) (lit ENTROPY_PENALTY_MULTIPLIER))
      else base_entropy in
    let effective_entropy := Float.max (lit 0) effective_entropy in
    Ok (effective_entropy,
        {| has_lower := has_lower; has_upper := has_upper;
           has_digit := has_digit; has_special := has_special;
           pool_size := Some pool_size |}).

End WithFloat.

Section WithLog2.
Context `{PyFloat} {L : PyFloatLog2}.

(** [char_counts[char] = char_counts.get(char, 0) + 1], on a dictionary in
    insertion order. *)
Fixpoint count_char (char_counts : list (ascii * Z)) (char : ascii)
  : list (ascii * Z) :=
  match char_counts with
  | [] => [(char, 0 + 1)]
  | (c, count) :: rest =>
      if Ascii.eqb c char then (c, count + 1) :: rest
      else (c, count) :: count_char rest char
  end.

Definition char_counts (password : string) : list (ascii * Z) :=
  fold_left count_char (Str.chars password) [].

(** The body of the loop over [char_counts.items()]. *)
Definition positional_step (length : Z) (entropy : Exc float)
  (entry : ascii * Z) : Exc float :=
  let* entropy := entropy in
  let probability := Float.int_truediv (snd entry) length in
  if flt (of_int 0) probability then
    let* log_probability := log2_float probability in
    Ok (fsub entropy (fmul probability log_probability))
  else Ok entropy.

Definition calculate_positional_entropy (password : string) : Exc float :=
  if String.eqb password "" then Ok (lit 0)
  else
    let length := Z.of_nat (Str.len password) in
    let* entropy :=
      fold_left (positional_step length) (char_counts password) (Ok (lit 0)) in
    Ok (fmul entropy (of_int length)).

End WithLog2.

End EntropyCalculator.

(** ** breach.py *)

Module BreachChecker.
Import config Requests.

Record t : Type := {
  blacklist_file : string;
  blacklist : gset string
}.

(** The file system as [_load_blacklist] sees it: [None] when the path does
    not exist, otherwise the lines of the file or the exception raised while
    reading it. *)
Definition FileSystem : Type := string -> option (Exc (list string)).

(** [os.path.basename(path)] *)
Definition basename (path : string) : string :=
  List.last (Str.split path "/") "".

Definition _load_blacklist (fs : FileSystem) (blacklist_file : string)
  : gset string :=
  let blacklist_path := DATA_DIR +:+ "/" +:+ basename blacklist_file in
  match fs blacklist_path with
  | Some (Ok lines) =>
      list_to_set
        (map (fun line => Str.lower (Str.strip line))
             (List.filter (fun line => negb (String.eqb (Str.strip line) ""))
                          lines))
  | Some (Raise _) => ∅
  | None => ∅
  end.

(** [BreachChecker(blacklist_file)] *)
Definition init (cfg : BreachConfig) (fs : FileSystem)
  (blacklist_file : option string) : t :=
  let file := if PatternDetector.truthy blacklist_file
              then default "" blacklist_file
              else local_blacklist_file cfg in
  {| blacklist_file := file; blacklist := _load_blacklist fs file |}.

(** A result together with the requests sent while computing it. *)
Definition Sent (A : Type) : Type := (A * list HttpRequest)%type.

(** The scan of the response: the first line [SUFFIX:COUNT] whose suffix is
    the one looked for. *)
Fixpoint scan_lines (hash_suffix : string) (lines : list string)
  : bool * option string :=
  match lines with
  | [] => (false, None)
  | line :: lines' =>
      match (if Str.char_in ":" line then Str.split1 line ":" else None) with
      | Some (suffix, count) =>
          if String.eqb suffix hash_suffix
          then (true, Some ("Password found in HIBP database (" +:+ count
                              +:+ " breaches)"))
          else scan_lines hash_suffix lines'
      | None => scan_lines hash_suffix lines'
      end
  end.

(** The body of the [try] block of [_check_hibp]. *)
Definition hibp_query (lib : Library) (cfg : BreachConfig) (password : string)
  : Sent (Exc (bool * option string)) :=
  if negb (importable lib) then
    (Raise (Exn ImportError "No module named 'requests'"), [])
  else
    let password_hash := Str.upper (Hashlib.sha1_hexdigest password) in
    let hash_prefix := Str.slice password_hash 0 5 in
    let hash_suffix := Str.drop password_hash 5 in
    let api_url := hibp_api_url cfg +:+ hash_prefix in
    (match get lib api_url 5 with
     | Raise e => Raise e
     | Ok response =>
         if status_code response =? 200
         then Ok (scan_lines hash_suffix (Str.splitlines (text response)))
         else Ok (false, None)
     end,
     [{| url := api_url; timeout := 5 |}]).

Definition _check_hibp (lib : Library) (cfg : BreachConfig) (password : string)
  : Sent (bool * option string) :=
  let '(outcome, sent) := hibp_query lib cfg password in
  (match outcome with
   | Ok result => result
   | Raise e =>
       match exn_cls e with
       | ImportError => (false, Some "HIBP check requires 'requests' library")
       | _ => (false, Some ("HIBP check failed: " +:+ exn_str e))
       end
   end, sent).

Definition check_breach (lib : Library) (cfg : BreachConfig) (self : t)
  (password : string) : Sent (bool * option string) :=
  let password_lower := Str.lower password in
  if bool_decide (password_lower ∈ blacklist self) then
    ((true, Some "Password found in common breach database (top 10k)"), [])
  else if hibp_enabled cfg then
    let '((hibp_breached, hibp_reason), sent) := _check_hibp lib cfg password in
    if hibp_breached then ((true, hibp_reason), sent)
    else ((false, None), sent)
  else ((false, None), []).

Definition add_to_blacklist (self : t) (password : string) : t :=
  {| blacklist_file := blacklist_file self;
     blacklist := {[ Str.lower password ]} ∪ blacklist self |}.

End BreachChecker.

(** ** scorer.py *)

Module PasswordScorer.
Import config.

Section WithFloat.
Context `{PyFloat}.

(** The entropy part of the score; in the last branch [min(v, 10)] is the
    [int] 10 when [10 < v] and [v] otherwise. *)
Definition base_score (entropy_bits : float) : Exc Z :=
  if fle entropy_bits (of_int 0) then Ok 0
  else if flt entropy_bits (of_int 20) then
    int_of_float (fmul (fdiv entropy_bits (of_int 20)) (of_int 20))
  else if flt entropy_bits (of_int 40) then
    int_of_float
      (fadd (of_int 20)
            (fmul (fdiv (fsub entropy_bits (of_int 20)) (of_int 20))
                  (of_int 30)))
  else if flt entropy_bits (of_int 60) then
    int_of_float
      (fadd (of_int 50)
            (fmul (fdiv (fsub entropy_bits (of_int 40)) (of_int 20))
                  (of_int 20)))
  else
    let v := fmul (fdiv (fsub entropy_bits (of_int 60)) (of_int 20))
                  (of_int 10) in
    if flt (of_int 10) v then Ok (70 + 10)
    else int_of_float (fadd (of_int 70) v).

Definition apply_penalty (score : Z) (entry : string * list string) : Z :=
  let '(pattern_type, issues) := entry in
  match issues with
  | [] => score
  | _ => score - default 0 (Dict.get PATTERN_PENALTIES pattern_type)
  end.

Definition length_bonus (length : Z) : Z :=
  if 16 <=? length then 5
  else if 12 <=? length then 3
  else if 8 <=? length then 1
  else 0.

Definition calculate_score (entropy_bits : float)
  (pattern_issues : Dict.dict (list string)) (is_breached : bool) (length : Z)
  : Exc Z :=
  if is_breached then Ok 0
  else
    let* base_score := base_score entropy_bits in
    let score := base_score in
    let score := fold_left apply_penalty pattern_issues score in
    let score := score + length_bonus length in
    let score := Z.max 0 (Z.min 100 score) in
    Ok score.

Definition classify_strength (score : Z) : string :=
  if score <? WEAK SCORE_THRESHOLDS then "Weak"
  else if score <? MEDIUM SCORE_THRESHOLDS then "Medium"
  else if score <? STRONG SCORE_THRESHOLDS then "Strong"
  else "Very Strong".

(** [recommendations.append(message)] under a condition *)
Definition append_if (cond : bool) (message : string) (l : list string)
  : list string :=
  if cond then l ++ [message] else l.

Definition generate_recommendations (score : Z) (strength : string)
  (entropy_bits : float) (pattern_issues : Dict.dict (list string))
  (is_breached : bool) (char_classes : EntropyCalculator.CharClasses)
  (length : Z) : list string :=
  let recommendations : list string := [] in
  if is_breached then
    recommendations ++
      ["This password has been compromised in a data breach. Use a completely different password."]
  else
    let recommendations :=
      append_if (String.eqb strength "Weak")
        "Password is weak. Consider using a longer, more complex password."
        recommendations in
    let recommendations :=
      append_if (flt entropy_bits (of_int MIN_ENTROPY_BITS))
        ("Entropy is low (" +:+ format_f entropy_bits 1
           +:+ " bits). Increase password complexity.")
        recommendations in
    let recommendations :=
      if length <? 8 then
        recommendations ++ ["Password is too short. Use at least 8 characters."]
      else if length <? 12 then
        recommendations ++
          ["Consider using a longer password (12+ characters) for better security."]
      else recommendations in
    let recommendations :=
      append_if (negb (EntropyCalculator.has_lower char_classes))
        "Add lowercase letters to increase character variety."
        recommendations in
    let recommendations :=
      append_if (negb (EntropyCalculator.has_upper char_classes))
        "Add uppercase letters to increase character variety."
        recommendations in
    let recommendations :=
      append_if (negb (EntropyCalculator.has_digit char_classes))
        "Add numbers to increase character variety."
        recommendations in
    let recommendations :=
      append_if (negb (EntropyCalculator.has_special char_classes))
        "Add special characters to increase character variety."
        recommendations in
    let recommendations :=
      append_if (Dict.mem "repeated_chars" pattern_issues)
        "Avoid repeating the same character multiple times."
        recommendations in
    let recommendations :=
      append_if (Dict.mem "sequential_chars" pattern_issues)
        "Avoid sequential patterns (abc, 123, etc.)."
        recommendations in
    let recommendations :=
      append_if (Dict.mem "keyboard_pattern" pattern_issues)
        "Avoid keyboard patterns (qwerty, asdf, etc.)."
        recommendations in
    let recommendations :=
      append_if (Dict.mem "dictionary_word" pattern_issues)
        "Avoid common dictionary words. Use random or uncommon words."
        recommendations in
    let recommendations :=
      append_if (Dict.mem "year_pattern" pattern_issues)
        "Avoid year patterns. Don't use birth years or common years."
        recommendations in
    let recommendations :=
      append_if (Dict.mem "username_similarity" pattern_issues)
        "Don't use your username or email in your password."
        recommendations in
    let recommendations :=
      append_if (Dict.mem "leetspeak" pattern_issues)
        "Leetspeak substitutions (p@ssw0rd) are predictable. Use truly random characters."
        recommendations in
    match recommendations with
    | [] =>
        ["Password meets good security practices. Keep it secure and don't reuse it."]
    | _ => recommendations
    end.

End WithFloat.
End PasswordScorer.

(** ** evaluator.py *)

Module PasswordEvaluator.
Import config Requests.

Section WithFloat.
Context `{PyFloat}.

(** The evaluator holds four component objects and calls their methods; an
    object is the record of its methods. *)
Record PatternDetectorObject : Type := {
  detect_all :
    string -> option string -> option string ->
    Exc PatternDetector.PatternIssues
}.

Record EntropyCalculatorObject : Type := {
  calculate_entropy :
    string -> bool -> Exc (float * EntropyCalculator.CharClasses)
}.

Record BreachCheckerObject : Type := {
  check_breach : string -> BreachChecker.Sent (bool * option string)
}.

Record PasswordScorerObject : Type := {
  calculate_score :
    float -> Dict.dict (list string) -> bool -> Z -> Exc Z;
  classify_strength : Z -> string;
  generate_recommendations :
    Z -> string -> float -> Dict.dict (list string) -> bool ->
    EntropyCalculator.CharClasses -> Z -> list string
}.

Record t : Type := {
  pattern_detector : PatternDetectorObject;
  entropy_calculator : EntropyCalculatorObject;
  breach_checker : BreachCheckerObject;
  scorer : PasswordScorerObject
}.

(** [PasswordEvaluator(dictionary_words, blacklist_file)], in an environment
    made of the [requests] library, the configuration and the file system. *)
Definition init (lib : Library) (cfg : BreachConfig)
  (fs : BreachChecker.FileSystem)
  (dictionary_words : option (list string)) (blacklist_file : option string)
  : t :=
  {| pattern_detector :=
       {| detect_all :=
            PatternDetector.detect_all
              (PatternDetector.init dictionary_words) |};
     entropy_calculator :=
       {| calculate_entropy := EntropyCalculator.calculate_entropy |};
     breach_checker :=
       {| check_breach :=
            BreachChecker.check_breach lib cfg
              (BreachChecker.init cfg fs blacklist_file) |};
     scorer :=
       {| calculate_score := PasswordScorer.calculate_score;
          classify_strength := PasswordScorer.classify_strength;
          generate_recommendations :=
            PasswordScorer.generate_recommendations |} |}.

(** The result dictionary, with its seven keys. *)
Record EvaluationResult : Type := {
  score : Z;
  strength : string;
  entropy_bits : float;
  issues : list string;
  recommendations : list string;
  is_breached : bool;
  breach_reason : option string
}.

(** Step 7 of [evaluate]: the issues of every category, the breach reason in
    front, and the placeholder when there is none. *)
Definition format_issues (pattern_issues : PatternDetector.PatternIssues)
  (is_breached : bool) (breach_reason : option string) : list string :=
  let issues := flat_map snd pattern_issues in
  let issues :=
    if is_breached && PatternDetector.truthy breach_reason
    then default "" breach_reason :: issues
    else issues in
  match issues with
  | [] => ["No major issues detected"]
  | _ => issues
  end.

Definition evaluate (self : t) (password : string)
  (username email : option string)
  : BreachChecker.Sent (Exc EvaluationResult) :=
  if String.eqb password "" then
    (Ok {| score := 0;
           strength := "Weak";
           entropy_bits := lit 0;
           issues := ["Password is empty"];
           recommendations := ["Password cannot be empty"];
           is_breached := false;
           breach_reason := None |}, [])
  else
    match detect_all (pattern_detector self) password username email with
    | Raise e => (Raise e, [])
    | Ok pattern_issues =>
        let has_patterns :=
          match pattern_issues with [] => false | _ => true end in
        match calculate_entropy (entropy_calculator self)
                                password has_patterns with
        | Raise e => (Raise e, [])
        | Ok (entropy_bits, char_classes) =>
            let '((is_breached, breach_reason), sent) :=
              check_breach (breach_checker self) password in
            let length := Z.of_nat (Str.len password) in
            (let* score :=
               calculate_score (scorer self) entropy_bits pattern_issues
                               is_breached length in
             let strength := classify_strength (scorer self) score in
             let recommendations :=
               generate_recommendations (scorer self)
                 score strength entropy_bits pattern_issues is_breached
                 char_classes length in
             Ok {| score := score;
                   strength := strength;
                   entropy_bits := round_float entropy_bits 2;
                   issues :=
                     format_issues pattern_issues is_breached breach_reason;
                   recommendations := recommendations;
                   is_breached := is_breached;
                   breach_reason := breach_reason |},
             sent)
        end
    end.

End WithFloat.
End PasswordEvaluator.

(** ** cli.py *)

Module cli.

(** [load_dictionary_words(wordlist_file)]: the file system is the one of
    [BreachChecker], and the path is looked up as it is given.  The result is
    a [set]; a detector that is built from it iterates it in an order of its
    own. *)
Definition load_dictionary_words (fs : BreachChecker.FileSystem)
  (wordlist_file : string) : gset string :=
  match fs wordlist_file with
  | Some (Ok lines) =>
      list_to_set
        (map (fun line => Str.lower (Str.strip line))
             (List.filter (fun line => negb (String.eqb (Str.strip line) ""))
                          lines))
  | Some (Raise _) => ∅
  | None => ∅
  end.

End cli.

(** ** An implementation of the floats: exact rational arithmetic

    No rounding, no infinities and no NaN; [log2] is cut off after thirty
    binary places.  It makes the definitions above run, and it satisfies the order
    laws of the floats that the entropy theorem asks for. *)

Module QFloat.

(** Rounding to the nearest integer, ties to even. *)
Definition round_half_even (q : Q) : Z :=
  let f := Qfloor q in
  match Qcompare (q - inject_Z f) (1 # 2) with
  | Lt => f
  | Gt => f + 1
  | Eq => if Z.even f then f else f + 1
  end.

Definition pad_zeros (n : nat) (s : string) : string :=
  Str.of_chars (repeat "0"%char (n - Str.len s)) +:+ s.

Definition format_fixed (q : Q) (n : nat) : string :=
  let scale := 10 ^ Z.of_nat n in
  let r := round_half_even (Qabs q * inject_Z scale) in
  let body :=
    Str.str_of_int (r / scale)
    +:+ (if (n =? 0)%nat then ""
         else "." +:+ pad_zeros n (Str.str_of_int (r mod scale))) in
  if negb (Qle_bool 0 q) then "-" +:+ body else body.

Definition round_digits (q : Q) (n : Z) : Q :=
  if 0 <=? n
  then inject_Z (round_half_even (q * inject_Z (10 ^ n))) / inject_Z (10 ^ n)
  else inject_Z (round_half_even (q / inject_Z (10 ^ (- n)))) * inject_Z (10 ^ (- n)).

(** [log2] of a positive integer to thirty binary places.  The integer part
    is [Z.log2]; the places come from squaring the mantissa, a fixed-point
    number with 64 binary places in [1, 2), thirty times: a square of 2 or
    more gives the place 1 and is halved. *)
Definition log2_step (st : Z * Z) (_ : nat) : Z * Z :=
  let '(bits, x) := st in
  let y := Z.shiftr (x * x) 64 in
  if 36893488147419103232 <=? y then (2 * bits + 1, Z.shiftr y 1)
  else (2 * bits, y).

Definition log2_places (n : Z) : Q :=
  match n with
  | Zpos p =>
      let k := Z.log2 (Zpos p) in
      let mantissa := Z.shiftl (Zpos p) (64 - k) in
      let '(bits, _) := fold_left log2_step (seq 0 30) (0, mantissa) in
      Qmake (k * 1073741824 + bits) 1073741824
  | _ => 0
  end.

Definition exact : PyFloat :=
  {| float := Q;
     of_int := inject_Z;
     lit := fun q => q;
     fadd := Qplus;
     fsub := Qminus;
     fmul := Qmult;
     fdiv := Qdiv;
     flt := fun a b => negb (Qle_bool b a);
     fle := Qle_bool;
     log2 := log2_places;
     int_of_float := fun q => Ok (Z.quot (Qnum q) (Zpos (Qden q)));
     round_float := round_digits;
     format_f := format_fixed |}.

(** [math.log2] on a positive rational: the difference of the logarithms of
    its numerator and its denominator. *)
Definition log2_of_float (q : Q) : Exc Q :=
  if Qle_bool q 0 then Raise (Exn ValueError "math domain error")
  else Ok (log2_places (Qnum q) - log2_places (Zpos (Qden q)))%Q.

Definition exact_log2 : @PyFloatLog2 exact :=
  @Build_PyFloatLog2 exact log2_of_float.

End QFloat.

(** * Vocabulary of the statements *)

(** Four superscript twos (U+00B2): [isdigit()] holds of them, [int()] does
    not convert them. *)
Definition superscript_twos : string :=
  Str.of_chars (repeat (Str.chr 178) 4).

(** The reason given for a password found in the local blacklist. *)
Definition blacklist_reason : string :=
  "Password found in common breach database (top 10k)".

(** The two reasons that assert a breach. *)
Definition is_breach_reason (reason : string) : Prop :=
  reason = blacklist_reason
  \/ exists count,
       reason = "Password found in HIBP database (" +:+ count +:+ " breaches)".

(** The prefix of the hash that a query is built from. *)
Definition hash_prefix (password : string) : string :=
  Str.slice (Str.upper (Hashlib.sha1_hexdigest password)) 0 5.

(** The rest of the hash, which the response is searched for. *)
Definition hash_suffix (password : string) : string :=
  Str.drop (Str.upper (Hashlib.sha1_hexdigest password)) 5.

(** A library whose every request is answered by a page that is no list of
    hashes. *)
Definition garbled : Requests.Library :=
  {| Requests.importable := true;
     Requests.get := fun _ _ =>
       Ok {| Requests.status_code := 200;
             Requests.text := "<html>Service Unavailable</html>" |} |}.

(** A library whose every request times out, the configuration with the
    remote check switched on, and a checker with an empty blacklist. *)
Definition timing_out : Requests.Library :=
  {| Requests.importable := true;
     Requests.get := fun _ _ => Raise (Exn RequestException "timed out") |}.

Definition remote_enabled : config.BreachConfig :=
  {| config.local_blacklist_file := config.local_blacklist_file config.BREACH_CONFIG;
     config.hibp_api_url := config.hibp_api_url config.BREACH_CONFIG;
     config.hibp_enabled := true;
     config.breach_force_weak := true |}.

Definition empty_checker : BreachChecker.t :=
  {| BreachChecker.blacklist_file := "data/top_10k_passwords.txt";
     BreachChecker.blacklist := ∅ |}.

(** What C2 promises of a result: not breached, with a reason that is not a
    breach reason. *)
Definition fail_open_with_diagnostic (result : bool * option string) : Prop :=
  exists diagnostic,
    result = (false, Some diagnostic) /\ ~ is_breach_reason diagnostic.

(** The advice [generate_recommendations] has for a pattern category, in the
    order of its tests. *)
Definition pattern_advice : list (string * string) :=
  [ ("repeated_chars", "Avoid repeating the same character multiple times.");
    ("sequential_chars", "Avoid sequential patterns (abc, 123, etc.).");
    ("keyboard_pattern", "Avoid keyboard patterns (qwerty, asdf, etc.).");
    ("dictionary_word",
     "Avoid common dictionary words. Use random or uncommon words.");
    ("year_pattern",
     "Avoid year patterns. Don't use birth years or common years.");
    ("username_similarity",
     "Don't use your username or email in your password.");
    ("leetspeak",
     "Leetspeak substitutions (p@ssw0rd) are predictable. Use truly random characters.") ].

Definition is_pattern_advice (recommendation : string) : bool :=
  existsb (String.eqb recommendation) (map snd pattern_advice).

(** The pattern advice among a list of recommendations. *)
Definition pattern_part (recommendations : list string) : list string :=
  List.filter is_pattern_advice recommendations.

(** The flags of a password with all four character classes. *)
Definition all_classes : EntropyCalculator.CharClasses :=
  {| EntropyCalculator.has_lower := true;
     EntropyCalculator.has_upper := true;
     EntropyCalculator.has_digit := true;
     EntropyCalculator.has_special := true;
     EntropyCalculator.pool_size := Some 95 |}.

(** The recommendations for a strong, long password of 70 bits with the
    given pattern issues, in exact arithmetic. *)
Definition advice_for_patterns (pattern_issues : Dict.dict (list string))
  : list string :=
  PasswordScorer.generate_recommendations (H := QFloat.exact)
    85 "Very Strong" (70 # 1) pattern_issues false all_classes 16.

(** What C3 promises: some fixed message per category such that the messages
    of the present categories appear once each, in the order of
    [PatternDetector.categories]. *)
Definition canonical_layout (advice : string -> string) : Prop :=
  forall pattern_issues : Dict.dict (list string),
    List.filter
      (fun r => existsb (fun c => String.eqb r (advice c))
                        PatternDetector.categories)
      (advice_for_patterns pattern_issues)
    = map advice
        (List.filter (fun c => Dict.mem c pattern_issues)
                     PatternDetector.categories).

(** The value of a decimal digit. *)
Definition digit (c : ascii) : Z := Z.of_N (Str.ord c) - 48.

(** Each character of the list is the [step] of the one before it, modulo
    10. *)
Definition successive (step : Z -> Z) (l : list ascii) : Prop :=
  forall k a b,
    nth_error l k = Some a -> nth_error l (S k) = Some b ->
    digit b = step (digit a) mod 10.

(** The four kinds of sequence [_detect_sequential_chars] reports. *)
Definition kinds : list string :=
  ["ascending"; "descending"; "numerical"; "numerical descending"].

(** The order laws of the floats that the entropy theorem rests on.  They
    hold of IEEE 754 binary64 with a [log2] that is finite and not negative
    from 1 on: comparisons are those of the extended reals when no NaN is
    involved, rounding is monotone, and a product of finite numbers is never
    a NaN.  [finite] singles out the floats that are neither infinite nor
    NaN. *)
Record FloatOrder `{PyFloat} : Type := {
  finite : float -> Prop;
  fle_zero : fle (lit 0) (lit 0) = true;
  flt_fle : forall a b, flt a b = true -> fle a b = true;
  flt_fle_trans :
    forall a b c, flt a b = true -> fle b c = true -> flt a c = true;
  of_int_finite : forall n, 0 <= n < 2 ^ 63 -> finite (of_int n);
  of_int_nonneg : forall n, 0 <= n -> fle (lit 0) (of_int n) = true;
  of_int_mono : forall n m, n <= m -> fle (of_int n) (of_int m) = true;
  log2_finite : forall n, 1 <= n -> finite (log2 n);
  log2_nonneg : forall n, 1 <= n -> fle (lit 0) (log2 n) = true;
  fmul_nonneg :
    forall a c, finite a -> finite c ->
      fle (lit 0) a = true -> fle (lit 0) c = true ->
      fle (lit 0) (fmul a c) = true;
  fmul_mono_finite :
    forall a b c, finite a -> finite b -> finite c ->
      fle a b = true -> fle (lit 0) c = true ->
      fle (fmul a c) (fmul b c) = true;
  fmul_mono_pos :
    forall a b c, finite c -> flt (lit 0) c = true ->
      fle a b = true -> fle (fmul a c) (fmul b c) = true;
  fmul_shrink :
    forall a c, fle (lit 0) a = true ->
      flt (lit 0) c = true -> fle c (of_int 1) = true ->
      fle (fmul a c) a = true;
  penalty_finite :
    finite (fsub (of_int 1) (lit config.ENTROPY_PENALTY_MULTIPLIER));
  penalty_pos :
    flt (lit 0) (fsub (of_int 1) (lit config.ENTROPY_PENALTY_MULTIPLIER))
    = true;
  penalty_le_one :
    fle (fsub (of_int 1) (lit config.ENTROPY_PENALTY_MULTIPLIER)) (of_int 1)
    = true
}.

(** Two passwords have the same character classes. *)
Definition same_classes (c1 c2 : EntropyCalculator.CharClasses) : Prop :=
  EntropyCalculator.has_lower c1 = EntropyCalculator.has_lower c2
  /\ EntropyCalculator.has_upper c1 = EntropyCalculator.has_upper c2
  /\ EntropyCalculator.has_digit c1 = EntropyCalculator.has_digit c2
  /\ EntropyCalculator.has_special c1 = EntropyCalculator.has_special c2.

(** The entropy of a password that is not empty, as the code computes it. *)
Definition entropy_of `{PyFloat} (length pool : Z) (has_patterns : bool)
  : float :=
  let base_entropy := fmul (of_int length) (log2 pool) in
  Float.max (lit 0)
    (if has_patterns
     then fmul base_entropy (fsub (of_int 1) (lit config.ENTROPY_PENALTY_MULTIPLIER))
     else base_entropy).


(** The environment of the tests: no blacklist file. *)
Definition no_files : BreachChecker.FileSystem := fun _ => None.

Definition detector : PatternDetector.t := PatternDetector.init None.

Definition default_evaluator : @PasswordEvaluator.t QFloat.exact :=
  PasswordEvaluator.init timing_out config.BREACH_CONFIG no_files None None.

(** The categories [detect_all] finds. *)
Definition found (self : PatternDetector.t) (password : string)
  (username email : option string) : Exc (list string) :=
  let* issues :=
    PatternDetector.detect_all (H := QFloat.exact) self password username email
  in Ok (Dict.keys issues).

(** A result without its float: the entropy as [format(entropy_bits, '.2f')]. *)
Definition summary (result : Exc (@PasswordEvaluator.EvaluationResult QFloat.exact))
  : Exc (Z * string * string * list string * list string * bool
         * option string) :=
  let* r := result in
  Ok (PasswordEvaluator.score r, PasswordEvaluator.strength r,
      format_f (PasswordEvaluator.entropy_bits r) 2,
      PasswordEvaluator.issues r, PasswordEvaluator.recommendations r,
      PasswordEvaluator.is_breached r, PasswordEvaluator.breach_reason r).

(** ** Vocabulary of the further properties *)




(** Each character of the list has the code of the one before it plus 1,
    or minus 1. *)
Definition rising (l : list ascii) : Prop :=
  forall k a b,
    nth_error l k = Some a -> nth_error l (S k) = Some b ->
    Str.ord b = (Str.ord a + 1)%N.

Definition falling (l : list ascii) : Prop :=
  forall k a b,
    nth_error l k = Some a -> nth_error l (S k) = Some b ->
    Z.of_N (Str.ord b) = Z.of_N (Str.ord a) - 1.

(** Four keys in a row on one of the keyboard rows, from left to right or
    from right to left. *)
Definition keyboard_run (w : string) : Prop :=
  exists row i,
    In row PatternDetector.KEYBOARD_ROWS
    /\ (i + 4 <= Str.len row)%nat
    /\ (w = Str.slice row i 4 \/ w = Str.slice (Str.reversed row) i 4).

Definition keyboard_issue (window : string) : string :=
  "Keyboard pattern detected: '" +:+ window +:+ "'".

Definition leetspeak_issue (word : string) : string :=
  "Leetspeak substitution detected (resembles '" +:+ word +:+ "')".

(** The words of [leet_patterns] that match their own pattern: every one
    but "love", whose pattern asks for the digits 0 and 3. *)
Definition plain_leet_words : list string :=
  ["admin"; "password"; "hack"; "test"].

(** The pattern accepts the word itself. *)
Definition accepts (pattern : PatternDetector.regex) (word : string) : Prop :=
  Forall2 (fun cls c => Str.char_in c cls = true) pattern (Str.chars word).

Definition whole_word_issue (password_lower : string) : string :=
  "Password is a common dictionary word: '" +:+ password_lower +:+ "'".

Definition contains_word_issue (word : string) : string :=
  "Contains dictionary word: '" +:+ word +:+ "'".

(** The string has no apostrophe. *)
Definition no_apostrophe (s : string) : Prop := Str.char_in "'" s = false.

Definition year_pattern_issue (year_str : string) : string :=
  "Year pattern detected: '" +:+ year_str +:+ "'".

(** The number that four decimal digits write. *)
Definition year_value (a b c d : ascii) : Z :=
  1000 * digit a + 100 * digit b + 10 * digit c + digit d.

(** The list is empty or ends in a character that is no decimal digit. *)
Definition ends_without_digit (l : list ascii) : Prop :=
  match rev l with
  | [] => True
  | x :: _ => Str.isdecimal_char x = false
  end.

Definition contains_username_issue (username : string) : string :=
  "Password contains username: '" +:+ username +:+ "'".

Definition contains_email_issue (email_local : string) : string :=
  "Password contains email username: '" +:+ email_local +:+ "'".

(** Which categories of a pattern-issue map have issues, in the order of
    the map. *)
Definition pattern_shape (pattern_issues : Dict.dict (list string))
  : list (string * bool) :=
  map (fun entry => (fst entry, match snd entry with [] => false | _ => true end))
      pattern_issues.

(** The four character classes of a password, as [calculate_entropy] tests
    them: lower case, upper case, digit, special. *)
Definition character_classes (password : string) : bool * bool * bool * bool :=
  (Str.any_char Str.islower_char password,
   Str.any_char Str.isupper_char password,
   Str.any_char Str.isdigit_char password,
   Str.any_char (fun c => Str.char_in c EntropyCalculator.SPECIAL_CHARS)
                password).

(** The sum of the counts of a frequency table. *)
Definition total_count (char_counts : list (ascii * Z)) : Z :=
  fold_right (fun entry total => snd entry + total) 0 char_counts.

(** The path [_load_blacklist] reads for a checker. *)
Definition blacklist_path (self : BreachChecker.t) : string :=
  config.DATA_DIR +:+ "/"
    +:+ BreachChecker.basename (BreachChecker.blacklist_file self).

(** The reason given for a password found by the remote service. *)
Definition hibp_reason (count : string) : string :=
  "Password found in HIBP database (" +:+ count +:+ " breaches)".


(** The query [_check_hibp] sends for a password. *)
Definition prefix_query (cfg : config.BreachConfig) (password : string)
  : Requests.HttpRequest :=
  {| Requests.url := config.hibp_api_url cfg +:+ hash_prefix password;
     Requests.timeout := 5 |}.

(** The one recommendation for a breached password, and the one for a
    password nothing is held against. *)
Definition compromised : string :=
  "This password has been compromised in a data breach. Use a completely different password.".

Definition good_practice : string :=
  "Password meets good security practices. Keep it secure and don't reuse it.".

(** The seven categories [generate_recommendations] has advice for. *)
Definition advised_categories : list string := map fst pattern_advice.



(** A file system with a blacklist of three passwords, as [for line in f]
    reads it: every line but the last ends in a line feed. *)
Definition line_feed : string := String (Str.chr 10) "".

Definition listed_files : BreachChecker.FileSystem :=
  fun path =>
    if String.eqb path "data/top_10k_passwords.txt"
    then Some (Ok [ "123456" +:+ line_feed; " Password " +:+ line_feed;
                    line_feed; "qwerty" ])
    else None.

Definition listed_evaluator : @PasswordEvaluator.t QFloat.exact :=
  PasswordEvaluator.init timing_out config.BREACH_CONFIG listed_files None None.


(** * Properties *)

(** ** Strings *)

Lemma chars_of_chars l : Str.chars (Str.of_chars l) = l.
Proof. apply list_ascii_of_string_of_list_ascii. Qed.

Lemma of_chars_chars s : Str.of_chars (Str.chars s) = s.
Proof. apply string_of_list_ascii_of_string. Qed.

Lemma chars_length s : List.length (Str.chars s) = String.length s.
Proof.
  unfold Str.chars. induction s as [|c s IH]; simpl; [reflexivity|].
  f_equal. exact IH.
Qed.

Lemma substring_length s : forall j n,
  (j + n <= String.length s)%nat ->
  String.length (String.substring j n s) = n.
Proof.
  induction s as [|c s IH]; intros j n Hlen; simpl in Hlen.
  - assert (j = O /\ n = O) as [-> ->] by lia. reflexivity.
  - destruct j as [|j]; simpl.
    + destruct n as [|n]; [reflexivity|]. simpl. f_equal. apply IH. lia.
    + apply IH. lia.
Qed.

Lemma append_inj_length (w w' r r' : string) :
  String.length w = String.length w' ->
  w +:+ r = w' +:+ r' -> w = w' /\ r = r'.
Proof.
  revert w'. induction w as [|c w IH]; intros [|c' w'] Hlen Heq;
    simpl in *; try discriminate.
  - auto.
  - injection Heq as -> Heq. injection Hlen as Hlen.
    destruct (IH w' Hlen Heq) as [-> ->]. auto.
Qed.

Lemma of_chars_app l1 l2 :
  Str.of_chars (l1 ++ l2) = Str.of_chars l1 +:+ Str.of_chars l2.
Proof.
  unfold Str.of_chars. induction l1 as [|c l1 IH]; simpl; [reflexivity|].
  rewrite IH. reflexivity.
Qed.

Lemma of_chars_length l : String.length (Str.of_chars l) = List.length l.
Proof. rewrite <- chars_length, chars_of_chars. reflexivity. Qed.

Lemma map_str_length f s : String.length (Str.map_str f s) = String.length s.
Proof.
  unfold Str.map_str. rewrite of_chars_length, length_map. apply chars_length.
Qed.

Lemma sha1_hexdigest_length s : String.length (Hashlib.sha1_hexdigest s) = 40%nat.
Proof.
  unfold Hashlib.sha1_hexdigest. cbv zeta.
  destruct (fold_left Hashlib.compress _ Hashlib.initial)
    as [[[[h0 h1] h2] h3] h4].
  rewrite of_chars_length. reflexivity.
Qed.


(** ** Scorer *)

Section ScorerProperties.
Context `{PyFloat}.
Import PasswordScorer.

(** C1. A breached password scores exactly 0: with [is_breached = True]
    [calculate_score] returns 0 for every entropy, every pattern-issue map
    and every length, before any of them is looked at. *)
Theorem calculate_score_breached_is_zero
  (entropy_bits : float) (pattern_issues : Dict.dict (list string))
  (length : Z) :
  calculate_score entropy_bits pattern_issues true length = Ok 0.
Proof. reflexivity. Qed.

Lemma calculate_score_clamped entropy_bits pattern_issues is_breached length s :
  calculate_score entropy_bits pattern_issues is_breached length = Ok s ->
  0 <= s <= 100.
Proof.
  unfold calculate_score.
  destruct is_breached.
  - intros [= <-]. lia.
  - destruct (base_score entropy_bits) as [b|e]; simpl; [|discriminate].
    intros [= <-]. lia.
Qed.

Lemma classify_strength_bands (s : Z) :
  (s < 40 -> classify_strength s = "Weak")
  /\ (40 <= s < 60 -> classify_strength s = "Medium")
  /\ (60 <= s < 80 -> classify_strength s = "Strong")
  /\ (80 <= s -> classify_strength s = "Very Strong").
Proof.
  unfold classify_strength; simpl.
  repeat split; intros Hs;
    repeat match goal with
           | |- context [?a <? ?b] =>
               destruct (Z.ltb_spec a b); try lia
           end; reflexivity.
Qed.

(** C4. A score returned by [calculate_score] lies between 0 and 100, and
    [classify_strength] gives it one label by the bands: below 40 Weak,
    from 40 below 60 Medium, from 60 below 80 Strong, from 80 to 100
    Very Strong. *)
Theorem score_in_range_and_classified
  (entropy_bits : float) (pattern_issues : Dict.dict (list string))
  (is_breached : bool) (length s : Z) :
  calculate_score entropy_bits pattern_issues is_breached length = Ok s ->
  0 <= s <= 100
  /\ (s < 40 -> classify_strength s = "Weak")
  /\ (40 <= s < 60 -> classify_strength s = "Medium")
  /\ (60 <= s < 80 -> classify_strength s = "Strong")
  /\ (80 <= s <= 100 -> classify_strength s = "Very Strong").
Proof.
  intros Hs.
  split; [exact (calculate_score_clamped _ _ _ _ _ Hs)|].
  destruct (classify_strength_bands s) as (Hw & Hm & Hst & Hv).
  repeat split; auto. intros [? _]. auto.
Qed.

End ScorerProperties.

(** The score of an entropy of 45.5 bits, no pattern and length 10, in exact
    arithmetic: 55 points from the entropy and 1 for the length. *)
Lemma score_in_range_and_classified_witness :
  PasswordScorer.calculate_score (H := QFloat.exact) (455 # 10) [] false 10
    = Ok 56
  /\ 0 <= 56 <= 100
  /\ PasswordScorer.classify_strength 56 = "Medium".
Proof.
  assert (Hs : PasswordScorer.calculate_score (H := QFloat.exact)
                 (455 # 10) [] false 10 = Ok 56) by reflexivity.
  destruct (score_in_range_and_classified (H := QFloat.exact)
              (455 # 10) [] false 10 56 Hs) as (Hr & _ & Hm & _).
  split; [exact Hs|]. split; [exact Hr|]. apply Hm. lia.
Defined.

(** ** Evaluator *)

Section EvaluatorProperties.
Context `{PyFloat}.
Import PasswordEvaluator.

(** C9. The empty password has a fixed result: score 0, strength Weak,
    entropy 0.0, not breached, no breach reason, the one issue
    "Password is empty".  It is returned whatever the four components are
    (so none of their methods is called), and no request is sent. *)
Theorem evaluate_empty_password
  (self : PasswordEvaluator.t) (username email : option string) :
  evaluate self "" username email
  = (Ok {| score := 0;
           strength := "Weak";
           entropy_bits := lit 0;
           issues := ["Password is empty"];
           recommendations := ["Password cannot be empty"];
           is_breached := false;
           breach_reason := None |},
     []).
Proof. reflexivity. Qed.

(** C5 fails on the code: the evaluator built by [PasswordEvaluator(...)]
    raises [ValueError] on the password of four superscript twos, in every
    environment and with every username and e-mail.  [_is_ascending_numeric]
    takes the window for digits and then calls [int] on one of them. *)
Theorem evaluate_raises_on_superscript_digits
  (lib : Requests.Library) (cfg : config.BreachConfig)
  (fs : BreachChecker.FileSystem)
  (dictionary_words : option (list string)) (blacklist_file : option string)
  (username email : option string) :
  evaluate (init lib cfg fs dictionary_words blacklist_file)
           superscript_twos username email
  = (Raise (Exn ValueError
             ("invalid literal for int() with base 10: '"
                +:+ String (Str.chr 178) "'")),
     []).
Proof. reflexivity. Qed.

End EvaluatorProperties.

(** ** Breach checker *)

Section BreachProperties.
Import config Requests BreachChecker.

Lemma check_breach_blacklisted lib cfg self password :
  Str.lower password ∈ blacklist self ->
  check_breach lib cfg self password = ((true, Some blacklist_reason), []).
Proof.
  intros Hin. unfold check_breach.
  rewrite bool_decide_eq_true_2 by exact Hin. reflexivity.
Qed.

Lemma lower_char_idempotent c :
  Str.lower_char (Str.lower_char c) = Str.lower_char c.
Proof. destruct c as [[] [] [] [] [] [] [] []]; reflexivity. Qed.

Lemma lower_idempotent s : Str.lower (Str.lower s) = Str.lower s.
Proof.
  unfold Str.lower, Str.map_str. rewrite chars_of_chars, map_map.
  f_equal. apply map_ext. intros c. apply lower_char_idempotent.
Qed.

(** C10. After [add_to_blacklist(p)], [check_breach(p')] reports a breach
    with a reason, and sends no request, for every [p'] that lowercases to
    the same string as [p], in every state of the checker: both methods
    lowercase their argument before they touch the set.  In particular
    [p' = p], and [p' = p.lower()]. *)
Theorem blacklist_add_then_check
  (lib : Library) (cfg : BreachConfig) (self : BreachChecker.t)
  (p p' : string) :
  Str.lower p' = Str.lower p ->
  check_breach lib cfg (add_to_blacklist self p) p'
  = ((true, Some blacklist_reason), [])
  /\ check_breach lib cfg (add_to_blacklist self p) p
     = ((true, Some blacklist_reason), [])
  /\ check_breach lib cfg (add_to_blacklist self p) (Str.lower p)
     = ((true, Some blacklist_reason), []).
Proof.
  intros Hcase.
  assert (Hin : forall q, Str.lower q = Str.lower p ->
                  Str.lower q ∈ blacklist (add_to_blacklist self p)).
  { intros q ->. unfold add_to_blacklist; simpl.
    apply elem_of_union_l, elem_of_singleton_2. reflexivity. }
  repeat split; apply check_breach_blacklisted, Hin;
    [exact Hcase|reflexivity|apply lower_idempotent].
Qed.

Lemma hibp_query_sent lib cfg password :
  snd (hibp_query lib cfg password)
  = if importable lib
    then [{| url := hibp_api_url cfg +:+ hash_prefix password; timeout := 5 |}]
    else [].
Proof. unfold hibp_query. destruct (importable lib); reflexivity. Qed.

Lemma _check_hibp_sent lib cfg password :
  snd (_check_hibp lib cfg password) = snd (hibp_query lib cfg password).
Proof.
  unfold _check_hibp. destruct (hibp_query lib cfg password); reflexivity.
Qed.

Lemma check_breach_sent lib cfg self password :
  snd (check_breach lib cfg self password) = []
  \/ snd (check_breach lib cfg self password)
     = snd (_check_hibp lib cfg password).
Proof.
  unfold check_breach.
  destruct (bool_decide _); [left; reflexivity|].
  destruct (hibp_enabled cfg); [|left; reflexivity].
  destruct (_check_hibp lib cfg password) as [[[] reason] sent];
    right; reflexivity.
Qed.

Lemma hash_prefix_length password :
  String.length (hash_prefix password) = 5%nat.
Proof.
  unfold hash_prefix, Str.slice. apply substring_length.
  unfold Str.upper. rewrite map_str_length, sha1_hexdigest_length. simpl. lia.
Qed.

(** C6. The remote query depends on the password through the first five
    characters of its upper-case SHA-1 digest only: two passwords with the
    same prefix make [_check_hibp] send the same requests, and every request
    that [check_breach] sends is a GET of the base URL followed by that
    prefix, five of the forty characters of the digest. *)
Theorem hibp_query_by_prefix_only
  (lib : Library) (cfg : BreachConfig) (p1 p2 : string) :
  hash_prefix p1 = hash_prefix p2 ->
  snd (_check_hibp lib cfg p1) = snd (_check_hibp lib cfg p2)
  /\ (forall self request,
        In request (snd (check_breach lib cfg self p1)) ->
        request = {| url := hibp_api_url cfg +:+ hash_prefix p2;
                     timeout := 5 |})
  /\ String.length (hash_prefix p1) = 5%nat
  /\ String.length (Str.upper (Hashlib.sha1_hexdigest p1)) = 40%nat.
Proof.
  intros Hprefix.
  split; [rewrite !_check_hibp_sent, !hibp_query_sent, Hprefix; reflexivity|].
  split; [|split; [apply hash_prefix_length|]].
  - intros self request.
    destruct (check_breach_sent lib cfg self p1) as [-> | ->]; [intros []|].
    rewrite _check_hibp_sent, hibp_query_sent, Hprefix.
    destruct (importable lib); simpl; [|intros []].
    intros [<- | []]. reflexivity.
  - unfold Str.upper. rewrite map_str_length. apply sha1_hexdigest_length.
Qed.

(** The outcomes of a failed query at the level of [_check_hibp]. *)
Lemma _check_hibp_raised lib cfg password e :
  fst (hibp_query lib cfg password) = Raise e ->
  exists diagnostic,
    fst (_check_hibp lib cfg password) = (false, Some diagnostic)
    /\ ~ is_breach_reason diagnostic.
Proof.
  intros Hq. unfold _check_hibp.
  destruct (hibp_query lib cfg password) as [outcome sent].
  simpl in Hq. subst outcome. simpl.
  destruct (exn_cls e); eexists; (split; [reflexivity|]);
    intros [Hr | [count Hr]]; discriminate Hr.
Qed.

Lemma split1_chars_joins sep l : forall cur before after,
  Str.split1_chars sep cur l = Some (before, after) ->
  Str.of_chars (rev cur ++ l) = before +:+ String sep after.
Proof.
  induction l as [|c l IH]; intros cur before after Hs; simpl in Hs.
  - discriminate Hs.
  - destruct (Ascii.eqb_spec c sep) as [->|Hne].
    + injection Hs as <- <-. apply of_chars_app.
    + apply IH in Hs. simpl in Hs. rewrite <- app_assoc in Hs. exact Hs.
Qed.

Lemma split1_joins line sep before after :
  Str.split1 line sep = Some (before, after) ->
  line = before +:+ String sep after.
Proof.
  intros Hs. apply split1_chars_joins in Hs. simpl in Hs.
  unfold Str.of_chars, Str.chars in Hs.
  rewrite string_of_list_ascii_of_string in Hs. exact Hs.
Qed.

(** A body without a line [SUFFIX:COUNT] for the suffix looked for, a body
    that is no list of hashes included, reads as a clean lookup. *)
Lemma scan_lines_no_match suffix lines :
  (forall line count, In line lines -> line <> suffix +:+ ":" +:+ count) ->
  scan_lines suffix lines = (false, None).
Proof.
  induction lines as [|line lines IH]; intros Hno; simpl; [reflexivity|].
  assert (Hrest : scan_lines suffix lines = (false, None))
    by (apply IH; intros l c Hin; apply Hno; right; exact Hin).
  destruct (Str.char_in ":" line); [|exact Hrest].
  destruct (Str.split1 line ":") as [[before count]|] eqn:Hsplit;
    [|exact Hrest].
  destruct (String.eqb_spec before suffix) as [->|_]; [|exact Hrest].
  apply split1_joins in Hsplit.
  exfalso. apply (Hno line count); [left; reflexivity|exact Hsplit].
Qed.

Lemma _check_hibp_no_match lib cfg password response :
  importable lib = true ->
  get lib (hibp_api_url cfg +:+ hash_prefix password) 5 = Ok response ->
  status_code response <> 200
  \/ (forall line count,
        In line (Str.splitlines (text response)) ->
        line <> hash_suffix password +:+ ":" +:+ count) ->
  fst (_check_hibp lib cfg password) = (false, None).
Proof.
  intros Himp Hget Hbad. unfold _check_hibp, hibp_query.
  rewrite Himp. simpl. fold (hash_prefix password). rewrite Hget.
  destruct (Z.eqb_spec (status_code response) 200) as [Hok|_];
    [|reflexivity].
  destruct Hbad as [Hstatus | Hlines]; [contradiction|].
  simpl. apply scan_lines_no_match, Hlines.
Qed.

Lemma check_breach_not_breached_by_failure lib cfg self password :
  Str.lower password ∉ blacklist self ->
  fst (fst (_check_hibp lib cfg password)) = false ->
  fst (fst (check_breach lib cfg self password)) = false.
Proof.
  intros Hnot Hfail. unfold check_breach.
  rewrite bool_decide_eq_false_2 by exact Hnot.
  destruct (hibp_enabled cfg); [|reflexivity].
  destruct (_check_hibp lib cfg password) as [[breached reason] sent].
  simpl in Hfail. subst breached. reflexivity.
Qed.

Lemma check_breach_no_reason lib cfg self password :
  Str.lower password ∉ blacklist self ->
  fst (_check_hibp lib cfg password) = (false, None) ->
  fst (check_breach lib cfg self password) = (false, None).
Proof.
  intros Hnot Hclean. unfold check_breach.
  rewrite bool_decide_eq_false_2 by exact Hnot.
  destruct (hibp_enabled cfg); [|reflexivity].
  destruct (_check_hibp lib cfg password) as [[breached reason] sent].
  simpl in Hclean. injection Hclean as -> ->. reflexivity.
Qed.

(** C2, as the code has it.  With the remote check enabled and the password
    not in the blacklist, a failed query never makes [check_breach] report a
    breach.  When the failure is a raised error (missing library, timeout,
    connection error) [_check_hibp] returns a diagnostic that is not a breach
    reason.  When it is a response with a status other than 200, or with a
    body that has no line for the suffix (a body that is no list of hashes
    included), [_check_hibp] and [check_breach] return no reason. *)
Theorem failed_query_is_fail_open
  (lib : Library) (cfg : BreachConfig) (self : BreachChecker.t)
  (password : string) :
  hibp_enabled cfg = true ->
  Str.lower password ∉ blacklist self ->
  (forall e,
     fst (hibp_query lib cfg password) = Raise e ->
     fst (fst (check_breach lib cfg self password)) = false
     /\ exists diagnostic,
          fst (_check_hibp lib cfg password) = (false, Some diagnostic)
          /\ ~ is_breach_reason diagnostic)
  /\ (forall response,
        importable lib = true ->
        get lib (hibp_api_url cfg +:+ hash_prefix password) 5 = Ok response ->
        status_code response <> 200
        \/ (forall line count,
              In line (Str.splitlines (text response)) ->
              line <> hash_suffix password +:+ ":" +:+ count) ->
        fst (check_breach lib cfg self password) = (false, None)
        /\ fst (_check_hibp lib cfg password) = (false, None)).
Proof.
  intros Henabled Hnot. split.
  - intros e Hq.
    destruct (_check_hibp_raised lib cfg password e Hq) as (d & Hd & Hdiag).
    split; [|eauto].
    apply check_breach_not_breached_by_failure; [exact Hnot|].
    rewrite Hd. reflexivity.
  - intros response Himp Hget Hbad.
    pose proof (_check_hibp_no_match lib cfg password response
                  Himp Hget Hbad) as Hr.
    split; [|exact Hr].
    apply check_breach_no_reason; assumption.
Qed.

End BreachProperties.

(** C2 fails for [check_breach]: when the request times out it returns
    [(False, None)], the result of a clean lookup, although [_check_hibp]
    had a diagnostic; and a response that is no list of hashes has no
    diagnostic in [_check_hibp] either. *)
Lemma check_breach_drops_diagnostic :
  BreachChecker.check_breach timing_out remote_enabled empty_checker "hunter2"
  = ((false, None),
     [{| Requests.url := "https://api.pwnedpasswords.com/range/F3BBB";
         Requests.timeout := 5 |}])
  /\ fst (BreachChecker._check_hibp timing_out remote_enabled "hunter2")
     = (false, Some "HIBP check failed: timed out")
  /\ ~ fail_open_with_diagnostic
       (fst (BreachChecker.check_breach timing_out remote_enabled
                                        empty_checker "hunter2"))
  /\ fst (BreachChecker._check_hibp garbled remote_enabled "hunter2")
     = (false, None)
  /\ ~ fail_open_with_diagnostic
       (fst (BreachChecker.check_breach garbled remote_enabled
                                        empty_checker "hunter2")).
Proof.
  assert (Hr : BreachChecker.check_breach timing_out remote_enabled
                 empty_checker "hunter2"
               = ((false, None),
                  [{| Requests.url := "https://api.pwnedpasswords.com/range/F3BBB";
                      Requests.timeout := 5 |}])) by (vm_compute; reflexivity).
  assert (Hg : fst (BreachChecker.check_breach garbled remote_enabled
                      empty_checker "hunter2") = (false, None))
    by (vm_compute; reflexivity).
  split; [exact Hr|]. split; [vm_compute; reflexivity|].
  split; [rewrite Hr; intros (d & Hd & _); discriminate Hd|].
  split; [vm_compute; reflexivity|].
  rewrite Hg. intros (d & Hd & _). discriminate Hd.
Qed.

Lemma failed_query_is_fail_open_witness :
  fst (fst (BreachChecker.check_breach timing_out remote_enabled
                                       empty_checker "hunter2")) = false
  /\ exists diagnostic,
       fst (BreachChecker._check_hibp timing_out remote_enabled "hunter2")
       = (false, Some diagnostic)
       /\ ~ is_breach_reason diagnostic.
Proof.
  assert (Hnot : Str.lower "hunter2" ∉ BreachChecker.blacklist empty_checker)
    by (simpl; apply not_elem_of_empty).
  destruct (failed_query_is_fail_open timing_out remote_enabled empty_checker
              "hunter2" eq_refl Hnot) as [Hraised _].
  apply (Hraised (Exn RequestException "timed out")).
  vm_compute. reflexivity.
Defined.

Lemma blacklist_add_then_check_witness :
  Str.lower "testPASSWORD" = Str.lower "TestPassword"
  /\ BreachChecker.check_breach timing_out remote_enabled
       (BreachChecker.add_to_blacklist empty_checker "TestPassword")
       "testPASSWORD"
     = ((true, Some blacklist_reason), []).
Proof.
  split; [reflexivity|].
  apply (blacklist_add_then_check timing_out remote_enabled empty_checker
           "TestPassword" "testPASSWORD").
  reflexivity.
Defined.

Lemma hibp_query_by_prefix_only_witness :
  hash_prefix "pw2001" = hash_prefix "pw2501"
  /\ "pw2001" <> "pw2501"
  /\ snd (BreachChecker._check_hibp timing_out remote_enabled "pw2001")
     = snd (BreachChecker._check_hibp timing_out remote_enabled "pw2501").
Proof.
  assert (Hp : hash_prefix "pw2001" = hash_prefix "pw2501")
    by (vm_compute; reflexivity).
  split; [exact Hp|]. split; [discriminate|].
  exact (proj1 (hibp_query_by_prefix_only timing_out remote_enabled
                  "pw2001" "pw2501" Hp)).
Defined.

(** ** Recommendations *)

Section RecommendationProperties.
Context `{PyFloat}.
Import PasswordScorer.

Lemma pattern_part_append_other cond message l :
  is_pattern_advice message = false ->
  pattern_part (append_if cond message l) = pattern_part l.
Proof.
  intros Hm. unfold pattern_part, append_if. destruct cond; [|reflexivity].
  rewrite List.filter_app; simpl. rewrite Hm. apply app_nil_r.
Qed.

Lemma pattern_part_append_advice cond message l :
  is_pattern_advice message = true ->
  pattern_part (append_if cond message l)
  = pattern_part l ++ (if cond then [message] else []).
Proof.
  intros Hm. unfold pattern_part, append_if. destruct cond.
  - rewrite List.filter_app; simpl. rewrite Hm. reflexivity.
  - symmetry. apply app_nil_r.
Qed.

Lemma pattern_part_fallback fallback l :
  is_pattern_advice fallback = false ->
  pattern_part (match l with [] => [fallback] | _ => l end) = pattern_part l.
Proof.
  intros Hf. destruct l; [|reflexivity].
  unfold pattern_part; simpl. rewrite Hf. reflexivity.
Qed.

(** C3, as the code has it.  For a password that is not breached, the
    pattern advice in the recommendations is the advice of the categories
    present in the pattern-issue map, one message for each, in the order
    repeated_chars, sequential_chars, keyboard_pattern, dictionary_word,
    year_pattern, username_similarity, leetspeak. *)
Theorem pattern_advice_in_code_order
  (score : Z) (strength : string) (entropy_bits : float)
  (pattern_issues : Dict.dict (list string))
  (char_classes : EntropyCalculator.CharClasses) (length : Z) :
  pattern_part
    (generate_recommendations score strength entropy_bits pattern_issues
                              false char_classes length)
  = map snd
      (List.filter (fun entry => Dict.mem (fst entry) pattern_issues)
                   pattern_advice).
Proof.
  unfold generate_recommendations. cbv zeta.
  rewrite pattern_part_fallback by reflexivity.
  do 7 (rewrite pattern_part_append_advice by reflexivity).
  do 4 (rewrite pattern_part_append_other by reflexivity).
  assert (Hlen :
    forall l,
      pattern_part
        (if length <? 8
         then l ++ ["Password is too short. Use at least 8 characters."]
         else if length <? 12
         then l ++ ["Consider using a longer password (12+ characters) for better security."]
         else l)
      = pattern_part l).
  { intros l. unfold pattern_part.
    destruct (length <? 8); [|destruct (length <? 12)];
      rewrite ?List.filter_app; simpl; rewrite ?app_nil_r; reflexivity. }
  rewrite Hlen.
  do 2 (rewrite pattern_part_append_other by reflexivity).
  simpl.
  destruct (Dict.mem "repeated_chars" pattern_issues),
           (Dict.mem "sequential_chars" pattern_issues),
           (Dict.mem "keyboard_pattern" pattern_issues),
           (Dict.mem "dictionary_word" pattern_issues),
           (Dict.mem "year_pattern" pattern_issues),
           (Dict.mem "username_similarity" pattern_issues),
           (Dict.mem "leetspeak" pattern_issues);
    reflexivity.
Qed.

End RecommendationProperties.

(** C3 fails on the code: the advice for dictionary words comes before the
    advice for leetspeak, and a map with low_variety alone gets the same
    recommendations as the empty map; no choice of messages gives the
    canonical layout. *)
Lemma recommendations_not_in_canonical_order :
  advice_for_patterns [("leetspeak", ["x"]); ("dictionary_word", ["y"])]
  = [ "Avoid common dictionary words. Use random or uncommon words.";
      "Leetspeak substitutions (p@ssw0rd) are predictable. Use truly random characters." ]
  /\ advice_for_patterns [("low_variety", ["z"])] = advice_for_patterns []
  /\ ~ exists advice, canonical_layout advice.
Proof.
  split; [vm_compute; reflexivity|].
  split; [vm_compute; reflexivity|].
  intros [advice Hlayout].
  pose proof (Hlayout [("low_variety", ["z"])]) as Hlow.
  pose proof (Hlayout []) as Hnone.
  change (advice_for_patterns [("low_variety", ["z"])])
    with (advice_for_patterns []) in Hlow.
  rewrite Hnone in Hlow. discriminate Hlow.
Qed.

(** ** Sequential digits *)

Section SequentialProperties.
Import PatternDetector.

Lemma decimal_char_facts c :
  Str.isdecimal_char c = true ->
  Str.isdigit_char c = true
  /\ Str.isalpha_char c = false
  /\ Str.int_of_char c = Ok (digit c)
  /\ 0 <= digit c <= 9.
Proof.
  intros Hd.
  destruct c as [[] [] [] [] [] [] [] []];
    vm_compute in Hd; try discriminate Hd;
    vm_compute; repeat split; congruence.
Qed.

Lemma successive_cons step a b l :
  successive step (a :: b :: l)
  <-> digit b = step (digit a) mod 10 /\ successive step (b :: l).
Proof.
  unfold successive. split.
  - intros Hs. split.
    + apply (Hs O a b); reflexivity.
    + intros k x y Hx Hy. apply (Hs (S k) x y); assumption.
  - intros [Hab Hs] k x y Hx Hy. destruct k as [|k].
    + simpl in Hx, Hy. congruence.
    + apply (Hs k x y); assumption.
Qed.

Lemma successive_short step l : (List.length l <= 1)%nat -> successive step l.
Proof.
  intros Hl k a b Ha Hb.
  assert (S k < List.length l)%nat by (apply nth_error_Some; congruence).
  lia.
Qed.

Lemma numeric_steps_cons step a b l :
  numeric_steps step (a :: b :: l)
  = (let* next := Str.int_of_char b in
     let* cur := Str.int_of_char a in
     if negb (next =? step cur mod 10) then Ok false
     else numeric_steps step (b :: l)).
Proof. reflexivity. Qed.

Lemma numeric_steps_decimal step l :
  forallb Str.isdecimal_char l = true ->
  exists r, numeric_steps step l = Ok r /\ (r = true <-> successive step l).
Proof.
  induction l as [|a l IH]; intros Hd.
  - exists true. split; [reflexivity|].
    split; [intros _; apply successive_short; simpl; lia|reflexivity].
  - destruct l as [|b l].
    + exists true. split; [reflexivity|].
      split; [intros _; apply successive_short; simpl; lia|reflexivity].
    + simpl in Hd. apply andb_prop in Hd as [Ha Hd].
      destruct (IH Hd) as (r & Hr & Hiff).
      simpl in Hd. apply andb_prop in Hd as [Hb _].
      destruct (decimal_char_facts a Ha) as (_ & _ & Hia & _).
      destruct (decimal_char_facts b Hb) as (_ & _ & Hib & _).
      rewrite numeric_steps_cons, Hib, Hia. simpl.
      destruct (Z.eqb_spec (digit b) (step (digit a) mod 10)) as [Heq|Hne];
        simpl.
      * exists r. split; [exact Hr|].
        rewrite successive_cons. tauto.
      * exists false. split; [reflexivity|].
        rewrite successive_cons. split; [discriminate|tauto].
Qed.

Lemma decimal_window_classes s :
  s <> "" ->
  forallb Str.isdecimal_char (Str.chars s) = true ->
  Str.isdigit s = true /\ Str.isalpha s = false.
Proof.
  intros Hne Hd. unfold Str.isdigit, Str.isalpha, Str.all_chars.
  destruct s as [|c s]; [contradiction|].
  unfold Str.chars in *. simpl in *.
  apply andb_prop in Hd as [Hc Hd].
  destruct (decimal_char_facts c Hc) as (Hdig & Halpha & _).
  rewrite Hdig, Halpha. simpl. split; [|reflexivity].
  apply forallb_forall. intros x Hx.
  rewrite forallb_forall in Hd.
  apply (decimal_char_facts x (Hd x Hx)).
Qed.

Lemma ascending_numeric_decimal s :
  s <> "" ->
  forallb Str.isdecimal_char (Str.chars s) = true ->
  exists r, _is_ascending_numeric s = Ok r
            /\ (r = true <-> successive (fun d => d + 1) (Str.chars s)).
Proof.
  intros Hne Hd. unfold _is_ascending_numeric.
  destruct (decimal_window_classes s Hne Hd) as [-> _]. simpl.
  apply numeric_steps_decimal, Hd.
Qed.

Lemma descending_numeric_decimal s :
  s <> "" ->
  forallb Str.isdecimal_char (Str.chars s) = true ->
  exists r, _is_descending_numeric s = Ok r
            /\ (r = true <-> successive (fun d => d - 1) (Str.chars s)).
Proof.
  intros Hne Hd. unfold _is_descending_numeric.
  destruct (decimal_window_classes s Hne Hd) as [-> _]. simpl.
  apply numeric_steps_decimal, Hd.
Qed.

(** A window cannot go up and down at once. *)
Lemma not_both_ways l :
  (2 <= List.length l)%nat ->
  forallb Str.isdecimal_char l = true ->
  successive (fun d => d + 1) l -> successive (fun d => d - 1) l -> False.
Proof.
  destruct l as [|a [|b l]]; simpl; try lia.
  intros _ Hd Hup Hdown.
  apply andb_prop in Hd as [Ha _].
  destruct (decimal_char_facts a Ha) as (_ & _ & _ & Hrange).
  apply successive_cons in Hup as [Hup _].
  apply successive_cons in Hdown as [Hdown _].
  rewrite Hup in Hdown.
  assert (Hcases : digit a = 0 \/ digit a = 1 \/ digit a = 2 \/ digit a = 3
                   \/ digit a = 4 \/ digit a = 5 \/ digit a = 6
                   \/ digit a = 7 \/ digit a = 8 \/ digit a = 9) by lia.
  repeat destruct Hcases as [Hc | Hcases];
    try rewrite Hc in Hdown; try rewrite Hcases in Hdown;
    vm_compute in Hdown; discriminate Hdown.
Qed.

Lemma window_issue_decimal w :
  w <> "" ->
  forallb Str.isdecimal_char (Str.chars w) = true ->
  (successive (fun d => d + 1) (Str.chars w) ->
   window_issue w = Ok [sequential_issue w "numerical"])
  /\ (~ successive (fun d => d + 1) (Str.chars w) ->
      successive (fun d => d - 1) (Str.chars w) ->
      window_issue w = Ok [sequential_issue w "numerical descending"])
  /\ (~ successive (fun d => d + 1) (Str.chars w) ->
      ~ successive (fun d => d - 1) (Str.chars w) ->
      window_issue w = Ok []).
Proof.
  intros Hne Hd. unfold window_issue, _is_ascending_alpha, _is_descending_alpha.
  destruct (decimal_window_classes w Hne Hd) as [_ ->]. simpl.
  destruct (ascending_numeric_decimal w Hne Hd) as (up & -> & Hup).
  destruct (descending_numeric_decimal w Hne Hd) as (down & -> & Hdown).
  simpl. destruct up, down; simpl; repeat split; intros;
    try reflexivity;
    repeat match goal with
           | H : _ <-> _ |- _ => destruct H
           end;
    try tauto; try (exfalso; auto; fail);
    try match goal with
        | H : successive _ _ -> false = true |- _ =>
            discriminate (H ltac:(assumption))
        end.
Qed.

Lemma window_issue_kinds w l s :
  window_issue w = Ok l -> In s l ->
  exists kind, In kind kinds /\ s = sequential_issue w kind.
Proof.
  unfold window_issue, kinds.
  destruct (_is_ascending_alpha w).
  { intros [= <-] [<- | []]. exists "ascending". simpl. auto. }
  destruct (_is_descending_alpha w).
  { intros [= <-] [<- | []]. exists "descending". simpl. auto. }
  destruct (_is_ascending_numeric w) as [[]|]; simpl; try discriminate.
  { intros [= <-] [<- | []]. exists "numerical". simpl. auto. }
  destruct (_is_descending_numeric w) as [[]|]; simpl; try discriminate.
  { intros [= <-] [<- | []]. exists "numerical descending". simpl. auto 6. }
  intros [= <-] [].
Qed.

Lemma scan_windows_In ws : forall issues s,
  scan_windows ws = Ok issues ->
  (In s issues
   <-> exists w l, In w ws /\ window_issue w = Ok l /\ In s l).
Proof.
  induction ws as [|w ws IH]; simpl; intros issues s Hscan.
  - injection Hscan as <-. split; [intros []|intros (? & ? & [] & _)].
  - destruct (window_issue w) as [l|] eqn:Hw; simpl in Hscan; [|discriminate].
    destruct (scan_windows ws) as [rest|] eqn:Hrest; simpl in Hscan;
      [|discriminate].
    injection Hscan as <-. rewrite in_app_iff, (IH rest s eq_refl).
    split.
    + intros [Hin | (w' & l' & Hin & Hw' & Hs)].
      * exists w, l. auto.
      * exists w', l'. auto.
    + intros (w' & l' & [<- | Hin] & Hw' & Hs).
      * left. congruence.
      * right. exists w', l'. auto.
Qed.

Lemma windows_In password n w :
  In w (windows password n)
  <-> exists j, (j < Str.len password + 1 - n)%nat /\ w = Str.slice password j n.
Proof.
  unfold windows. rewrite in_map_iff. split.
  - intros (j & <- & Hj). apply in_seq in Hj. exists j. split; [lia|reflexivity].
  - intros (j & Hj & ->). exists j. split; [reflexivity|]. apply in_seq. lia.
Qed.

Lemma sequential_issue_inj w w' kind kind' :
  String.length w = String.length w' ->
  sequential_issue w kind = sequential_issue w' kind' ->
  w = w' /\ kind +:+ ")" = kind' +:+ ")".
Proof.
  intros Hlen Heq. unfold sequential_issue in Heq. simpl in Heq.
  repeat (injection Heq as Heq).
  destruct (append_inj_length _ _ _ _ Hlen Heq) as [-> Hrest].
  simpl in Hrest. repeat (injection Hrest as Hrest). auto.
Qed.

Lemma single_issue_inj w kind kind' :
  @Ok (list string) [sequential_issue w kind] = Ok [sequential_issue w kind'] ->
  kind +:+ ")" = kind' +:+ ")".
Proof.
  intros Heq.
  assert (Hs : sequential_issue w kind = sequential_issue w kind')
    by congruence.
  exact (proj2 (sequential_issue_inj _ _ _ _ eq_refl Hs)).
Qed.

(** What the detector makes of one window of four decimal digits. *)
Lemma decimal_window_report password i issues :
  let window := Str.slice password i 4 in
  (i + 4 <= Str.len password)%nat ->
  forallb Str.isdecimal_char (Str.chars window) = true ->
  _detect_sequential_chars password = Ok issues ->
  forall kind, In kind kinds ->
    (In (sequential_issue window kind) issues
     <-> window_issue window = Ok [sequential_issue window kind]).
Proof.
  intros window Hi Hd Hscan kind Hkind.
  assert (Hlen : String.length window = 4%nat)
    by (apply substring_length; exact Hi).
  assert (Hne : window <> "") by (intros E; rewrite E in Hlen; discriminate).
  unfold _detect_sequential_chars in Hscan. simpl in Hscan.
  rewrite (scan_windows_In _ _ _ Hscan). split.
  - intros (w & l & Hw & Hissue & Hin).
    destruct (window_issue_kinds w l _ Hissue Hin) as (kind' & Hkind' & Heq).
    apply windows_In in Hw as (j & Hj & ->).
    assert (Hlen' : String.length window
                    = String.length (Str.slice password j 4)).
    { rewrite Hlen. symmetry. apply substring_length. unfold Str.len in Hj. lia. }
    destruct (sequential_issue_inj _ _ _ _ Hlen' Heq) as [Hw Hk].
    fold window in Hissue, Heq. rewrite <- Hw in Hissue.
    destruct (window_issue_decimal window Hne Hd) as (Hup & Hdown & Hnone).
    destruct (ascending_numeric_decimal window Hne Hd) as (up & _ & Hu).
    destruct (descending_numeric_decimal window Hne Hd) as (down & _ & Hdn).
    assert (Hl : l = [sequential_issue window kind] \/ l = []
                 \/ exists k, l = [sequential_issue window k]
                              /\ k +:+ ")" <> kind +:+ ")").
    { unfold kinds in Hkind.
      destruct up.
      - rewrite (Hup (proj1 Hu eq_refl)) in Hissue. injection Hissue as <-.
        destruct Hkind as [<- | [<- | [<- | [<- | []]]]];
          auto; right; right; eexists; (split; [reflexivity|discriminate]).
      - assert (Hnup : ~ successive (fun d => d + 1) (Str.chars window))
          by (intros Hs; apply Hu in Hs; discriminate).
        destruct down.
        + rewrite (Hdown Hnup (proj1 Hdn eq_refl)) in Hissue.
          injection Hissue as <-.
          destruct Hkind as [<- | [<- | [<- | [<- | []]]]];
            auto; right; right; eexists; (split; [reflexivity|discriminate]).
        + assert (Hndown : ~ successive (fun d => d - 1) (Str.chars window))
            by (intros Hs; apply Hdn in Hs; discriminate).
          rewrite (Hnone Hnup Hndown) in Hissue. injection Hissue as <-. auto. }
    destruct Hl as [-> | [-> | (k & -> & Hk')]].
    + exact Hissue.
    + destruct Hin.
    + exfalso. destruct Hin as [Hin | []].
      destruct (sequential_issue_inj _ _ _ _ eq_refl Hin) as [_ Hkk].
      congruence.
  - intros Hissue. exists window, [sequential_issue window kind].
    split; [|split; [exact Hissue|left; reflexivity]].
    apply windows_In. exists i. split; [|reflexivity].
    unfold Str.len in *. lia.
Qed.

(** C8. In a window of four decimal digits the ascending test holds exactly
    when each digit is the one before it plus 1 modulo 10, and the descending
    test exactly when each is the one before it minus 1 modulo 10; the
    detector reports the window as numerical, or numerical descending, on
    exactly these conditions.  The wrap from 9 to 0 and from 0 to 9 is
    admitted: 9012 and 1098 are reported. *)
Theorem numeric_sequence_windows (password : string) (i : nat) :
  let window := Str.slice password i 4 in
  (i + 4 <= Str.len password)%nat ->
  forallb Str.isdecimal_char (Str.chars window) = true ->
  (_is_ascending_numeric window = Ok true
   <-> successive (fun d => d + 1) (Str.chars window))
  /\ (_is_descending_numeric window = Ok true
      <-> successive (fun d => d - 1) (Str.chars window))
  /\ (forall issues,
        _detect_sequential_chars password = Ok issues ->
        (In (sequential_issue window "numerical") issues
         <-> successive (fun d => d + 1) (Str.chars window))
        /\ (In (sequential_issue window "numerical descending") issues
            <-> successive (fun d => d - 1) (Str.chars window)))
  /\ _detect_sequential_chars "9012"
     = Ok ["Sequential pattern: '9012' (numerical)"]
  /\ _detect_sequential_chars "1098"
     = Ok ["Sequential pattern: '1098' (numerical descending)"].
Proof.
  intros window Hi Hd.
  assert (Hlen : String.length window = 4%nat)
    by (apply substring_length; exact Hi).
  assert (Hne : window <> "") by (intros E; rewrite E in Hlen; discriminate).
  destruct (window_issue_decimal window Hne Hd) as (Hup & Hdown & Hnone).
  destruct (ascending_numeric_decimal window Hne Hd) as (up & Hupr & Hu).
  destruct (descending_numeric_decimal window Hne Hd) as (down & Hdnr & Hdn).
  assert (Hboth : successive (fun d => d + 1) (Str.chars window) ->
                  successive (fun d => d - 1) (Str.chars window) -> False).
  { apply not_both_ways; [|exact Hd]. rewrite chars_length, Hlen. lia. }
  split; [|split; [|split; [|split; reflexivity]]].
  - rewrite Hupr, <- Hu. split; [intros [= ->]|intros ->]; reflexivity.
  - rewrite Hdnr, <- Hdn. split; [intros [= ->]|intros ->]; reflexivity.
  - intros issues Hscan.
    pose proof (decimal_window_report password i issues Hi Hd Hscan) as Hrep.
    fold window in Hrep. split.
    + rewrite (Hrep "numerical") by (unfold kinds; simpl; auto).
      split; [|exact Hup].
      intros Hissue. destruct up; [apply Hu; reflexivity|].
      assert (Hnup : ~ successive (fun d => d + 1) (Str.chars window))
        by (intros Hs; apply Hu in Hs; discriminate).
      destruct down.
      * rewrite (Hdown Hnup (proj1 Hdn eq_refl)) in Hissue.
        apply single_issue_inj in Hissue. discriminate Hissue.
      * rewrite Hnone in Hissue; [discriminate| exact Hnup |].
        intros Hs; apply Hdn in Hs; discriminate.
    + rewrite (Hrep "numerical descending") by (unfold kinds; simpl; auto 6).
      split.
      * intros Hissue. destruct up.
        { rewrite (Hup (proj1 Hu eq_refl)) in Hissue.
          apply single_issue_inj in Hissue. discriminate Hissue. }
        destruct down; [apply Hdn; reflexivity|].
        rewrite Hnone in Hissue; [discriminate| |];
          intros Hs; [apply Hu in Hs|apply Hdn in Hs]; discriminate.
      * intros Hs. apply Hdown; [|exact Hs].
        intros Hs'. exact (Hboth Hs' Hs).
Qed.

End SequentialProperties.

Lemma numeric_sequence_windows_witness :
  (1 + 4 <= Str.len "x9012")%nat
  /\ Str.slice "x9012" 1 4 = "9012"
  /\ forallb Str.isdecimal_char (Str.chars (Str.slice "x9012" 1 4)) = true
  /\ (PatternDetector._is_ascending_numeric (Str.slice "x9012" 1 4) = Ok true
      <-> successive (fun d => d + 1) (Str.chars (Str.slice "x9012" 1 4))).
Proof.
  assert (Hi : (1 + 4 <= Str.len "x9012")%nat) by (vm_compute; lia).
  assert (Hd : forallb Str.isdecimal_char
                 (Str.chars (Str.slice "x9012" 1 4)) = true) by reflexivity.
  split; [exact Hi|]. split; [reflexivity|]. split; [exact Hd|].
  exact (proj1 (numeric_sequence_windows "x9012" 1 Hi Hd)).
Defined.

(** ** Entropy *)

Section EntropyProperties.
Context `{PyFloat} (order : FloatOrder).
Import config EntropyCalculator.

Lemma pool_size_positive l u d s : 1 <= get_char_pool_size l u d s.
Proof. unfold get_char_pool_size. lia. Qed.

Lemma max_zero_nonneg x : fle (lit 0) (Float.max (lit 0) x) = true.
Proof.
  unfold Float.max. destruct (flt (lit 0) x) eqn:Hx.
  - apply (flt_fle order), Hx.
  - apply (fle_zero order).
Qed.

Lemma max_zero_mono x y :
  fle x y = true ->
  fle (Float.max (lit 0) x) (Float.max (lit 0) y) = true.
Proof.
  intros Hxy. unfold Float.max.
  destruct (flt (lit 0) x) eqn:Hx, (flt (lit 0) y) eqn:Hy.
  - exact Hxy.
  - rewrite (flt_fle_trans order _ _ _ Hx Hxy) in Hy. discriminate Hy.
  - apply (flt_fle order), Hy.
  - apply (fle_zero order).
Qed.

Lemma calculate_entropy_nonempty password has_patterns :
  password <> "" ->
  exists c,
    calculate_entropy password has_patterns
    = Ok (entropy_of (Z.of_nat (Str.len password))
                     (get_char_pool_size (has_lower c) (has_upper c)
                                         (has_digit c) (has_special c))
                     has_patterns, c)
    /\ has_lower c = Str.any_char Str.islower_char password
    /\ has_upper c = Str.any_char Str.isupper_char password
    /\ has_digit c = Str.any_char Str.isdigit_char password
    /\ has_special c
       = Str.any_char (fun ch => Str.char_in ch SPECIAL_CHARS) password.
Proof.
  intros Hne. unfold calculate_entropy.
  destruct (String.eqb_spec password ""); [contradiction|].
  cbv zeta. unfold Float.math_log2.
  match goal with
  | |- context [get_char_pool_size ?l ?u ?d ?s] =>
      pose proof (pool_size_positive l u d s) as Hpool;
      destruct (Z.leb_spec (get_char_pool_size l u d s) 0); [lia|]
  end.
  exists {| has_lower := Str.any_char Str.islower_char password;
            has_upper := Str.any_char Str.isupper_char password;
            has_digit := Str.any_char Str.isdigit_char password;
            has_special :=
              Str.any_char (fun ch => Str.char_in ch SPECIAL_CHARS) password;
            pool_size :=
              Some (get_char_pool_size
                      (Str.any_char Str.islower_char password)
                      (Str.any_char Str.isupper_char password)
                      (Str.any_char Str.isdigit_char password)
                      (Str.any_char (fun ch => Str.char_in ch SPECIAL_CHARS)
                                    password)) |}.
  simpl. split; [reflexivity|]. auto.
Qed.

Lemma entropy_of_mono_length n m pool has_patterns :
  0 <= n <= m -> m < 2 ^ 63 -> 1 <= pool ->
  fle (entropy_of n pool has_patterns) (entropy_of m pool has_patterns) = true.
Proof.
  intros Hnm Hm Hpool. unfold entropy_of. cbv zeta.
  apply max_zero_mono.
  assert (Hbase : fle (fmul (of_int n) (log2 pool))
                      (fmul (of_int m) (log2 pool)) = true).
  { apply (fmul_mono_finite order).
    - apply (of_int_finite order). lia.
    - apply (of_int_finite order). lia.
    - apply (log2_finite order), Hpool.
    - apply (of_int_mono order). lia.
    - apply (log2_nonneg order), Hpool. }
  destruct has_patterns; [|exact Hbase].
  apply (fmul_mono_pos order);
    [apply (penalty_finite order)|apply (penalty_pos order)|exact Hbase].
Qed.

Lemma entropy_of_penalised n pool :
  0 <= n < 2 ^ 63 -> 1 <= pool ->
  fle (entropy_of n pool true) (entropy_of n pool false) = true.
Proof.
  intros Hn Hpool. unfold entropy_of. cbv zeta.
  apply max_zero_mono, (fmul_shrink order).
  - apply (fmul_nonneg order).
    + apply (of_int_finite order), Hn.
    + apply (log2_finite order), Hpool.
    + apply (of_int_nonneg order). lia.
    + apply (log2_nonneg order), Hpool.
  - apply (penalty_pos order).
  - apply (penalty_le_one order).
Qed.

Lemma calculate_entropy_empty has_patterns :
  calculate_entropy "" has_patterns
  = Ok (lit 0, {| has_lower := false; has_upper := false; has_digit := false;
                  has_special := false; pool_size := None |}).
Proof. reflexivity. Qed.

Lemma len_zero_empty s : Str.len s = O -> s = "".
Proof. destruct s; [reflexivity|discriminate]. Qed.

(** C7. [calculate_entropy] always returns, and (a) of two passwords with the
    same character classes and the same [has_patterns] flag the longer one
    has no less entropy, (b) for one password the entropy with
    [has_patterns = True] is no more than the entropy with
    [has_patterns = False].  Lengths are below 2^63, the largest size of a
    Python string. *)
Theorem entropy_monotone :
  (forall p hp, exists e c, calculate_entropy p hp = Ok (e, c))
  /\ (forall p1 p2 hp e1 c1 e2 c2,
        calculate_entropy p1 hp = Ok (e1, c1) ->
        calculate_entropy p2 hp = Ok (e2, c2) ->
        same_classes c1 c2 ->
        (Str.len p1 <= Str.len p2)%nat ->
        Z.of_nat (Str.len p2) < 2 ^ 63 ->
        fle e1 e2 = true)
  /\ (forall p e_patterns c_patterns e_plain c_plain,
        Z.of_nat (Str.len p) < 2 ^ 63 ->
        calculate_entropy p true = Ok (e_patterns, c_patterns) ->
        calculate_entropy p false = Ok (e_plain, c_plain) ->
        fle e_patterns e_plain = true).
Proof.
  split; [|split].
  - intros p hp. destruct (String.eqb_spec p "") as [->|Hne].
    + rewrite calculate_entropy_empty. eauto.
    + destruct (calculate_entropy_nonempty p hp Hne) as (c & Hc & _). eauto.
  - intros p1 p2 hp e1 c1 e2 c2 H1 H2 (Hl & Hu & Hd & Hs) Hlen Hbound.
    destruct (String.eqb_spec p2 "") as [->|Hne2].
    { assert (p1 = "") as -> by (apply len_zero_empty; simpl in Hlen; lia).
      rewrite calculate_entropy_empty in H1, H2.
      injection H1 as <- _. injection H2 as <- _. apply (fle_zero order). }
    destruct (calculate_entropy_nonempty p2 hp Hne2) as (c2' & Hc2 & _).
    rewrite Hc2 in H2. injection H2 as <- <-.
    destruct (String.eqb_spec p1 "") as [->|Hne1].
    { rewrite calculate_entropy_empty in H1. injection H1 as <- _.
      apply max_zero_nonneg. }
    destruct (calculate_entropy_nonempty p1 hp Hne1) as (c1' & Hc1 & _).
    rewrite Hc1 in H1. injection H1 as <- <-.
    rewrite Hl, Hu, Hd, Hs.
    apply entropy_of_mono_length; [lia|exact Hbound|apply pool_size_positive].
  - intros p e1 c1 e2 c2 Hbound H1 H2.
    destruct (String.eqb_spec p "") as [->|Hne].
    { rewrite calculate_entropy_empty in H1, H2.
      injection H1 as <- _. injection H2 as <- _. apply (fle_zero order). }
    destruct (calculate_entropy_nonempty p true Hne) as (c1' & Hc1 & Hf1).
    destruct (calculate_entropy_nonempty p false Hne) as (c2' & Hc2 & Hf2).
    rewrite Hc1 in H1. rewrite Hc2 in H2.
    injection H1 as <- <-. injection H2 as <- <-.
    destruct Hf1 as (-> & -> & -> & ->). destruct Hf2 as (-> & -> & -> & ->).
    apply entropy_of_penalised; [lia|apply pool_size_positive].
Qed.

End EntropyProperties.

(** Exact rational arithmetic satisfies the order laws; every rational is
    finite. *)
Lemma exact_flt_iff (a b : Q) :
  @flt QFloat.exact a b = true <-> (a < b)%Q.
Proof.
  simpl. rewrite negb_true_iff. split.
  - intros Hn. apply Qnot_le_lt. intros Hle.
    apply Qle_bool_iff in Hle. congruence.
  - intros Hlt. destruct (Qle_bool b a) eqn:Hle; [|reflexivity].
    apply Qle_bool_iff in Hle. exfalso. exact (Qlt_not_le _ _ Hlt Hle).
Qed.

Lemma exact_fle_iff (a b : Q) :
  @fle QFloat.exact a b = true <-> (a <= b)%Q.
Proof. simpl. apply Qle_bool_iff. Qed.

Lemma log2_step_nonneg l : forall st,
  0 <= fst st -> 0 <= fst (fold_left QFloat.log2_step l st).
Proof.
  induction l as [|i l IH]; intros [bits x] Hb; [exact Hb|].
  cbn [fold_left]. apply IH. unfold QFloat.log2_step. cbn [fst] in Hb.
  destruct (36893488147419103232 <=? Z.shiftr (x * x) 64); cbn [fst]; lia.
Qed.

Lemma log2_places_nonneg n : 1 <= n -> (0 <= QFloat.log2_places n)%Q.
Proof.
  intros Hn. unfold QFloat.log2_places. destruct n as [|p|p]; try lia.
  cbv zeta.
  pose proof (log2_step_nonneg (seq 0 30)
                (0, Z.shiftl (Zpos p) (64 - Z.log2 (Zpos p)))
                (Z.le_refl 0)) as Hb.
  destruct (fold_left QFloat.log2_step (seq 0 30) _) as [bits x].
  cbn [fst] in Hb. unfold Qle. cbn [Qnum Qden].
  pose proof (Z.log2_nonneg (Zpos p)) as Hk.
  rewrite Z.mul_0_l, Z.mul_1_r.
  apply Z.add_nonneg_nonneg; [|exact Hb].
  apply Z.mul_nonneg_nonneg; [exact Hk|discriminate].
Qed.

Definition exact_order : @FloatOrder QFloat.exact.
Proof.
  refine {| finite := fun _ => True |}; try exact I; try (intros; exact I).
  - reflexivity.
  - intros a b Hlt. apply exact_fle_iff, Qlt_le_weak, exact_flt_iff, Hlt.
  - intros a b c Hab Hbc. apply exact_flt_iff.
    apply Qlt_le_trans with b; [apply exact_flt_iff|apply exact_fle_iff];
      assumption.
  - intros n Hn. apply exact_fle_iff. unfold Qle. simpl. lia.
  - intros n m Hnm. apply exact_fle_iff. simpl. rewrite <- Zle_Qle. exact Hnm.
  - intros n Hn. apply exact_fle_iff. exact (log2_places_nonneg n Hn).
  - intros a c _ _ Ha Hc. apply exact_fle_iff.
    apply exact_fle_iff in Ha, Hc. simpl in *.
    apply Qmult_le_0_compat; assumption.
  - intros a b c _ _ _ Hab Hc. apply exact_fle_iff.
    apply exact_fle_iff in Hab, Hc. simpl in *.
    apply Qmult_le_compat_r; assumption.
  - intros a b c _ Hc Hab. apply exact_fle_iff.
    apply exact_fle_iff in Hab. apply exact_flt_iff in Hc. simpl in *.
    apply Qmult_le_compat_r; [assumption|apply Qlt_le_weak, Hc].
  - intros a c Ha _ Hc. apply exact_fle_iff.
    apply exact_fle_iff in Ha, Hc. simpl in *.
    pose proof (Qmult_le_compat_r c 1 a Hc Ha) as Hle.
    rewrite Qmult_1_l in Hle. rewrite (Qmult_comm a c). exact Hle.
  - reflexivity.
  - reflexivity.
Defined.

Lemma entropy_monotone_witness :
  exists e1 c1 e2 c2,
    EntropyCalculator.calculate_entropy (H := QFloat.exact) "abc" true
      = Ok (e1, c1)
    /\ EntropyCalculator.calculate_entropy (H := QFloat.exact) "abcd" true
       = Ok (e2, c2)
    /\ same_classes c1 c2
    /\ (Str.len "abc" <= Str.len "abcd")%nat
    /\ @fle QFloat.exact e1 e2 = true.
Proof.
  destruct (entropy_monotone exact_order) as (_ & Hmono & _).
  do 4 eexists.
  split; [reflexivity|]. split; [reflexivity|].
  assert (Hsame : same_classes
            {| EntropyCalculator.has_lower := true;
               EntropyCalculator.has_upper := false;
               EntropyCalculator.has_digit := false;
               EntropyCalculator.has_special := false;
               EntropyCalculator.pool_size := Some 26 |}
            {| EntropyCalculator.has_lower := true;
               EntropyCalculator.has_upper := false;
               EntropyCalculator.has_digit := false;
               EntropyCalculator.has_special := false;
               EntropyCalculator.pool_size := Some 26 |})
    by (repeat split).
  assert (Hlen : (Str.len "abc" <= Str.len "abcd")%nat) by (simpl; lia).
  split; [exact Hsame|]. split; [exact Hlen|].
  apply (Hmono "abc" "abcd" true _ _ _ _ eq_refl eq_refl Hsame Hlen).
  vm_compute. reflexivity.
Defined.

(** ** Where [evaluate] returns *)

Section Totality.
Import PatternDetector.







Context `{PyFloat}.





End Totality.


(** * Further properties of the code *)

(** ** Strings and lists *)

Lemma chars_append s1 s2 : Str.chars (s1 +:+ s2) = Str.chars s1 ++ Str.chars s2.
Proof.
  unfold Str.chars. induction s1 as [|c s1 IH]; simpl; [reflexivity|].
  f_equal. exact IH.
Qed.

Lemma lower_length s : Str.len (Str.lower s) = Str.len s.
Proof. unfold Str.len, Str.lower. apply map_str_length. Qed.

Lemma reversed_length s : Str.len (Str.reversed s) = Str.len s.
Proof.
  unfold Str.reversed, Str.len.
  rewrite of_chars_length, length_rev. apply chars_length.
Qed.




Lemma prefix_chars word s :
  String.prefix word s = true ->
  exists rest, Str.chars s = Str.chars word ++ rest.
Proof.
  revert s. induction word as [|c word IH]; intros s Hp.
  - exists (Str.chars s). reflexivity.
  - destruct s as [|x s]; [discriminate|]. simpl in Hp.
    destruct (Ascii.ascii_dec c x) as [->|]; [|discriminate].
    destruct (IH s Hp) as (rest & Hrest). exists rest.
    unfold Str.chars in *. simpl. rewrite Hrest. reflexivity.
Qed.

Lemma contains_empty s : Str.contains s "" = true.
Proof. destruct s; reflexivity. Qed.

(** [str.split] and [str.split(sep, 1)] around a separator. *)
Lemma split_chars_skip sep l : forall cur rest,
  existsb (Ascii.eqb sep) l = false ->
  Str.split_chars sep cur (l ++ sep :: rest)
  = Str.of_chars (rev cur ++ l) :: Str.split_chars sep [] rest.
Proof.
  induction l as [|c l IH]; intros cur rest Hno; simpl.
  - rewrite Ascii.eqb_refl, app_nil_r. reflexivity.
  - simpl in Hno. apply orb_false_elim in Hno as [Hc Hno].
    rewrite Ascii.eqb_sym, Hc. rewrite IH by exact Hno.
    simpl. rewrite <- app_assoc. reflexivity.
Qed.

Lemma split_chars_none sep l : forall cur,
  existsb (Ascii.eqb sep) l = false ->
  Str.split_chars sep cur l = [Str.of_chars (rev cur ++ l)].
Proof.
  induction l as [|c l IH]; intros cur Hno; simpl.
  - rewrite app_nil_r. reflexivity.
  - simpl in Hno. apply orb_false_elim in Hno as [Hc Hno].
    rewrite Ascii.eqb_sym, Hc, IH by exact Hno.
    simpl. rewrite <- app_assoc. reflexivity.
Qed.

Lemma split_chars_nonempty sep l : forall cur, Str.split_chars sep cur l <> [].
Proof.
  induction l as [|c l IH]; intros cur; simpl; [discriminate|].
  destruct (Ascii.eqb c sep); [discriminate|apply IH].
Qed.

Lemma split_chars_last sep l : forall cur rest,
  existsb (Ascii.eqb sep) rest = false ->
  List.last (Str.split_chars sep cur (l ++ sep :: rest)) ""
  = Str.of_chars rest.
Proof.
  induction l as [|c l IH]; intros cur rest Hno; simpl.
  - rewrite Ascii.eqb_refl, (split_chars_none sep rest []) by exact Hno.
    reflexivity.
  - destruct (Ascii.eqb c sep); [|apply IH; exact Hno].
    pose proof (split_chars_nonempty sep (l ++ sep :: rest) []) as Hne.
    destruct (Str.split_chars sep [] (l ++ sep :: rest)) eqn:E;
      [contradiction|].
    transitivity (List.last (s :: l0) ""); [reflexivity|].
    rewrite <- E. apply IH. exact Hno.
Qed.


(** Dictionaries in insertion order. *)
Lemma dict_get_absent {V : Type} (d : Dict.dict V) key :
  ~ In key (Dict.keys d) -> Dict.get d key = None.
Proof.
  induction d as [|[k x] d IH]; simpl; [reflexivity|].
  intros Hnot. destruct (String.eqb_spec k key) as [->|_].
  - exfalso. apply Hnot. left. reflexivity.
  - apply IH. intros Hin. apply Hnot. right. exact Hin.
Qed.

Lemma dict_get_filter {V : Type} (f : string * V -> bool) (d : Dict.dict V)
  key v :
  List.NoDup (Dict.keys d) -> In (key, v) d -> f (key, v) = true ->
  Dict.get (List.filter f d) key = Some v.
Proof.
  induction d as [|[k x] d IH]; simpl; [intros _ []|].
  intros Hnd Hin Hf. apply List.NoDup_cons_iff in Hnd as [Hk Hnd].
  destruct Hin as [[= -> ->] | Hin].
  - rewrite Hf. simpl. rewrite String.eqb_refl. reflexivity.
  - assert (Hne : k <> key).
    { intros ->. apply Hk. apply in_map_iff. exists (key, v). auto. }
    destruct (f (k, x)); simpl.
    + destruct (String.eqb_spec k key); [contradiction|]. apply IH; assumption.
    + apply IH; assumption.
Qed.

Lemma filter_keys_absent {V : Type} (f : string * V -> bool) (d : Dict.dict V)
  key :
  ~ In key (Dict.keys d) -> ~ In key (Dict.keys (List.filter f d)).
Proof.
  intros Hnot Hin. apply Hnot. unfold Dict.keys in *.
  apply in_map_iff in Hin as (e & <- & He). apply filter_In in He as [He _].
  apply in_map. exact He.
Qed.

Lemma dict_keys_filter {V : Type} (f : string * V -> bool) (d : Dict.dict V) :
  List.NoDup (Dict.keys d) ->
  Dict.keys (List.filter f d)
  = List.filter (fun c => Dict.mem c (List.filter f d)) (Dict.keys d).
Proof.
  induction d as [|[k x] d IH]; simpl; [reflexivity|].
  intros Hnd. apply List.NoDup_cons_iff in Hnd as [Hk Hnd].
  assert (Hrest :
    forall d' : Dict.dict V,
      (forall c, In c (Dict.keys d) ->
                 Dict.mem c d' = Dict.mem c (List.filter f d)) ->
      List.filter (fun c => Dict.mem c d') (Dict.keys d)
      = Dict.keys (List.filter f d)).
  { intros d' Hd'. rewrite (IH Hnd). apply filter_ext_in. exact Hd'. }
  destruct (f (k, x)) eqn:Hf.
  - unfold Dict.mem at 1. simpl. rewrite String.eqb_refl. f_equal.
    symmetry. apply Hrest. intros c Hc. unfold Dict.mem. simpl.
    destruct (String.eqb_spec k c) as [->|_]; [contradiction|reflexivity].
  - unfold Dict.mem at 1.
    rewrite (dict_get_absent (List.filter f d) k)
      by (apply filter_keys_absent; exact Hk).
    symmetry. apply Hrest. reflexivity.
Qed.

(** ** patterns.py: repeated characters *)

Section RepeatedProperties.
Import PatternDetector.









End RepeatedProperties.

(** ** patterns.py: sequences of letters *)

Section AlphabeticalProperties.
Import PatternDetector.

Lemma adjacent_spec rel l :
  adjacent rel l = true
  <-> forall k a b,
        nth_error l k = Some a -> nth_error l (S k) = Some b -> rel a b = true.
Proof.
  induction l as [|x l IH]; [split; [intros _ [] ? ? [=]|reflexivity]|].
  destruct l as [|y l].
  - split; [|reflexivity]. intros _ [|[|k]] a b Ha Hb; discriminate.
  - change (adjacent rel (x :: y :: l))
      with (rel x y && adjacent rel (y :: l)).
    rewrite andb_true_iff, IH. split.
    + intros [Hxy Hrest] [|k] a b Ha Hb.
      * simpl in Ha, Hb. congruence.
      * exact (Hrest k a b Ha Hb).
    + intros Hall. split.
      * exact (Hall O x y eq_refl eq_refl).
      * intros k a b Ha Hb. exact (Hall (S k) a b Ha Hb).
Qed.

Lemma window_issue_shape w l :
  window_issue w = Ok l ->
  l = [] \/ exists kind, In kind kinds /\ l = [sequential_issue w kind].
Proof.
  unfold window_issue, kinds.
  destruct (_is_ascending_alpha w).
  { intros [= <-]. right. exists "ascending". simpl. auto. }
  destruct (_is_descending_alpha w).
  { intros [= <-]. right. exists "descending". simpl. auto. }
  destruct (_is_ascending_numeric w) as [[]|]; simpl; try discriminate.
  { intros [= <-]. right. exists "numerical". simpl. auto. }
  destruct (_is_descending_numeric w) as [[]|]; simpl; try discriminate.
  { intros [= <-]. right. exists "numerical descending". simpl. auto 6. }
  intros [= <-]. left. reflexivity.
Qed.

Lemma kinds_inj kind kind' :
  In kind kinds -> In kind' kinds -> kind +:+ ")" = kind' +:+ ")" ->
  kind = kind'.
Proof.
  unfold kinds. simpl.
  intros [<- | [<- | [<- | [<- | []]]]] [<- | [<- | [<- | [<- | []]]]];
    intros E; try reflexivity; discriminate E.
Qed.

(** What the detector makes of the window at position [i]. *)
Lemma window_report password i issues kind :
  let window := Str.slice password i 4 in
  (i + 4 <= Str.len password)%nat ->
  _detect_sequential_chars password = Ok issues ->
  In kind kinds ->
  (In (sequential_issue window kind) issues
   <-> window_issue window = Ok [sequential_issue window kind]).
Proof.
  intros window Hi Hscan Hkind.
  assert (Hlen : String.length window = 4%nat)
    by (apply substring_length; exact Hi).
  unfold _detect_sequential_chars in Hscan. simpl in Hscan.
  rewrite (scan_windows_In _ _ _ Hscan). split.
  - intros (w & l & Hw & Hissue & Hin).
    apply windows_In in Hw as (j & Hj & ->).
    assert (Hlen' : String.length window
                    = String.length (Str.slice password j 4)).
    { rewrite Hlen. symmetry. apply substring_length. unfold Str.len in Hj. lia. }
    destruct (window_issue_shape _ _ Hissue) as [-> | (kind' & Hkind' & ->)];
      [destruct Hin|].
    destruct Hin as [Hin | []].
    symmetry in Hin.
    destruct (sequential_issue_inj _ _ _ _ Hlen' Hin) as [Hw Hk].
    rewrite <- Hw in Hissue.
    rewrite (kinds_inj _ _ Hkind Hkind' Hk). exact Hissue.
  - intros Hissue. exists window, [sequential_issue window kind].
    split; [|split; [exact Hissue|left; reflexivity]].
    apply windows_In. exists i. split; [|reflexivity].
    unfold Str.len in *. lia.
Qed.

Lemma rising_not_falling l :
  (2 <= List.length l)%nat -> rising l -> falling l -> False.
Proof.
  destruct l as [|a [|b l]]; simpl; try lia.
  intros _ Hup Hdown.
  pose proof (Hup O a b eq_refl eq_refl) as H1.
  pose proof (Hdown O a b eq_refl eq_refl) as H2. lia.
Qed.

(** X2. In a window of four letters the ascending test holds exactly when
    the code of each letter, after lower-casing, is the code of the one
    before it plus 1, and the descending test exactly when it is the code
    before it minus 1; the detector reports the window as ascending, or
    descending, on exactly these conditions.  The case of the letters does
    not matter: "AbCd" is an ascending sequence. *)
Theorem alpha_sequence_windows (password : string) (i : nat) :
  let window := Str.slice password i 4 in
  (i + 4 <= Str.len password)%nat ->
  Str.isalpha window = true ->
  (_is_ascending_alpha window = true
   <-> rising (Str.chars (Str.lower window)))
  /\ (_is_descending_alpha window = true
      <-> falling (Str.chars (Str.lower window)))
  /\ (forall issues,
        _detect_sequential_chars password = Ok issues ->
        (In (sequential_issue window "ascending") issues
         <-> rising (Str.chars (Str.lower window)))
        /\ (In (sequential_issue window "descending") issues
            <-> falling (Str.chars (Str.lower window)))).
Proof.
  intros window Hi Halpha.
  assert (Hlen : String.length window = 4%nat)
    by (apply substring_length; exact Hi).
  assert (Hup : _is_ascending_alpha window = true
                <-> rising (Str.chars (Str.lower window))).
  { unfold _is_ascending_alpha. rewrite Halpha. simpl.
    rewrite adjacent_spec. unfold rising. split; intros Hall k a b Ha Hb.
    - apply N.eqb_eq. exact (Hall k a b Ha Hb).
    - apply N.eqb_eq. exact (Hall k a b Ha Hb). }
  assert (Hdown : _is_descending_alpha window = true
                  <-> falling (Str.chars (Str.lower window))).
  { unfold _is_descending_alpha. rewrite Halpha. simpl.
    rewrite adjacent_spec. unfold falling. split; intros Hall k a b Ha Hb.
    - apply Z.eqb_eq. exact (Hall k a b Ha Hb).
    - apply Z.eqb_eq. exact (Hall k a b Ha Hb). }
  assert (Hboth : rising (Str.chars (Str.lower window)) ->
                  falling (Str.chars (Str.lower window)) -> False).
  { apply rising_not_falling.
    rewrite chars_length. unfold Str.lower. rewrite map_str_length, Hlen. lia. }
  split; [exact Hup|]. split; [exact Hdown|].
  intros issues Hscan. split.
  - pose proof (window_report password i issues "ascending" Hi Hscan) as Hrep.
    cbv zeta in Hrep. fold window in Hrep.
    rewrite Hrep by (unfold kinds; simpl; auto).
    rewrite <- Hup. unfold window_issue.
    destruct (_is_ascending_alpha window); [split; reflexivity|].
    split; [|discriminate]. intros Hissue. exfalso.
    destruct (_is_descending_alpha window).
    { apply single_issue_inj in Hissue. discriminate Hissue. }
    destruct (_is_ascending_numeric window) as [[]|]; simpl in Hissue;
      try discriminate Hissue.
    { apply single_issue_inj in Hissue. discriminate Hissue. }
    destruct (_is_descending_numeric window) as [[]|]; simpl in Hissue;
      try discriminate Hissue.
    apply single_issue_inj in Hissue. discriminate Hissue.
  - pose proof (window_report password i issues "descending" Hi Hscan) as Hrep.
    cbv zeta in Hrep. fold window in Hrep.
    rewrite Hrep by (unfold kinds; simpl; auto).
    rewrite <- Hdown. unfold window_issue.
    destruct (_is_ascending_alpha window) eqn:Ha.
    { split.
      - intros Hissue. apply single_issue_inj in Hissue. discriminate Hissue.
      - intros Hd. exfalso. apply Hboth; [apply Hup|apply Hdown]; auto. }
    destruct (_is_descending_alpha window); [split; reflexivity|].
    split; [|discriminate]. intros Hissue. exfalso.
    destruct (_is_ascending_numeric window) as [[]|]; simpl in Hissue;
      try discriminate Hissue.
    { apply single_issue_inj in Hissue. discriminate Hissue. }
    destruct (_is_descending_numeric window) as [[]|]; simpl in Hissue;
      try discriminate Hissue.
    apply single_issue_inj in Hissue. discriminate Hissue.
Qed.

Lemma scan_windows_length ws : forall issues,
  scan_windows ws = Ok issues -> (List.length issues <= List.length ws)%nat.
Proof.
  induction ws as [|w ws IH]; simpl; intros issues Hscan.
  - injection Hscan as <-. simpl. lia.
  - destruct (window_issue w) as [l|] eqn:Hw; simpl in Hscan; [|discriminate].
    destruct (scan_windows ws) as [rest|] eqn:Hrest; simpl in Hscan;
      [|discriminate].
    injection Hscan as <-. rewrite length_app.
    pose proof (IH rest eq_refl).
    destruct (window_issue_shape _ _ Hw) as [-> | (k & _ & ->)]; simpl; lia.
Qed.

(** X3. When [_detect_sequential_chars] returns, it has at most one issue for
    each window of four characters, [len(password) - 3] at most and none for
    a password of fewer than four characters, and every issue names a window
    of the password and one of the four kinds of sequence. *)
Theorem sequential_issues_are_windows (password : string)
  (issues : list string) :
  _detect_sequential_chars password = Ok issues ->
  (List.length issues <= Str.len password - 3)%nat
  /\ (forall issue, In issue issues ->
        exists j kind,
          (j + 4 <= Str.len password)%nat /\ In kind kinds
          /\ issue = sequential_issue (Str.slice password j 4) kind).
Proof.
  intros Hscan. split.
  - unfold _detect_sequential_chars in Hscan.
    apply scan_windows_length in Hscan.
    unfold windows in Hscan. rewrite length_map, length_seq in Hscan.
    simpl in Hscan. lia.
  - intros issue Hin. unfold _detect_sequential_chars in Hscan.
    apply (scan_windows_In _ _ issue) in Hscan.
    apply Hscan in Hin as (w & l & Hw & Hissue & Hin).
    apply windows_In in Hw as (j & Hj & ->).
    destruct (window_issue_kinds _ _ _ Hissue Hin) as (kind & Hkind & ->).
    exists j, kind. simpl in Hj. split; [lia|]. split; [exact Hkind|reflexivity].
Qed.

End AlphabeticalProperties.

Lemma alpha_sequence_windows_witness :
  (1 + 4 <= Str.len "9AbCd")%nat
  /\ Str.isalpha (Str.slice "9AbCd" 1 4) = true
  /\ (PatternDetector._is_ascending_alpha (Str.slice "9AbCd" 1 4) = true
      <-> rising (Str.chars (Str.lower (Str.slice "9AbCd" 1 4)))).
Proof.
  assert (Hi : (1 + 4 <= Str.len "9AbCd")%nat) by (vm_compute; lia).
  assert (Ha : Str.isalpha (Str.slice "9AbCd" 1 4) = true) by reflexivity.
  split; [exact Hi|]. split; [exact Ha|].
  exact (proj1 (alpha_sequence_windows "9AbCd" 1 Hi Ha)).
Defined.

Lemma sequential_issues_are_windows_witness :
  PatternDetector._detect_sequential_chars "abcde"
  = Ok [ "Sequential pattern: 'abcd' (ascending)";
         "Sequential pattern: 'bcde' (ascending)" ]
  /\ (2 <= Str.len "abcde" - 3)%nat.
Proof.
  assert (Hscan : PatternDetector._detect_sequential_chars "abcde"
                  = Ok [ "Sequential pattern: 'abcd' (ascending)";
                         "Sequential pattern: 'bcde' (ascending)" ])
    by reflexivity.
  split; [exact Hscan|].
  exact (proj1 (sequential_issues_are_windows "abcde" _ Hscan)).
Defined.

(** ** patterns.py: keyboard patterns *)

Section KeyboardProperties.
Import PatternDetector.

Lemma with_upper_In patterns w :
  In w (with_upper patterns)
  <-> exists pattern,
        In pattern patterns /\ (w = pattern \/ w = Str.upper pattern).
Proof.
  unfold with_upper. rewrite in_flat_map. split.
  - intros (p & Hp & [<- | [<- | []]]); exists p; auto.
  - intros (p & Hp & [-> | ->]); exists p; simpl; auto.
Qed.

(** The set that [_build_keyboard_patterns] builds: the column loop adds
    nothing to it, since a column of the three letter rows has three keys. *)
Lemma keyboard_patterns_are_runs (dictionary_words : option (list string))
  (w : string) :
  w ∈ keyboard_patterns (init dictionary_words)
  <-> exists run, keyboard_run run /\ (w = run \/ w = Str.upper run).
Proof.
  unfold init, _build_keyboard_patterns. cbn [keyboard_patterns].
  cbv zeta. rewrite elem_of_list_to_set, list_elem_of_In.
  change (config.min_keyboard_pattern_length config.PATTERN_THRESHOLDS)
    with 4%nat.
  match goal with
  | |- In w (?forward ++ ?reverse ++ ?columns) <-> _ =>
      assert (Hcol : columns = []) by reflexivity; rewrite Hcol, app_nil_r
  end.
  rewrite in_app_iff, !in_flat_map. split.
  - intros [(row & Hrow & Hw) | (row & Hrow & Hw)];
      apply with_upper_In in Hw as (p & Hp & Hw);
      apply windows_In in Hp as (i & Hi & ->).
    + exists (Str.slice row i 4). split; [|exact Hw].
      exists row, i. split; [exact Hrow|]. split; [lia|]. auto.
    + exists (Str.slice (Str.reversed row) i 4). split; [|exact Hw].
      exists row, i. rewrite reversed_length in Hi.
      split; [exact Hrow|]. split; [lia|]. auto.
  - intros (run & (row & i & Hrow & Hi & Hrun) & Hw).
    destruct Hrun as [-> | ->]; [left|right]; exists row;
      (split; [exact Hrow|]); apply with_upper_In; eexists;
      (split; [|exact Hw]); apply windows_In; exists i;
      rewrite ?reversed_length; (split; [lia|reflexivity]).
Qed.

(** X4. [_detect_keyboard_patterns] reports exactly the windows of four
    characters that are four neighbouring keys of one keyboard row, read
    from left to right or from right to left, or the upper-case form of
    such keys.  The columns of the keyboard ("qaz", "wsx", ...) are never
    reported: the loop that builds them adds nothing to the pattern set. *)
Theorem keyboard_issues_are_row_runs
  (dictionary_words : option (list string)) (password_lower issue : string) :
  In issue (_detect_keyboard_patterns (init dictionary_words) password_lower)
  <-> exists j run,
        (j + 4 <= Str.len password_lower)%nat
        /\ keyboard_run run
        /\ (Str.slice password_lower j 4 = run
            \/ Str.slice password_lower j 4 = Str.upper run)
        /\ issue = keyboard_issue (Str.slice password_lower j 4).
Proof.
  unfold _detect_keyboard_patterns. rewrite in_flat_map.
  change (config.min_keyboard_pattern_length config.PATTERN_THRESHOLDS)
    with 4%nat.
  split.
  - intros (w & Hw & Hin). apply windows_In in Hw as (j & Hj & ->).
    destruct (bool_decide _) eqn:Hdec; [|destruct Hin].
    destruct Hin as [<- | []].
    apply bool_decide_eq_true_1 in Hdec.
    apply keyboard_patterns_are_runs in Hdec as (run & Hrun & Hw).
    exists j, run. split; [lia|]. auto.
  - intros (j & run & Hj & Hrun & Hw & ->).
    exists (Str.slice password_lower j 4). split.
    + apply windows_In. exists j. split; [lia|reflexivity].
    + rewrite bool_decide_eq_true_2; [left; reflexivity|].
      apply keyboard_patterns_are_runs. exists run. auto.
Qed.

End KeyboardProperties.

(** ** patterns.py: leetspeak *)

Section LeetspeakProperties.
Import PatternDetector.

Lemma match_here_accepts pattern word rest :
  accepts pattern word -> match_here pattern (Str.chars word ++ rest) = true.
Proof.
  unfold accepts. generalize (Str.chars word). clear word.
  intros l Hacc. induction Hacc as [|cls c pattern l Hc Hacc IH]; simpl.
  - destruct rest; reflexivity.
  - rewrite Hc, IH. reflexivity.
Qed.

(** A pattern that accepts a word is found wherever the word occurs. *)
Lemma contains_search pattern word s :
  accepts pattern word -> Str.contains s word = true ->
  re_search pattern s = true.
Proof.
  intros Hacc. unfold re_search.
  induction s as [|x s IH]; intros Hc; cbn [Str.contains] in Hc.
  - destruct word; [|discriminate Hc].
    inversion Hacc; subst. reflexivity.
  - apply orb_prop in Hc as [Hp | Hc].
    + apply prefix_chars in Hp as (rest & Hrest).
      rewrite Hrest.
      destruct (Str.chars word ++ rest) eqn:E;
        cbn [search_chars]; rewrite <- ?E;
        rewrite (match_here_accepts pattern word rest Hacc); reflexivity.
    + change (Str.chars (String x s)) with (x :: Str.chars s).
      cbn [search_chars]. rewrite (IH Hc). apply orb_true_r.
Qed.

Context `{PyFloat}.

Lemma leetspeak_issue_reported pattern word password_lower :
  In (pattern, word) leet_patterns ->
  re_search pattern password_lower = true ->
  In (leetspeak_issue word) (_detect_leetspeak password_lower).
Proof.
  intros Hin Hs. unfold _detect_leetspeak. cbv zeta.
  match goal with
  | |- In _ (if ?c then _ else _) => destruct c
  end; [apply in_or_app; left|];
    apply in_flat_map; exists (pattern, word); (split; [exact Hin|]);
    simpl; rewrite Hs; left; reflexivity.
Qed.

(** X5. The words admin, password, hack and test count as leetspeak without
    any substitution: each character class of their patterns also holds the
    plain letter, so a (lower-cased) password that contains one of these
    words gets the issue "Leetspeak substitution detected (resembles ...)",
    whatever the floats are. *)
Theorem plain_words_count_as_leetspeak (word password_lower : string) :
  In word plain_leet_words ->
  Str.contains password_lower word = true ->
  In (leetspeak_issue word) (_detect_leetspeak password_lower).
Proof.
  intros Hword Hc. unfold plain_leet_words in Hword. simpl in Hword.
  destruct Hword as [<- | [<- | [<- | [<- | []]]]].
  - apply (leetspeak_issue_reported ["a@"; "d"; "m"; "i1"; "n"]);
      [simpl; auto|].
    apply (contains_search _ "admin"); [|exact Hc].
    repeat constructor.
  - apply (leetspeak_issue_reported ["p"; "@a"; "s"; "s"; "w"; "o0"; "r"; "d"]);
      [simpl; auto|].
    apply (contains_search _ "password"); [|exact Hc].
    repeat constructor.
  - apply (leetspeak_issue_reported ["h4"; "a"; "c"; "k"]); [simpl; auto 6|].
    apply (contains_search _ "hack"); [|exact Hc].
    repeat constructor.
  - apply (leetspeak_issue_reported ["t7"; "e"; "s"; "t"]); [simpl; auto 6|].
    apply (contains_search _ "test"); [|exact Hc].
    repeat constructor.
Qed.

End LeetspeakProperties.

Lemma plain_words_count_as_leetspeak_witness :
  In "test" plain_leet_words
  /\ Str.contains "contest2019" "test" = true
  /\ In (leetspeak_issue "test")
        (PatternDetector._detect_leetspeak (H := QFloat.exact) "contest2019").
Proof.
  assert (Hw : In "test" plain_leet_words) by (simpl; auto).
  assert (Hc : Str.contains "contest2019" "test" = true) by reflexivity.
  split; [exact Hw|]. split; [exact Hc|].
  exact (plain_words_count_as_leetspeak (H := QFloat.exact)
           "test" "contest2019" Hw Hc).
Defined.

(** ** patterns.py: dictionary words *)

Section DictionaryProperties.
Import PatternDetector.

(** [issue.split("'")[1]] of an issue that quotes a word. *)
Lemma quoted_word head word :
  Str.char_in "'" head = false -> no_apostrophe word ->
  quoted_words [head +:+ "'" +:+ word +:+ "'"] = [word].
Proof.
  intros Hhead Hword. unfold no_apostrophe, Str.char_in in Hhead, Hword.
  unfold quoted_words, Str.char_in, Str.split. simpl.
  rewrite app_nil_r, !chars_append.
  change (Str.chars "'") with ["'"%char].
  rewrite existsb_app, Hhead. simpl.
  rewrite (split_chars_skip "'" (Str.chars head) [])
    by exact Hhead.
  rewrite (split_chars_skip "'" (Str.chars word) [])
    by exact Hword.
  simpl. rewrite of_chars_chars. reflexivity.
Qed.

Lemma quoted_words_app l1 l2 :
  quoted_words (l1 ++ l2) = quoted_words l1 ++ quoted_words l2.
Proof. unfold quoted_words. apply flat_map_app. Qed.

(** The loop over the dictionary, from a list of issues on. *)
Lemma dictionary_fold password_lower words : forall acc issue,
  Forall no_apostrophe words ->
  In issue (fold_left (dictionary_step password_lower) words acc)
  <-> In issue acc
      \/ exists word,
           In word words /\ issue = contains_word_issue word
           /\ (4 <= Str.len word)%nat
           /\ Str.contains password_lower word = true
           /\ ~ In word (quoted_words acc).
Proof.
  induction words as [|x words IH]; intros acc issue Hwords; cbn [fold_left].
  - split; [auto|]. intros [Hin | (w & [] & _)]. exact Hin.
  - apply Forall_cons_iff in Hwords as [Hx Hwords].
    rewrite (IH _ _ Hwords). clear IH.
    unfold dictionary_step.
    change (config.min_dictionary_word_length config.PATTERN_THRESHOLDS)
      with 4%nat.
    destruct (Nat.leb_spec 4 (Str.len x)) as [Hlen|Hlen]; cbn [andb negb].
    2:{ split.
        - intros [Hin | (w & Hw & Hrest)]; [auto|].
          right. exists w. split; [right; exact Hw|exact Hrest].
        - intros [Hin | (w & [<- | Hw] & Hi & Hl & Hrest)]; [auto|lia|].
          right. exists w. auto. }
    destruct (Str.contains password_lower x) eqn:Hc; cbn [andb negb].
    2:{ split.
        - intros [Hin | (w & Hw & Hrest)]; [auto|].
          right. exists w. split; [right; exact Hw|exact Hrest].
        - intros [Hin | (w & [<- | Hw] & Hi & Hl & Hcw & Hrest)];
            [auto|congruence|].
          right. exists w. auto. }
    destruct (existsb (String.eqb x) (quoted_words acc)) eqn:Hq; cbn [andb negb];
      fold (contains_word_issue x).
    + assert (Hxq : In x (quoted_words acc)).
      { apply existsb_exists in Hq as (y & Hy & Hxy).
        apply String.eqb_eq in Hxy. subst y. exact Hy. }
      split.
      * intros [Hin | (w & Hw & Hrest)]; [auto|].
        right. exists w. split; [right; exact Hw|exact Hrest].
      * intros [Hin | (w & [<- | Hw] & Hi & Hl & Hcw & Hnq)];
          [auto|contradiction|].
        right. exists w. auto.
    + assert (Hxq : ~ In x (quoted_words acc)).
      { intros Hin.
        assert (existsb (String.eqb x) (quoted_words acc) = true)
          by (apply existsb_exists; exists x; split;
              [exact Hin|apply String.eqb_refl]).
        congruence. }
      assert (Hquoted : quoted_words (acc ++ [contains_word_issue x])
                        = quoted_words acc ++ [x]).
      { rewrite quoted_words_app. f_equal.
        apply (quoted_word "Contains dictionary word: " x);
          [reflexivity|exact Hx]. }
      rewrite Hquoted. split.
      * intros [Hin | (w & Hw & Hi & Hl & Hcw & Hnq)].
        -- apply in_app_or in Hin as [Hin | [<- | []]]; [auto|].
           right. exists x. split; [left; reflexivity|]. repeat split; auto.
        -- right. exists w. split; [right; exact Hw|].
           repeat split; auto. intros Hin. apply Hnq, in_or_app. auto.
      * intros [Hin | (w & Hw & Hi & Hl & Hcw & Hnq)].
        -- left. apply in_or_app. auto.
        -- destruct (String.eqb_spec w x) as [->|Hne].
           ++ left. apply in_or_app. right. left. symmetry. exact Hi.
           ++ destruct Hw as [<- | Hw]; [congruence|].
              right. exists w. repeat split; auto.
              intros Hin. apply in_app_or in Hin as [Hin | [E | []]];
                [contradiction|congruence].
Qed.

(** X6. When neither the (lower-cased) password nor a dictionary word has an
    apostrophe, [_detect_dictionary_words] reports exactly this: the password
    itself, if it has four characters or more and is a dictionary word, as
    "Password is a common dictionary word", and every other dictionary word
    of four characters or more that occurs in the password as "Contains
    dictionary word".  (The test for duplicates reads the reported word back
    with [issue.split("'")[1]], which an apostrophe in a word defeats.) *)
Theorem dictionary_words_reported (self : PatternDetector.t)
  (password_lower issue : string) :
  no_apostrophe password_lower ->
  Forall no_apostrophe (dictionary_words self) ->
  In issue (_detect_dictionary_words self password_lower)
  <-> (issue = whole_word_issue password_lower
       /\ (4 <= Str.len password_lower)%nat
       /\ In password_lower (dictionary_words self))
      \/ exists word,
           In word (dictionary_words self)
           /\ issue = contains_word_issue word
           /\ (4 <= Str.len word)%nat
           /\ Str.contains password_lower word = true
           /\ word <> password_lower.
Proof.
  intros Hpw Hwords. unfold _detect_dictionary_words.
  destruct (dictionary_words self) as [|x words] eqn:Hdict.
  { split; [intros []|]. intros [(_ & _ & []) | (w & [] & _)]. }
  rewrite <- Hdict in *. clear x words Hdict.
  cbv zeta.
  change (config.min_dictionary_word_length config.PATTERN_THRESHOLDS)
    with 4%nat.
  rewrite dictionary_fold by exact Hwords.
  destruct (Nat.leb_spec 4 (Str.len password_lower)) as [Hlen|Hlen]; cbn [andb].
  - destruct (existsb (String.eqb password_lower) (dictionary_words self))
      eqn:Hin.
    + apply existsb_exists in Hin as (y & Hy & Hxy).
      apply String.eqb_eq in Hxy. subst y.
      fold (whole_word_issue password_lower).
      assert (Hq : quoted_words [whole_word_issue password_lower]
                   = [password_lower])
        by (apply (quoted_word "Password is a common dictionary word: "
                     password_lower); [reflexivity|exact Hpw]).
      rewrite Hq.
      split.
      * intros [[<- | []] | (w & Hw & Hi & Hl & Hc & Hnq)]; [auto|].
        right. exists w. repeat split; auto.
        intros ->. apply Hnq. left. reflexivity.
      * intros [(-> & _) | (w & Hw & Hi & Hl & Hc & Hne)]; [left; left; auto|].
        right. exists w. repeat split; auto.
        intros [E | []]. congruence.
    + assert (Hnot : ~ In password_lower (dictionary_words self)).
      { intros Hy.
        assert (existsb (String.eqb password_lower) (dictionary_words self)
                = true)
          by (apply existsb_exists; exists password_lower; split;
              [exact Hy|apply String.eqb_refl]).
        congruence. }
      split.
      * intros [[] | (w & Hw & Hi & Hl & Hc & _)].
        right. exists w. repeat split; auto. intros ->. contradiction.
      * intros [(_ & _ & Hy) | (w & Hw & Hi & Hl & Hc & _)]; [contradiction|].
        right. exists w. repeat split; auto.
  - split.
    + intros [[] | (w & Hw & Hi & Hl & Hc & _)].
      right. exists w. repeat split; auto. intros ->. lia.
    + intros [(_ & Hl & _) | (w & Hw & Hi & Hl & Hc & _)]; [lia|].
      right. exists w. repeat split; auto.
Qed.

End DictionaryProperties.

Lemma dictionary_words_reported_witness :
  no_apostrophe "password1"
  /\ Forall no_apostrophe ["admin"; "word"; "password"]
  /\ In (contains_word_issue "word")
        (PatternDetector._detect_dictionary_words
           (PatternDetector.init (Some ["admin"; "word"; "password"]))
           "password1").
Proof.
  assert (Hpw : no_apostrophe "password1") by reflexivity.
  assert (Hwords : Forall no_apostrophe ["admin"; "word"; "password"])
    by (repeat constructor).
  split; [exact Hpw|]. split; [exact Hwords|].
  apply (dictionary_words_reported
           (PatternDetector.init (Some ["admin"; "word"; "password"]))
           "password1" (contains_word_issue "word") Hpw Hwords).
  right. exists "word". split; [simpl; auto|]. split; [reflexivity|].
  split; [simpl; lia|]. split; [reflexivity|discriminate].
Defined.

(** ** patterns.py: years *)

Section YearProperties.
Import PatternDetector.

Lemma finditer_4digits_step a b c d rest :
  finditer_4digits (a :: b :: c :: d :: rest)
  = if forallb Str.isdecimal_char [a; b; c; d]
    then Str.of_chars [a; b; c; d] :: finditer_4digits rest
    else finditer_4digits (b :: c :: d :: rest).
Proof. reflexivity. Qed.

Lemma finditer_4digits_short l :
  (List.length l < 4)%nat -> finditer_4digits l = [].
Proof.
  destruct l as [|a [|b [|c [|d l]]]]; simpl; try reflexivity; lia.
Qed.

Lemma finditer_4digits_sound n : forall l y,
  (List.length l <= n)%nat ->
  In y (finditer_4digits l) ->
  exists pre a b c d post,
    l = pre ++ [a; b; c; d] ++ post
    /\ y = Str.of_chars [a; b; c; d]
    /\ forallb Str.isdecimal_char [a; b; c; d] = true.
Proof.
  induction n as [|n IH]; intros l y Hlen Hin.
  - destruct l; [destruct Hin|simpl in Hlen; lia].
  - destruct l as [|a [|b [|c [|d rest]]]]; try (destruct Hin; fail).
    rewrite finditer_4digits_step in Hin.
    destruct (forallb Str.isdecimal_char [a; b; c; d]) eqn:Hd.
    + destruct Hin as [<- | Hin].
      * exists [], a, b, c, d, rest. auto.
      * apply IH in Hin as (pre & a' & b' & c' & d' & post & -> & Hy & Hd');
          [|simpl in Hlen; lia].
        exists (a :: b :: c :: d :: pre), a', b', c', d', post. auto.
    + apply IH in Hin as (pre & a' & b' & c' & d' & post & E & Hy & Hd');
        [|simpl in Hlen |- *; lia].
      exists (a :: pre), a', b', c', d', post. rewrite E. auto.
Qed.

(** [int] of four decimal digits does not raise. *)
Lemma int_of_four_digits a b c d :
  forallb Str.isdecimal_char [a; b; c; d] = true ->
  Str.int_of_str (Str.of_chars [a; b; c; d]) = Ok (year_value a b c d).
Proof.
  intros Hd. simpl in Hd.
  apply andb_prop in Hd as [Ha Hd]. apply andb_prop in Hd as [Hb Hd].
  apply andb_prop in Hd as [Hc Hd]. apply andb_prop in Hd as [Hd _].
  unfold Str.int_of_str. rewrite chars_of_chars. simpl.
  rewrite Ha, Hb, Hc, Hd. unfold year_value, digit. f_equal. lia.
Qed.

(** X7. Every issue of [_detect_year_patterns] is "Year pattern detected"
    for four decimal digits that stand next to each other in the password
    and write a number from 1900 to 2099. *)
Theorem year_issues_are_years (password issue : string) :
  In issue (_detect_year_patterns password) ->
  exists pre a b c d post,
    Str.chars password = pre ++ [a; b; c; d] ++ post
    /\ forallb Str.isdecimal_char [a; b; c; d] = true
    /\ 1900 <= year_value a b c d <= 2099
    /\ issue = year_pattern_issue (Str.of_chars [a; b; c; d]).
Proof.
  unfold _detect_year_patterns. rewrite in_flat_map.
  intros (y & Hy & Hin).
  apply (finditer_4digits_sound _ _ _ (Nat.le_refl _)) in Hy
    as (pre & a & b & c & d & post & Hl & -> & Hd).
  exists pre, a, b, c, d, post. split; [exact Hl|]. split; [exact Hd|].
  unfold year_issue in Hin.
  change (config.max_year_range config.PATTERN_THRESHOLDS) with (1900, 2099)
    in Hin.
  cbv beta iota in Hin.
  rewrite (int_of_four_digits a b c d Hd) in Hin.
  destruct (Z.leb_spec 1900 (year_value a b c d)); [|destruct Hin].
  destruct (Z.leb_spec (year_value a b c d) 2099); [|destruct Hin].
  destruct Hin as [<- | []]. split; [lia|reflexivity].
Qed.

Lemma ends_without_digit_tail x l :
  l <> [] -> ends_without_digit (x :: l) -> ends_without_digit l.
Proof.
  intros Hl. unfold ends_without_digit. simpl.
  destruct (rev l) eqn:E; [|simpl; auto].
  apply (f_equal (@rev ascii)) in E. rewrite rev_involutive in E.
  simpl in E. contradiction.
Qed.

Lemma ends_without_digit_skip pre1 pre2 :
  pre2 <> [] -> ends_without_digit (pre1 ++ pre2) -> ends_without_digit pre2.
Proof.
  intros Hne. induction pre1 as [|x pre1 IH]; [auto|].
  intros He. apply IH. simpl in He.
  apply (ends_without_digit_tail x); [|exact He].
  destruct pre1; [exact Hne|discriminate].
Qed.

Lemma ends_without_digit_last l x :
  ends_without_digit (l ++ [x]) -> Str.isdecimal_char x = false.
Proof. unfold ends_without_digit. rewrite rev_app_distr. simpl. auto. Qed.

(** The search goes on behind a text that ends in a character that is no
    digit: no match reaches across its end. *)
Lemma finditer_4digits_resumes n : forall pre l,
  (List.length pre <= n)%nat ->
  ends_without_digit pre ->
  forall y, In y (finditer_4digits l) -> In y (finditer_4digits (pre ++ l)).
Proof.
  induction n as [|n IH]; intros pre l Hlen Hend y Hy.
  - destruct pre; [exact Hy|simpl in Hlen; lia].
  - destruct pre as [|a pre]; [exact Hy|].
    destruct (finditer_4digits l) eqn:Hl; [destruct Hy|]. rewrite <- Hl in Hy.
    assert (Hl4 : (4 <= List.length l)%nat).
    { destruct (Nat.le_gt_cases 4 (List.length l)); [assumption|].
      rewrite finditer_4digits_short in Hl by assumption. discriminate. }
    destruct ((a :: pre) ++ l) as [|a' [|b [|c [|d rest]]]] eqn:E;
      try (apply (f_equal (@List.length ascii)) in E;
           rewrite length_app in E; simpl in E; lia).
    rewrite finditer_4digits_step.
    destruct (forallb Str.isdecimal_char [a'; b; c; d]) eqn:Hd.
    + assert (Hlong : (4 < List.length (a :: pre))%nat).
      { destruct (Nat.lt_ge_cases 4 (List.length (a :: pre)))
          as [|Hshort]; [assumption|exfalso].
        destruct (exists_last (l := a :: pre) ltac:(discriminate))
          as (pre' & x & Hpre).
        rewrite Hpre in Hend. apply ends_without_digit_last in Hend.
        assert (Hx : In x [a'; b; c; d]).
        { assert (Hnth : nth_error ((a :: pre) ++ l) (List.length pre')
                         = Some x).
          { rewrite Hpre, <- app_assoc. rewrite nth_error_app2 by lia.
            rewrite Nat.sub_diag. reflexivity. }
          rewrite E in Hnth.
          assert (Hp : (List.length pre' < 4)%nat).
          { rewrite Hpre, length_app in Hshort. simpl in Hshort. lia. }
          destruct (List.length pre') as [|[|[|[|k]]]]; simpl in Hnth;
            try lia; injection Hnth as <-; simpl; auto. }
        rewrite forallb_forall in Hd. rewrite (Hd x Hx) in Hend.
        discriminate. }
      right.
      assert (Hrest : rest = skipn 4 (a :: pre) ++ l).
      { assert (E' : skipn 4 ((a :: pre) ++ l) = rest)
          by (rewrite E; reflexivity).
        rewrite skipn_app in E'.
        replace (4 - List.length (a :: pre))%nat with O in E' by lia.
        simpl in E' |- *. symmetry. exact E'. }
      rewrite Hrest. apply IH.
      * rewrite length_skipn. simpl in Hlen |- *. lia.
      * apply (ends_without_digit_skip (firstn 4 (a :: pre))).
        -- intros Hnil. apply (f_equal (@List.length ascii)) in Hnil.
           rewrite length_skipn in Hnil. simpl in Hnil, Hlong. lia.
        -- rewrite firstn_skipn. exact Hend.
      * exact Hy.
    + injection E as -> E. rewrite <- E.
      destruct pre as [|x pre].
      * exact Hy.
      * apply IH; [simpl in Hlen |- *; lia| |exact Hy].
        apply (ends_without_digit_tail a'); [discriminate|exact Hend].
Qed.

(** X8. A year from 1900 to 2099 is detected when it opens a group of
    digits: when the text before its four digits is empty or ends in a
    character that is no decimal digit.  (Inside a group of digits the search
    goes on in steps of four, and may pass over a year: in "12024" it finds
    "1202", and no year.) *)
Theorem year_after_non_digit_detected (password : string)
  (pre : list ascii) (a b c d : ascii) (post : list ascii) :
  Str.chars password = pre ++ [a; b; c; d] ++ post ->
  ends_without_digit pre ->
  forallb Str.isdecimal_char [a; b; c; d] = true ->
  1900 <= year_value a b c d <= 2099 ->
  In (year_pattern_issue (Str.of_chars [a; b; c; d]))
     (_detect_year_patterns password).
Proof.
  intros Hl Hend Hd Hrange. unfold _detect_year_patterns.
  apply in_flat_map. exists (Str.of_chars [a; b; c; d]). split.
  - rewrite Hl.
    apply (finditer_4digits_resumes _ pre _ (Nat.le_refl _) Hend).
    change ([a; b; c; d] ++ post) with (a :: b :: c :: d :: post).
    rewrite finditer_4digits_step, Hd. left. reflexivity.
  - unfold year_issue.
    change (config.max_year_range config.PATTERN_THRESHOLDS) with (1900, 2099).
    cbv beta iota.
    rewrite (int_of_four_digits a b c d Hd).
    destruct (Z.leb_spec 1900 (year_value a b c d)); [|lia].
    destruct (Z.leb_spec (year_value a b c d) 2099); [|lia].
    left. reflexivity.
Qed.

End YearProperties.

Lemma year_issues_are_years_witness :
  In (year_pattern_issue "1999")
     (PatternDetector._detect_year_patterns "Prince1999!")
  /\ exists pre a b c d post,
       Str.chars "Prince1999!" = pre ++ [a; b; c; d] ++ post
       /\ forallb Str.isdecimal_char [a; b; c; d] = true
       /\ 1900 <= year_value a b c d <= 2099
       /\ year_pattern_issue "1999"
          = year_pattern_issue (Str.of_chars [a; b; c; d]).
Proof.
  assert (Hin : In (year_pattern_issue "1999")
                   (PatternDetector._detect_year_patterns "Prince1999!"))
    by (left; reflexivity).
  split; [exact Hin|].
  exact (year_issues_are_years "Prince1999!" _ Hin).
Defined.

Lemma year_after_non_digit_detected_witness :
  In (year_pattern_issue "2024")
     (PatternDetector._detect_year_patterns "May-2024").
Proof.
  apply (year_after_non_digit_detected "May-2024"
           ["M"; "a"; "y"; "-"]%char "2"%char "0"%char "2"%char "4"%char []).
  - reflexivity.
  - reflexivity.
  - reflexivity.
  - vm_compute. split; discriminate.
Defined.

(** ** patterns.py: username and e-mail *)

Section SimilarityProperties.
Context `{PyFloat}.
Import PatternDetector.

(** X9. The edges of [_detect_username_similarity]: without a username and
    an e-mail address, or with empty ones, there is no issue; and an e-mail
    address that starts with "@" has the empty local part, which every
    password contains, so that the issue "Password contains email username:
    ''" is raised for every password and every username. *)
Theorem similarity_edge_cases (password domain : string)
  (username : option string) :
  _detect_username_similarity password None None = []
  /\ _detect_username_similarity password (Some "") (Some "") = []
  /\ In (contains_email_issue "")
        (_detect_username_similarity password username
           (Some ("@" +:+ domain))).
Proof.
  split; [reflexivity|]. split; [reflexivity|].
  unfold _detect_username_similarity.
  assert (Hemail : truthy (Some ("@" +:+ domain)) = true) by reflexivity.
  rewrite Hemail, andb_false_r. cbv zeta.
  apply in_or_app. right.
  unfold email_issues. cbv zeta.
  change (Str.lower ("@" +:+ domain)) with (String "@" (Str.lower domain)).
  assert (Hat : Str.char_in "@" (String "@" (Str.lower domain)) = true)
    by reflexivity.
  rewrite Hat.
  assert (Hlocal : hd "" (Str.split (String "@" (Str.lower domain)) "@") = "")
    by reflexivity.
  rewrite Hlocal, contains_empty.
  apply in_or_app. left. left. reflexivity.
Qed.

Lemma email_issues_other password_lower email username :
  ~ In (contains_username_issue username) (email_issues password_lower email).
Proof.
  unfold email_issues. cbv zeta. intros Hin.
  apply in_app_or in Hin as [Hin | Hin];
    match type of Hin with
    | In _ (if ?c then _ else _) => destruct c
    end; try (destruct Hin; fail);
    destruct Hin as [E | []]; unfold contains_username_issue in E;
    simpl in E; discriminate E.
Qed.

(** X10. The issue "Password contains username: '...'" is raised exactly
    when the username is not empty and its lower-case form occurs in the
    lower-case form of the password, whatever the e-mail address is; the
    issue quotes the username as it was given. *)
Theorem username_in_password_detected (password username : string)
  (email : option string) :
  In (contains_username_issue username)
     (_detect_username_similarity password (Some username) email)
  <-> username <> ""
      /\ Str.contains (Str.lower password) (Str.lower username) = true.
Proof.
  unfold _detect_username_similarity.
  assert (Hemail : forall l,
            In (contains_username_issue username)
               (l ++ match email with
                     | Some e => if truthy email
                                 then email_issues (Str.lower password) e
                                 else []
                     | None => []
                     end)
            -> In (contains_username_issue username) l).
  { intros l Hin. apply in_app_or in Hin as [Hin | Hin]; [exact Hin|].
    destruct email as [e|]; [|destruct Hin].
    destruct (truthy (Some e)); [|destruct Hin].
    exfalso. exact (email_issues_other _ _ _ Hin). }
  destruct (String.eqb_spec username "") as [->|Hne].
  - split; [|intros [Hne _]; contradiction].
    intros Hin. exfalso.
    cbn [truthy String.eqb negb andb] in Hin.
    destruct (negb (truthy email)); [destruct Hin|].
    cbv zeta in Hin. apply Hemail in Hin. destruct Hin.
  - assert (Hu : truthy (Some username) = true).
    { unfold truthy. destruct (String.eqb_spec username ""); [contradiction|].
      reflexivity. }
    rewrite Hu. cbn [negb andb]. cbv zeta. split.
    + intros Hin. split; [exact Hne|]. apply Hemail in Hin.
      unfold username_issues in Hin. cbv zeta in Hin.
      destruct (Str.contains (Str.lower password) (Str.lower username));
        [reflexivity|].
      simpl in Hin.
      match type of Hin with
      | In _ (if ?c then _ else _) => destruct c
      end; [|destruct Hin].
      destruct Hin as [E | []]. discriminate E.
    + intros [_ Hc]. apply in_or_app. left.
      unfold username_issues. cbv zeta. rewrite Hc.
      apply in_or_app. left. left. reflexivity.
Qed.

End SimilarityProperties.

(** ** patterns.py: all detectors *)

Lemma categories_distinct : List.NoDup PatternDetector.categories.
Proof.
  unfold PatternDetector.categories.
  repeat (constructor; [simpl; intuition discriminate|]).
  constructor.
Qed.

Section DetectAllProperties.
Context `{PyFloat}.
Import PatternDetector.

(** X11. The map that [detect_all] returns holds no category with an empty
    list of issues: its keys are the categories that have issues, each once
    and in the order repeated_chars, sequential_chars, keyboard_pattern,
    leetspeak, dictionary_word, year_pattern, username_similarity,
    low_variety, and looking a key up gives its issues. *)
Theorem detect_all_keeps_nonempty_categories
  (self : PatternDetector.t) (password : string)
  (username email : option string) (issues : PatternIssues) :
  detect_all self password username email = Ok issues ->
  Dict.keys issues = List.filter (fun c => Dict.mem c issues) categories
  /\ (forall category l, In (category, l) issues ->
        l <> [] /\ In category categories
        /\ Dict.get issues category = Some l).
Proof.
  unfold detect_all. cbv zeta.
  destruct (_detect_sequential_chars password) as [l2|]; [|discriminate].
  cbn [Py.bind].
  match goal with
  | |- context [List.filter ?f ?d] =>
      set (keep := f); set (all := d);
      assert (Hkeys : Dict.keys all = categories) by reflexivity
  end.
  intros Hissues.
  assert (E : issues = List.filter keep all) by congruence.
  rewrite E. clear E Hissues.
  split.
  - rewrite <- Hkeys. apply dict_keys_filter.
    rewrite Hkeys. exact categories_distinct.
  - intros category l Hin. apply filter_In in Hin as [Hin Hkeep].
    split; [|split].
    + intros ->. discriminate Hkeep.
    + rewrite <- Hkeys. apply in_map_iff. exists (category, l). auto.
    + apply dict_get_filter; [|exact Hin|exact Hkeep].
      rewrite Hkeys. exact categories_distinct.
Qed.

End DetectAllProperties.

Lemma detect_all_keeps_nonempty_categories_witness :
  PatternDetector.detect_all (H := QFloat.exact) detector "aaa2019" None None
  = Ok [ ("repeated_chars", ["Repeated character 'a' 3 times"]);
         ("leetspeak", ["High leetspeak substitution ratio detected"]);
         ("year_pattern", ["Year pattern detected: '2019'"]) ]
  /\ Dict.keys [ ("repeated_chars", ["Repeated character 'a' 3 times"]);
                 ("leetspeak", ["High leetspeak substitution ratio detected"]);
                 ("year_pattern", ["Year pattern detected: '2019'"]) ]
     = ["repeated_chars"; "leetspeak"; "year_pattern"].
Proof.
  assert (Hd : PatternDetector.detect_all (H := QFloat.exact) detector
                 "aaa2019" None None
               = Ok [ ("repeated_chars", ["Repeated character 'a' 3 times"]);
                      ("leetspeak",
                       ["High leetspeak substitution ratio detected"]);
                      ("year_pattern", ["Year pattern detected: '2019'"]) ])
    by (vm_compute; reflexivity).
  split; [exact Hd|].
  rewrite (proj1 (detect_all_keeps_nonempty_categories (H := QFloat.exact)
                    detector "aaa2019" None None _ Hd)).
  reflexivity.
Defined.

(** ** entropy.py *)

Section EntropyClassProperties.
Context `{PyFloat}.
Import EntropyCalculator.

(** X12. [calculate_entropy] sees the length of the password and which of the
    four character classes occur in it, and nothing else: two passwords of
    the same length with the same classes get the same entropy and the same
    flags, "aaaaaaaa" as much as "kqzvwxyt". *)
Theorem entropy_sees_length_and_classes (p1 p2 : string)
  (has_patterns : bool) :
  Str.len p1 = Str.len p2 ->
  character_classes p1 = character_classes p2 ->
  calculate_entropy p1 has_patterns = calculate_entropy p2 has_patterns.
Proof.
  intros Hlen Hclasses. unfold character_classes in Hclasses.
  injection Hclasses as Hl Hu Hd Hs.
  unfold calculate_entropy.
  assert (Hempty : String.eqb p1 "" = String.eqb p2 "").
  { destruct p1, p2; try reflexivity; discriminate Hlen. }
  rewrite Hempty, Hlen, Hl, Hu, Hd, Hs. reflexivity.
Qed.

End EntropyClassProperties.

Lemma entropy_sees_length_and_classes_witness :
  Str.len "aaaaaaaa" = Str.len "kqzvwxyt"
  /\ character_classes "aaaaaaaa" = character_classes "kqzvwxyt"
  /\ EntropyCalculator.calculate_entropy (H := QFloat.exact) "aaaaaaaa" false
     = EntropyCalculator.calculate_entropy (H := QFloat.exact) "kqzvwxyt" false.
Proof.
  split; [reflexivity|]. split; [reflexivity|].
  exact (entropy_sees_length_and_classes (H := QFloat.exact)
           "aaaaaaaa" "kqzvwxyt" false eq_refl eq_refl).
Defined.

Section PositionalProperties.
Context `{PyFloat} {L : PyFloatLog2}.
Import EntropyCalculator.

Lemma count_char_total counts char :
  total_count (count_char counts char) = total_count counts + 1.
Proof.
  induction counts as [|[c n] counts IH]; simpl; [reflexivity|].
  destruct (Ascii.eqb c char); simpl; [lia|]. rewrite IH. lia.
Qed.

Lemma count_char_positive counts char :
  Forall (fun entry => 1 <= snd entry) counts ->
  Forall (fun entry => 1 <= snd entry) (count_char counts char).
Proof.
  induction 1 as [|[c n] counts Hn Hrest IH]; simpl.
  - constructor; [simpl; lia|constructor].
  - destruct (Ascii.eqb c char); constructor; simpl in *; try lia; assumption.
Qed.

Lemma count_char_keys counts char :
  List.NoDup (map fst counts) ->
  List.NoDup (map fst (count_char counts char))
  /\ (forall c, In c (map fst (count_char counts char))
                <-> c = char \/ In c (map fst counts)).
Proof.
  induction counts as [|[c n] counts IH]; simpl; intros Hnd.
  - split; [repeat constructor; intros []|]. intros x. intuition.
  - apply List.NoDup_cons_iff in Hnd as [Hc Hnd].
    destruct (IH Hnd) as [IH1 IH2].
    destruct (Ascii.eqb_spec c char) as [->|Hne]; simpl.
    + split; [constructor; assumption|]. intros x. intuition.
    + split.
      * constructor; [|exact IH1]. rewrite IH2. intros [E | Hin]; auto.
      * intros x. rewrite IH2. intuition.
Qed.

(** The frequency table after the characters of [l] have been counted. *)
Lemma char_counts_spec l : forall counts,
  List.NoDup (map fst counts) ->
  Forall (fun entry => 1 <= snd entry) counts ->
  let result := fold_left count_char l counts in
  List.NoDup (map fst result)
  /\ Forall (fun entry => 1 <= snd entry) result
  /\ total_count result = total_count counts + Z.of_nat (List.length l)
  /\ (forall c, In c (map fst result) <-> In c l \/ In c (map fst counts)).
Proof.
  induction l as [|x l IH]; intros counts Hnd Hpos; cbv zeta.
  - simpl. repeat split; auto; try lia. intros [[] | Hin]. exact Hin.
  - cbn [fold_left].
    destruct (count_char_keys counts x Hnd) as [Hnd' Hkeys].
    destruct (IH (count_char counts x) Hnd' (count_char_positive _ x Hpos))
      as (H1 & H2 & H3 & H4).
    split; [exact H1|]. split; [exact H2|]. split.
    + rewrite H3, count_char_total. cbn [List.length]. lia.
    + intros c. rewrite H4, Hkeys. simpl. intuition.
Qed.

(** X13. [calculate_positional_entropy] does not raise: [math.log2] is
    called under the guard [probability > 0] only, where it is defined.  Its
    frequency table has one entry for each character of the password, every
    count is 1 at least, and the counts add up to the length. *)
Theorem positional_entropy_returns (password : string) :
  (forall x, flt (of_int 0) x = true -> exists y, log2_float x = Ok y) ->
  (exists entropy, calculate_positional_entropy password = Ok entropy)
  /\ total_count (char_counts password) = Z.of_nat (Str.len password)
  /\ Forall (fun entry => 1 <= snd entry) (char_counts password)
  /\ List.NoDup (map fst (char_counts password))
  /\ (forall c, In c (map fst (char_counts password))
                <-> In c (Str.chars password)).
Proof.
  intros Hlog.
  destruct (char_counts_spec (Str.chars password) [])
    as (Hnd & Hpos & Htotal & Hkeys); [constructor|constructor|].
  split; [|split; [|split; [exact Hpos|split; [exact Hnd|]]]].
  - unfold calculate_positional_entropy.
    destruct (String.eqb password ""); [eauto|]. cbv zeta.
    assert (Hfold : forall counts start,
              exists entropy,
                fold_left (positional_step (Z.of_nat (Str.len password)))
                          counts (Ok start) = Ok entropy).
    { induction counts as [|entry counts IH]; intros start; simpl; [eauto|].
      destruct (flt (of_int 0) _) eqn:Hp; [|apply IH].
      destruct (Hlog _ Hp) as (y & ->). simpl. apply IH. }
    destruct (Hfold (char_counts password) (lit 0)) as (entropy & ->).
    simpl. eauto.
  - unfold char_counts. rewrite Htotal. simpl.
    unfold Str.len. rewrite chars_length. reflexivity.
  - intros c. unfold char_counts. rewrite Hkeys. simpl. tauto.
Qed.

End PositionalProperties.

Lemma positional_entropy_returns_witness :
  (exists entropy,
     EntropyCalculator.calculate_positional_entropy
       (H := QFloat.exact) (L := QFloat.exact_log2) "hello" = Ok entropy)
  /\ total_count (EntropyCalculator.char_counts "hello") = 5.
Proof.
  destruct (positional_entropy_returns
              (H := QFloat.exact) (L := QFloat.exact_log2) "hello")
    as (Hreturns & Htotal & _).
  - intros x Hx. simpl in Hx |- *. unfold QFloat.log2_of_float.
    apply negb_true_iff in Hx.
    change (inject_Z 0) with 0%Q in Hx. rewrite Hx. eauto.
  - split; [exact Hreturns|exact Htotal].
Defined.

(** ** breach.py *)

Section BlacklistProperties.
Import config Requests BreachChecker.

Lemma basename_of_path dir name :
  Str.char_in "/" name = false -> basename (dir +:+ "/" +:+ name) = name.
Proof.
  intros Hno. unfold basename, Str.split.
  rewrite chars_append.
  change (Str.chars ("/" +:+ name)) with ("/"%char :: Str.chars name).
  rewrite split_chars_last by exact Hno. apply of_chars_chars.
Qed.

(** X14. The directory of the blacklist file that a checker is built with is
    ignored: for a path [dir/name] the checker reads [data/name], the file
    that it reads for the bare [name], whatever [dir] is. *)
Theorem blacklist_directory_is_ignored (cfg : BreachConfig) (fs : FileSystem)
  (dir name : string) :
  Str.char_in "/" name = false ->
  blacklist (init cfg fs (Some (dir +:+ "/" +:+ name)))
  = _load_blacklist fs name
  /\ blacklist_path (init cfg fs (Some (dir +:+ "/" +:+ name)))
     = DATA_DIR +:+ "/" +:+ name.
Proof.
  intros Hno.
  assert (Htruthy : PatternDetector.truthy (Some (dir +:+ "/" +:+ name)) = true).
  { unfold PatternDetector.truthy. destruct dir; reflexivity. }
  unfold init, blacklist_path. rewrite Htruthy.
  cbn [blacklist blacklist_file default].
  unfold _load_blacklist, id.
  rewrite basename_of_path by exact Hno.
  assert (Hname : basename name = name).
  { unfold basename, Str.split. rewrite split_chars_none by exact Hno.
    simpl. apply of_chars_chars. }
  rewrite Hname. split; reflexivity.
Qed.

Lemma loaded_blacklist fs file lines word :
  fs (DATA_DIR +:+ "/" +:+ basename file) = Some (Ok lines) ->
  word ∈ _load_blacklist fs file
  <-> exists line,
        In line lines /\ Str.strip line <> ""
        /\ word = Str.lower (Str.strip line).
Proof.
  intros Hfs. unfold _load_blacklist. rewrite Hfs.
  rewrite elem_of_list_to_set, list_elem_of_In, in_map_iff. split.
  - intros (line & <- & Hin). apply filter_In in Hin as [Hin Hnb].
    exists line. split; [exact Hin|]. split; [|reflexivity].
    intros E. rewrite E in Hnb. discriminate Hnb.
  - intros (line & Hin & Hnb & ->). exists line. split; [reflexivity|].
    apply filter_In. split; [exact Hin|].
    destruct (String.eqb_spec (Str.strip line) ""); [contradiction|reflexivity].
Qed.

(** X15. A checker built over a readable blacklist file finds a password in
    its blacklist exactly when the password, lower-cased, is the lower-cased
    text of a line of the file without the white space around it, blank
    lines apart; [check_breach] then reports the breach with the blacklist
    reason, and sends no request. *)
Theorem blacklist_file_lookup (lib : Library) (cfg : BreachConfig)
  (fs : FileSystem) (blacklist_file : option string) (lines : list string)
  (password : string) :
  let self := init cfg fs blacklist_file in
  fs (blacklist_path self) = Some (Ok lines) ->
  (Str.lower password ∈ blacklist self
   <-> exists line,
         In line lines /\ Str.strip line <> ""
         /\ Str.lower password = Str.lower (Str.strip line))
  /\ ((exists line,
         In line lines /\ Str.strip line <> ""
         /\ Str.lower password = Str.lower (Str.strip line)) ->
      check_breach lib cfg self password
      = ((true, Some blacklist_reason), [])).
Proof.
  intros self Hfs.
  assert (Hiff : Str.lower password ∈ blacklist self
                 <-> exists line,
                       In line lines /\ Str.strip line <> ""
                       /\ Str.lower password = Str.lower (Str.strip line)).
  { unfold self, init. cbn [blacklist]. apply loaded_blacklist. exact Hfs. }
  split; [exact Hiff|].
  intros Hline. apply check_breach_blacklisted, Hiff, Hline.
Qed.

(** X16. Without a readable blacklist file the blacklist is empty, and no
    error is raised: the file missing, or an error while it is read, leaves
    a checker that, with the remote check off as in the configuration,
    reports no password as breached. *)
Theorem missing_blacklist_reports_nothing (lib : Library) (cfg : BreachConfig)
  (fs : FileSystem) (blacklist_file : option string) (password : string) :
  let self := init cfg fs blacklist_file in
  fs (blacklist_path self) = None
  \/ (exists e, fs (blacklist_path self) = Some (Raise e)) ->
  hibp_enabled cfg = false ->
  blacklist self = ∅
  /\ check_breach lib cfg self password = ((false, None), []).
Proof.
  intros self Hfs Hoff.
  assert (Hempty : blacklist self = ∅).
  { unfold self, init. cbn [blacklist]. unfold _load_blacklist.
    fold (blacklist_path self).
    unfold self, init, blacklist_path in Hfs |- *.
    cbn [BreachChecker.blacklist_file] in Hfs |- *.
    destruct Hfs as [-> | [e ->]]; reflexivity. }
  split; [exact Hempty|].
  unfold check_breach. rewrite Hempty, Hoff.
  rewrite bool_decide_eq_false_2 by apply not_elem_of_empty. reflexivity.
Qed.

(** X17. [add_to_blacklist(p)] changes the answer for the passwords that
    lower-case to [p.lower()] and for no other: for every other password
    [check_breach] returns what it returned before, and sends the same
    requests.  The file name of the checker stays as it is. *)
Theorem add_to_blacklist_frame (lib : Library) (cfg : BreachConfig)
  (self : BreachChecker.t) (p p' : string) :
  Str.lower p' <> Str.lower p ->
  check_breach lib cfg (add_to_blacklist self p) p'
  = check_breach lib cfg self p'
  /\ BreachChecker.blacklist_file (add_to_blacklist self p)
     = BreachChecker.blacklist_file self.
Proof.
  intros Hne. split; [|reflexivity].
  unfold check_breach, add_to_blacklist. cbn [blacklist].
  assert (Hiff : Str.lower p' ∈ ({[Str.lower p]} ∪ blacklist self : gset string)
                 <-> Str.lower p' ∈ blacklist self).
  { rewrite elem_of_union, elem_of_singleton. tauto. }
  rewrite (bool_decide_ext _ _ Hiff). reflexivity.
Qed.

End BlacklistProperties.

Lemma blacklist_directory_is_ignored_witness :
  Str.char_in "/" "custom.txt" = false
  /\ blacklist_path (BreachChecker.init config.BREACH_CONFIG no_files
                       (Some "/srv/lists/custom.txt"))
     = "data/custom.txt".
Proof.
  split; [reflexivity|].
  exact (proj2 (blacklist_directory_is_ignored config.BREACH_CONFIG no_files
                  "/srv/lists" "custom.txt" eq_refl)).
Defined.

Lemma blacklist_file_lookup_witness :
  listed_files
    (blacklist_path (BreachChecker.init config.BREACH_CONFIG listed_files None))
  = Some (Ok [ "123456" +:+ line_feed; " Password " +:+ line_feed;
               line_feed; "qwerty" ])
  /\ BreachChecker.check_breach timing_out config.BREACH_CONFIG
       (BreachChecker.init config.BREACH_CONFIG listed_files None) "PASSWORD"
     = ((true, Some blacklist_reason), []).
Proof.
  assert (Hfs : listed_files
                  (blacklist_path
                     (BreachChecker.init config.BREACH_CONFIG listed_files None))
                = Some (Ok [ "123456" +:+ line_feed; " Password " +:+ line_feed;
                             line_feed; "qwerty" ])) by reflexivity.
  split; [exact Hfs|].
  apply (proj2 (blacklist_file_lookup timing_out config.BREACH_CONFIG
                  listed_files None _ "PASSWORD" Hfs)).
  exists (" Password " +:+ line_feed).
  split; [simpl; auto|]. split; [discriminate|reflexivity].
Defined.

Lemma missing_blacklist_reports_nothing_witness :
  no_files
    (blacklist_path (BreachChecker.init config.BREACH_CONFIG no_files None))
  = None
  /\ BreachChecker.check_breach timing_out config.BREACH_CONFIG
       (BreachChecker.init config.BREACH_CONFIG no_files None) "123456"
     = ((false, None), []).
Proof.
  split; [reflexivity|].
  exact (proj2 (missing_blacklist_reports_nothing timing_out
                  config.BREACH_CONFIG no_files None "123456"
                  (or_introl eq_refl) eq_refl)).
Defined.

Lemma add_to_blacklist_frame_witness :
  Str.lower "hunter2" <> Str.lower "TestPassword"
  /\ BreachChecker.check_breach timing_out remote_enabled
       (BreachChecker.add_to_blacklist empty_checker "TestPassword") "hunter2"
     = BreachChecker.check_breach timing_out remote_enabled
         empty_checker "hunter2".
Proof.
  assert (Hne : Str.lower "hunter2" <> Str.lower "TestPassword")
    by discriminate.
  split; [exact Hne|].
  exact (proj1 (add_to_blacklist_frame timing_out remote_enabled empty_checker
                  "TestPassword" "hunter2" Hne)).
Defined.

Section RemoteProperties.
Import config Requests BreachChecker.








(** The results of the scan, of [_check_hibp] and of [check_breach]. *)
Lemma scan_lines_result suffix lines :
  scan_lines suffix lines = (false, None)
  \/ exists count, scan_lines suffix lines = (true, Some (hibp_reason count)).
Proof.
  induction lines as [|line lines IH]; cbn [scan_lines]; [auto|].
  destruct (Str.char_in ":" line); [|exact IH].
  destruct (Str.split1 line ":") as [[before count]|]; [|exact IH].
  destruct (String.eqb before suffix); [|exact IH].
  right. exists count. reflexivity.
Qed.

Lemma _check_hibp_result lib cfg password :
  fst (fst (_check_hibp lib cfg password)) = false
  \/ exists count,
       fst (_check_hibp lib cfg password) = (true, Some (hibp_reason count)).
Proof.
  unfold _check_hibp, hibp_query.
  destruct (importable lib); cbn [negb]; [|left; reflexivity].
  cbv zeta.
  destruct (get lib _ 5) as [response|e]; cbn [fst].
  - destruct (status_code response =? 200); [|left; reflexivity].
    destruct (scan_lines_result
                (Str.drop (Str.upper (Hashlib.sha1_hexdigest password)) 5)
                (Str.splitlines (text response))) as [-> | [count ->]];
      [left; reflexivity|right; eauto].
  - left. destruct (exn_cls e); reflexivity.
Qed.

Lemma check_breach_result lib cfg self password :
  fst (check_breach lib cfg self password) = (false, None)
  \/ exists reason,
       fst (check_breach lib cfg self password) = (true, Some reason)
       /\ is_breach_reason reason
       /\ String.eqb reason "" = false.
Proof.
  unfold check_breach.
  destruct (bool_decide _).
  { right. exists blacklist_reason. split; [reflexivity|].
    split; [left; reflexivity|reflexivity]. }
  destruct (hibp_enabled cfg); [|left; reflexivity].
  destruct (_check_hibp_result lib cfg password) as [Hf | (count & Hc)];
    destruct (_check_hibp lib cfg password) as [[breached reason] sent];
    cbn [fst] in *.
  - subst breached. left. reflexivity.
  - injection Hc as -> ->. right. exists (hibp_reason count).
    split; [reflexivity|]. split; [right; exists count; reflexivity|].
    reflexivity.
Qed.

Lemma check_breach_requests lib cfg self password :
  snd (check_breach lib cfg self password) = []
  \/ (snd (check_breach lib cfg self password) = [prefix_query cfg password]
      /\ hibp_enabled cfg = true /\ importable lib = true
      /\ Str.lower password ∉ blacklist self).
Proof.
  unfold check_breach.
  destruct (bool_decide _) eqn:Hb; [left; reflexivity|].
  apply bool_decide_eq_false_1 in Hb.
  destruct (hibp_enabled cfg); [|left; reflexivity].
  pose proof (_check_hibp_sent lib cfg password) as Hs.
  rewrite hibp_query_sent in Hs.
  destruct (_check_hibp lib cfg password) as [[[] reason] sent];
    cbn [snd] in *; subst sent;
    (destruct (importable lib); [right|left; reflexivity]); auto.
Qed.

End RemoteProperties.


(** ** scorer.py *)

Section PenaltyProperties.
Context `{PyFloat}.
Import PasswordScorer.

Lemma penalty_nonneg pattern_type :
  0 <= default 0 (Dict.get config.PATTERN_PENALTIES pattern_type).
Proof.
  unfold config.PATTERN_PENALTIES. cbn [Dict.get].
  repeat match goal with
         | |- context [String.eqb ?a ?b] => destruct (String.eqb a b)
         end; simpl; lia.
Qed.

Lemma apply_penalty_shape score entry1 entry2 :
  fst entry1 = fst entry2 ->
  match snd entry1 with [] => false | _ => true end
  = match snd entry2 with [] => false | _ => true end ->
  apply_penalty score entry1 = apply_penalty score entry2.
Proof.
  destruct entry1 as [k1 [|x1 l1]], entry2 as [k2 [|x2 l2]]; simpl;
    intros Hk Hl; try discriminate Hl; subst; reflexivity.
Qed.

Lemma penalties_shape issues1 : forall issues2 score,
  pattern_shape issues1 = pattern_shape issues2 ->
  fold_left apply_penalty issues1 score = fold_left apply_penalty issues2 score.
Proof.
  induction issues1 as [|e1 issues1 IH]; intros [|e2 issues2] score Hs;
    simpl in Hs; try discriminate Hs; [reflexivity|].
  injection Hs as Hk Hl Hs. simpl.
  rewrite (apply_penalty_shape score e1 e2 Hk Hl). apply IH. exact Hs.
Qed.

(** X20. The penalty of a category is taken once, however many issues the
    category has: two pattern-issue maps with the same categories, of which
    the same ones have issues, get the same score. *)
Theorem score_counts_each_category_once
  (entropy_bits : float) (issues1 issues2 : Dict.dict (list string))
  (is_breached : bool) (length : Z) :
  pattern_shape issues1 = pattern_shape issues2 ->
  calculate_score entropy_bits issues1 is_breached length
  = calculate_score entropy_bits issues2 is_breached length.
Proof.
  intros Hs. unfold calculate_score. destruct is_breached; [reflexivity|].
  destruct (base_score entropy_bits) as [b|e]; [|reflexivity].
  cbn [Py.bind]. cbv zeta. rewrite (penalties_shape _ _ _ Hs). reflexivity.
Qed.

Lemma penalties_lower issues : forall score,
  fold_left apply_penalty issues score <= score.
Proof.
  induction issues as [|[k l] issues IH]; intros score; cbn [fold_left];
    [lia|].
  etransitivity; [apply IH|]. unfold apply_penalty.
  destruct l; [lia|]. pose proof (penalty_nonneg k). lia.
Qed.

(** X21. Pattern issues never raise the score: the score of a pattern-issue
    map with further entries is at most the score without them, for the
    same entropy, breach status and length. *)
Theorem patterns_never_raise_score
  (entropy_bits : float) (issues more : Dict.dict (list string))
  (is_breached : bool) (length s : Z) :
  calculate_score entropy_bits (issues ++ more) is_breached length = Ok s ->
  exists s0,
    calculate_score entropy_bits issues is_breached length = Ok s0
    /\ s <= s0.
Proof.
  unfold calculate_score. destruct is_breached.
  - intros [= <-]. exists 0. split; [reflexivity|lia].
  - destruct (base_score entropy_bits) as [b|e]; [|discriminate].
    cbn [Py.bind]. cbv zeta. intros [= <-].
    eexists. split; [reflexivity|].
    rewrite fold_left_app.
    pose proof (penalties_lower more (fold_left apply_penalty issues b)). lia.
Qed.

End PenaltyProperties.

Lemma score_counts_each_category_once_witness :
  pattern_shape [("year_pattern", ["1999"])]
  = pattern_shape [("year_pattern", ["1999"; "2001"; "2024"])]
  /\ PasswordScorer.calculate_score (H := QFloat.exact) (55 # 1)
       [("year_pattern", ["1999"])] false 12
     = PasswordScorer.calculate_score (H := QFloat.exact) (55 # 1)
         [("year_pattern", ["1999"; "2001"; "2024"])] false 12.
Proof.
  assert (Hs : pattern_shape [("year_pattern", ["1999"])]
               = pattern_shape [("year_pattern", ["1999"; "2001"; "2024"])])
    by reflexivity.
  split; [exact Hs|].
  exact (score_counts_each_category_once (H := QFloat.exact) (55 # 1) _ _
           false 12 Hs).
Defined.

Lemma patterns_never_raise_score_witness :
  PasswordScorer.calculate_score (H := QFloat.exact) (55 # 1)
    ([] ++ [("keyboard_pattern", ["qwer"])]) false 12 = Ok 43
  /\ exists s0,
       PasswordScorer.calculate_score (H := QFloat.exact) (55 # 1) [] false 12
       = Ok s0
       /\ 43 <= s0.
Proof.
  assert (Hs : PasswordScorer.calculate_score (H := QFloat.exact) (55 # 1)
                 ([] ++ [("keyboard_pattern", ["qwer"])]) false 12 = Ok 43)
    by reflexivity.
  split; [exact Hs|].
  exact (patterns_never_raise_score (H := QFloat.exact) (55 # 1) []
           [("keyboard_pattern", ["qwer"])] false 12 43 Hs).
Defined.

(** *** The entropy part of the score, in exact arithmetic *)

Section ExactScoreProperties.
Import PasswordScorer.











End ExactScoreProperties.


(** *** Recommendations *)

Section RecommendationShape.
Context `{PyFloat}.
Import PasswordScorer.

Lemma append_if_nil cond message l :
  append_if cond message l = [] <-> cond = false /\ l = [].
Proof.
  unfold append_if. destruct cond.
  - split; [|intros [[=] _]]. destruct l; discriminate.
  - split; [auto|intros [_ ->]; reflexivity].
Qed.

Lemma append_if_In cond message l x :
  In x (append_if cond message l) -> (cond = true /\ x = message) \/ In x l.
Proof.
  unfold append_if. destruct cond; [|auto].
  intros Hin. apply in_app_or in Hin as [Hin | [<- | []]]; auto.
Qed.

Lemma generate_recommendations_nonempty score strength entropy_bits
  pattern_issues is_breached char_classes length :
  exists first rest,
    generate_recommendations score strength entropy_bits
      pattern_issues is_breached char_classes length = first :: rest.
Proof.
  unfold generate_recommendations. cbv zeta.
  destruct is_breached; [eauto|].
  match goal with
  | |- context [match ?l with nil => _ | cons _ _ => _ end] => destruct l
  end; eauto.
Qed.

(** X24. [generate_recommendations] always gives a recommendation.  The
    recommendation "Password meets good security practices ..." comes alone
    or not at all, and it comes exactly when the password is not breached,
    its strength is not "Weak", its entropy is not below 20 bits, its length
    is 12 or more, all four character classes occur in it, and none of the
    seven categories with advice is in the pattern-issue map.  (The category
    low_variety does not count.) *)
Theorem recommendations_never_empty
  (score : Z) (strength : string) (entropy_bits : float)
  (pattern_issues : Dict.dict (list string)) (is_breached : bool)
  (char_classes : EntropyCalculator.CharClasses) (length : Z) :
  let recommendations :=
    generate_recommendations score strength entropy_bits pattern_issues
                             is_breached char_classes length in
  (exists first rest, recommendations = first :: rest)
  /\ (In good_practice recommendations <-> recommendations = [good_practice])
  /\ (recommendations = [good_practice]
      <-> is_breached = false
          /\ String.eqb strength "Weak" = false
          /\ flt entropy_bits (of_int config.MIN_ENTROPY_BITS) = false
          /\ 12 <= length
          /\ EntropyCalculator.has_lower char_classes = true
          /\ EntropyCalculator.has_upper char_classes = true
          /\ EntropyCalculator.has_digit char_classes = true
          /\ EntropyCalculator.has_special char_classes = true
          /\ forall category, In category advised_categories ->
                              Dict.mem category pattern_issues = false).
Proof.
  cbv zeta.
  split; [apply generate_recommendations_nonempty|].
  unfold generate_recommendations. cbv zeta.
  destruct is_breached.
  { split.
    - split; [|intros [=]]. intros [E | []]. discriminate E.
    - split; [intros [=]|intros [[=] _]]. }
  match goal with
  | |- context [match ?l with nil => _ | cons _ _ => _ end] =>
      set (recs := l)
  end.
  assert (Hother : ~ In good_practice recs).
  { unfold recs. intros Hin.
    repeat (apply append_if_In in Hin as [[_ E] | Hin]; [discriminate E|]).
    destruct (length <? 8); [|destruct (length <? 12)];
      try (apply in_app_or in Hin as [Hin | [E | []]]; [|discriminate E]);
      repeat (apply append_if_In in Hin as [[_ E] | Hin]; [discriminate E|]);
      destruct Hin. }
  assert (Hnil : recs = []
                 <-> String.eqb strength "Weak" = false
                     /\ flt entropy_bits (of_int config.MIN_ENTROPY_BITS) = false
                     /\ 12 <= length
                     /\ EntropyCalculator.has_lower char_classes = true
                     /\ EntropyCalculator.has_upper char_classes = true
                     /\ EntropyCalculator.has_digit char_classes = true
                     /\ EntropyCalculator.has_special char_classes = true
                     /\ forall category, In category advised_categories ->
                          Dict.mem category pattern_issues = false).
  { unfold recs. rewrite !append_if_nil.
    match goal with
    | |- context [if length <? 8 then ?b ++ _ else _] => set (base := b)
    end.
    assert (Hlen : (if length <? 8
                    then base ++ ["Password is too short. Use at least 8 characters."]
                    else if length <? 12
                    then base ++ ["Consider using a longer password (12+ characters) for better security."]
                    else base) = []
                   <-> 12 <= length
                       /\ flt entropy_bits (of_int config.MIN_ENTROPY_BITS) = false
                       /\ String.eqb strength "Weak" = false).
    { destruct (Z.ltb_spec length 8); [|destruct (Z.ltb_spec length 12)].
      - split; [|lia]. intros E. apply app_eq_nil in E as [_ [=]].
      - split; [|lia]. intros E. apply app_eq_nil in E as [_ [=]].
      - unfold base. rewrite !append_if_nil. intuition. }
    rewrite Hlen. rewrite !negb_false_iff.
    unfold advised_categories, pattern_advice. cbn [map fst].
    split.
    - intros (Hl & Hm & Hd & Hu & Hs & Hsp & Hlo & Hup & Hlen' & He & Hw).
      do 7 (split; [tauto|]).
      intros category Hc. simpl in Hc.
      repeat destruct Hc as [<- | Hc]; try assumption.
      destruct Hc.
    - intros (Hw & He & Hlen' & Hlo & Hup & Hd & Hsp & Hcat).
      repeat split; try assumption; apply Hcat; simpl; auto 10. }
  split.
  - destruct recs as [|r recs'] eqn:E; [split; [reflexivity|left; reflexivity]|].
    split; [intros Hin; contradiction|].
    intros Heq. rewrite Heq in Hother. exfalso. apply Hother. left. reflexivity.
  - rewrite <- Hnil. destruct recs as [|r recs'] eqn:E.
    + split; [auto|reflexivity].
    + split; [|intros [_ [=]]].
      intros Heq. rewrite Heq in Hother. exfalso. apply Hother. left. reflexivity.
Qed.

End RecommendationShape.

(** ** evaluator.py *)

Section ResultProperties.
Context `{PyFloat}.
Import PasswordEvaluator.

Lemma format_issues_nonempty pattern_issues is_breached breach_reason :
  exists first rest,
    format_issues pattern_issues is_breached breach_reason = first :: rest.
Proof.
  unfold format_issues. cbv zeta.
  match goal with
  | |- context [match ?l with nil => _ | cons _ _ => _ end] => destruct l
  end; eauto.
Qed.

(** The steps of [evaluate] on a password that is not empty, for the
    evaluator built by [PasswordEvaluator(...)]. *)
Lemma evaluate_steps lib cfg fs dictionary_words blacklist_file
  password username email r :
  fst (evaluate (init lib cfg fs dictionary_words blacklist_file)
                password username email) = Ok r ->
  password <> "" ->
  exists pattern_issues entropy classes breached reason,
    PatternDetector.detect_all (PatternDetector.init dictionary_words)
      password username email = Ok pattern_issues
    /\ EntropyCalculator.calculate_entropy password
         (match pattern_issues with [] => false | _ => true end)
       = Ok (entropy, classes)
    /\ fst (BreachChecker.check_breach lib cfg
              (BreachChecker.init cfg fs blacklist_file) password)
       = (breached, reason)
    /\ PasswordScorer.calculate_score entropy pattern_issues breached
         (Z.of_nat (Str.len password)) = Ok (score r)
    /\ strength r = PasswordScorer.classify_strength (score r)
    /\ recommendations r
       = PasswordScorer.generate_recommendations (score r) (strength r)
           entropy pattern_issues breached classes
           (Z.of_nat (Str.len password))
    /\ issues r = format_issues pattern_issues breached reason
    /\ is_breached r = breached
    /\ breach_reason r = reason.
Proof.
  intros Hr Hne. unfold evaluate in Hr.
  destruct (String.eqb_spec password ""); [contradiction|].
  unfold init in Hr.
  cbn [pattern_detector entropy_calculator breach_checker scorer
       detect_all calculate_entropy check_breach calculate_score
       classify_strength generate_recommendations] in Hr.
  destruct (PatternDetector.detect_all _ password username email)
    as [pattern_issues|] eqn:Hdetect; [|discriminate Hr].
  destruct (EntropyCalculator.calculate_entropy password _)
    as [[entropy classes]|] eqn:Hentropy; [|discriminate Hr].
  destruct (BreachChecker.check_breach lib cfg _ password)
    as [[breached reason] sent] eqn:Hbreach.
  cbn [fst] in Hr.
  destruct (PasswordScorer.calculate_score entropy pattern_issues breached _)
    as [s|] eqn:Hscore; [|discriminate Hr].
  cbn [Py.bind] in Hr. injection Hr as <-.
  exists pattern_issues, entropy, classes, breached, reason.
  cbn [score strength recommendations issues is_breached breach_reason fst].
  repeat split; try reflexivity; assumption.
Qed.

(** X25. Every result of [evaluate], for the evaluator built by
    [PasswordEvaluator(...)], is consistent: the score lies between 0 and
    100, the strength is the label of the score, there is at least one issue
    and at least one recommendation, and there is a breach reason exactly
    when the password is breached.  A diagnostic of a failed remote check
    never reaches the result. *)
Theorem evaluate_result_is_consistent
  (lib : Requests.Library) (cfg : config.BreachConfig)
  (fs : BreachChecker.FileSystem)
  (dictionary_words : option (list string)) (blacklist_file : option string)
  (password : string) (username email : option string)
  (r : EvaluationResult) :
  fst (evaluate (init lib cfg fs dictionary_words blacklist_file)
                password username email) = Ok r ->
  0 <= score r <= 100
  /\ strength r = PasswordScorer.classify_strength (score r)
  /\ (exists first rest, issues r = first :: rest)
  /\ (exists first rest, recommendations r = first :: rest)
  /\ (is_breached r = false -> breach_reason r = None)
  /\ (is_breached r = true -> exists reason, breach_reason r = Some reason).
Proof.
  intros Hr. destruct (String.eqb_spec password "") as [->|Hne].
  { unfold evaluate in Hr. cbn [String.eqb fst] in Hr. injection Hr as <-.
    cbn [score strength issues recommendations is_breached breach_reason].
    split; [lia|]. split; [reflexivity|]. split; [eauto|]. split; [eauto|].
    split; [reflexivity|discriminate]. }
  destruct (evaluate_steps _ _ _ _ _ _ _ _ _ Hr Hne)
    as (pattern_issues & entropy & classes & breached & reason
        & _ & _ & Hbreach & Hscore & Hstrength & Hrecs & Hissues & Hb & Hreason).
  split; [exact (calculate_score_clamped _ _ _ _ _ Hscore)|].
  split; [exact Hstrength|].
  split; [rewrite Hissues; apply format_issues_nonempty|].
  split; [rewrite Hrecs; apply generate_recommendations_nonempty|].
  rewrite Hb, Hreason.
  destruct (check_breach_result lib cfg
              (BreachChecker.init cfg fs blacklist_file) password)
    as [Hclean | (x & Hx & _)].
  - rewrite Hclean in Hbreach. injection Hbreach as <- <-.
    split; [reflexivity|discriminate].
  - rewrite Hx in Hbreach. injection Hbreach as <- <-.
    split; [discriminate|eauto].
Qed.

(** X26. A breached password has the result: score 0, strength "Weak", the
    one recommendation to use a different password, a breach reason that is
    one of the two breach reasons, and this reason as the first of the
    issues, before the pattern issues. *)
Theorem breached_password_result
  (lib : Requests.Library) (cfg : config.BreachConfig)
  (fs : BreachChecker.FileSystem)
  (dictionary_words : option (list string)) (blacklist_file : option string)
  (password : string) (username email : option string)
  (r : EvaluationResult) :
  fst (evaluate (init lib cfg fs dictionary_words blacklist_file)
                password username email) = Ok r ->
  is_breached r = true ->
  score r = 0
  /\ strength r = "Weak"
  /\ recommendations r = [compromised]
  /\ exists reason rest,
       breach_reason r = Some reason
       /\ is_breach_reason reason
       /\ issues r = reason :: rest.
Proof.
  intros Hr Hbreached. destruct (String.eqb_spec password "") as [->|Hne].
  { unfold evaluate in Hr. cbn [String.eqb fst] in Hr. injection Hr as <-.
    discriminate Hbreached. }
  destruct (evaluate_steps _ _ _ _ _ _ _ _ _ Hr Hne)
    as (pattern_issues & entropy & classes & breached & reason
        & _ & _ & Hbreach & Hscore & Hstrength & Hrecs & Hissues & Hb & Hreason).
  rewrite Hbreached in Hb. subst breached.
  assert (Hzero : score r = 0).
  { unfold PasswordScorer.calculate_score in Hscore. congruence. }
  split; [exact Hzero|].
  split; [rewrite Hstrength, Hzero; reflexivity|].
  split; [rewrite Hrecs; reflexivity|].
  destruct (check_breach_result lib cfg
              (BreachChecker.init cfg fs blacklist_file) password)
    as [Hclean | (x & Hx & Hbr & Hnonempty)].
  - rewrite Hclean in Hbreach. discriminate Hbreach.
  - rewrite Hx in Hbreach. injection Hbreach as <-.
    exists x. rewrite Hreason, Hissues.
    unfold format_issues. cbv zeta.
    cbn [PatternDetector.truthy andb default from_option id].
    rewrite Hnonempty. cbn [negb]. eauto.
Qed.

(** X27. [evaluate] sends at most one request, the query for the five
    characters of the digest's prefix, and it sends none when the remote
    check is off (as it is in the configuration), when the [requests]
    library is missing, or when the password is in the local blacklist. *)
Theorem evaluate_sends_only_the_prefix
  (lib : Requests.Library) (cfg : config.BreachConfig)
  (fs : BreachChecker.FileSystem)
  (dictionary_words : option (list string)) (blacklist_file : option string)
  (password : string) (username email : option string) :
  let sent :=
    snd (evaluate (init lib cfg fs dictionary_words blacklist_file)
                  password username email) in
  (sent = [] \/ sent = [prefix_query cfg password])
  /\ (config.hibp_enabled cfg = false -> sent = [])
  /\ (Requests.importable lib = false -> sent = [])
  /\ (Str.lower password
        ∈ BreachChecker.blacklist (BreachChecker.init cfg fs blacklist_file) ->
      sent = []).
Proof.
  cbv zeta.
  assert (Hsent :
    snd (evaluate (init lib cfg fs dictionary_words blacklist_file)
                  password username email) = []
    \/ snd (evaluate (init lib cfg fs dictionary_words blacklist_file)
                     password username email)
       = snd (BreachChecker.check_breach lib cfg
                (BreachChecker.init cfg fs blacklist_file) password)).
  { unfold evaluate. destruct (String.eqb password ""); [left; reflexivity|].
    unfold init.
    cbn [pattern_detector entropy_calculator breach_checker scorer
         detect_all calculate_entropy check_breach calculate_score
         classify_strength generate_recommendations].
    destruct (PatternDetector.detect_all _ password username email);
      [|left; reflexivity].
    destruct (EntropyCalculator.calculate_entropy password _) as [[e c]|];
      [|left; reflexivity].
    destruct (BreachChecker.check_breach lib cfg _ password)
      as [[breached reason] sent].
    right. reflexivity. }
  destruct (check_breach_requests lib cfg
              (BreachChecker.init cfg fs blacklist_file) password)
    as [Hnone | (Hone & Hon & Himp & Hnot)].
  - assert (Hempty :
      snd (evaluate (init lib cfg fs dictionary_words blacklist_file)
                    password username email) = [])
      by (destruct Hsent as [-> | ->]; [reflexivity|exact Hnone]).
    rewrite Hempty. auto.
  - destruct Hsent as [-> | ->]; [auto|].
    rewrite Hone. split; [auto|]. split; [congruence|].
    split; [congruence|]. intros Hin. contradiction.
Qed.

End ResultProperties.

Lemma evaluate_result_is_consistent_witness :
  exists r,
    fst (PasswordEvaluator.evaluate listed_evaluator "Tr0ub4dor&3" None None)
    = Ok r
    /\ 0 <= PasswordEvaluator.score r <= 100
    /\ PasswordEvaluator.strength r
       = PasswordScorer.classify_strength (PasswordEvaluator.score r).
Proof.
  assert (Hs : summary (fst (PasswordEvaluator.evaluate listed_evaluator
                               "Tr0ub4dor&3" None None))
               = Ok (77, "Strong", "72.27", ["No major issues detected"],
                     ["Consider using a longer password (12+ characters) for better security."],
                     false, None))
    by (vm_compute; reflexivity).
  destruct (fst (PasswordEvaluator.evaluate listed_evaluator
                   "Tr0ub4dor&3" None None)) as [r|e] eqn:Hr;
    [|discriminate Hs].
  exists r. split; [reflexivity|].
  destruct (evaluate_result_is_consistent (H := QFloat.exact)
              timing_out config.BREACH_CONFIG listed_files None None
              "Tr0ub4dor&3" None None r Hr) as (Hrange & Hstrength & _).
  split; [exact Hrange|exact Hstrength].
Defined.

Lemma breached_password_result_witness :
  exists r,
    fst (PasswordEvaluator.evaluate listed_evaluator "PassWord" None None)
    = Ok r
    /\ PasswordEvaluator.is_breached r = true
    /\ PasswordEvaluator.score r = 0
    /\ PasswordEvaluator.strength r = "Weak"
    /\ PasswordEvaluator.recommendations r = [compromised].
Proof.
  assert (Hs : summary (fst (PasswordEvaluator.evaluate listed_evaluator
                               "PassWord" None None))
               = Ok (0, "Weak", "31.92",
                     [ "Password found in common breach database (top 10k)";
                       "Leetspeak substitution detected (resembles 'password')" ],
                     [compromised], true,
                     Some "Password found in common breach database (top 10k)"))
    by (vm_compute; reflexivity).
  destruct (fst (PasswordEvaluator.evaluate listed_evaluator
                   "PassWord" None None)) as [r|e] eqn:Hr;
    [|discriminate Hs].
  assert (Hb : PasswordEvaluator.is_breached r = true)
    by (unfold summary in Hs; simpl in Hs; congruence).
  exists r. split; [reflexivity|]. split; [exact Hb|].
  destruct (breached_password_result (H := QFloat.exact)
              timing_out config.BREACH_CONFIG listed_files None None
              "PassWord" None None r Hr Hb) as (Hz & Hw & Hrec & _).
  split; [exact Hz|]. split; [exact Hw|exact Hrec].
Defined.

(** ** cli.py *)

(** X29. [load_dictionary_words] never fails and loads words in a normal
    form: a missing file, or an error while it is read, gives the empty set;
    a readable file gives the lower-cased lines without the white space
    around them, blank lines apart; so every loaded word is not empty and is
    its own lower-case form, the form in which the detector looks for it in
    the lower-cased password. *)
Theorem loaded_words_are_normalised (fs : BreachChecker.FileSystem)
  (wordlist_file : string) :
  let words := cli.load_dictionary_words fs wordlist_file in
  (fs wordlist_file = None \/ (exists e, fs wordlist_file = Some (Raise e)) ->
   words = ∅)
  /\ (forall lines,
        fs wordlist_file = Some (Ok lines) ->
        forall word,
          word ∈ words
          <-> exists line,
                In line lines /\ Str.strip line <> ""
                /\ word = Str.lower (Str.strip line))
  /\ (forall word, word ∈ words -> word <> "" /\ Str.lower word = word).
Proof.
  cbv zeta. unfold cli.load_dictionary_words.
  assert (Hmem : forall lines word,
            word ∈ (list_to_set
                      (map (fun line => Str.lower (Str.strip line))
                           (List.filter
                              (fun line => negb (String.eqb (Str.strip line) ""))
                              lines)) : gset string)
            <-> exists line,
                  In line lines /\ Str.strip line <> ""
                  /\ word = Str.lower (Str.strip line)).
  { intros lines word.
    rewrite elem_of_list_to_set, list_elem_of_In, in_map_iff. split.
    - intros (line & <- & Hin). apply filter_In in Hin as [Hin Hnb].
      exists line. split; [exact Hin|]. split; [|reflexivity].
      intros E. rewrite E in Hnb. discriminate Hnb.
    - intros (line & Hin & Hnb & ->). exists line. split; [reflexivity|].
      apply filter_In. split; [exact Hin|].
      destruct (String.eqb_spec (Str.strip line) "");
        [contradiction|reflexivity]. }
  split; [|split].
  - intros [-> | [e ->]]; reflexivity.
  - intros lines ->. exact (Hmem lines).
  - intros word.
    destruct (fs wordlist_file) as [[lines|e]|];
      try (intros Hin; exfalso; exact (not_elem_of_empty _ Hin)).
    intros Hin. apply Hmem in Hin as (line & _ & Hnb & ->).
    split; [|apply lower_idempotent].
    intros E. apply Hnb.
    assert (Hlen : Str.len (Str.lower (Str.strip line)) = O)
      by (rewrite E; reflexivity).
    rewrite lower_length in Hlen. apply len_zero_empty. exact Hlen.
Qed.

(** * The test suite and the scenarios of the specification, on the model

    Run in exact arithmetic, with no blacklist file and the remote check
    off. *)

Section Tests.
Existing Instance QFloat.exact.

Example sha1_of_abc :
  Hashlib.sha1_hexdigest "abc" = "a9993e364706816aba3e25717850c26c9cd0d89d".
Proof. vm_compute. reflexivity. Qed.

Example sha1_of_two_blocks :
  Hashlib.sha1_hexdigest
    "abcdbcdecdefdefgefghfghighijhijkijkljklmklmnlmnomnopnopq"
  = "84983e441c3bd26ebaae4aa1f95129e5e54670f1".
Proof. vm_compute. reflexivity. Qed.

Example special_chars_are_punctuation :
  Str.len EntropyCalculator.SPECIAL_CHARS = 32%nat
  /\ map Str.ord (Str.chars EntropyCalculator.SPECIAL_CHARS)
     = (map N.of_nat (seq 33 15) ++ map N.of_nat (seq 58 7)
        ++ map N.of_nat (seq 91 6) ++ map N.of_nat (seq 123 4))%list.
Proof. split; vm_compute; reflexivity. Qed.

Example test_repeated_chars :
  found detector "aaaa" None None = Ok ["repeated_chars"; "low_variety"].
Proof. vm_compute. reflexivity. Qed.

Example test_sequential_chars :
  PatternDetector._detect_sequential_chars "abcd1234"
  = Ok [ "Sequential pattern: 'abcd' (ascending)";
         "Sequential pattern: '1234' (numerical)" ].
Proof. vm_compute. reflexivity. Qed.

Example test_keyboard_pattern :
  PatternDetector._detect_keyboard_patterns detector "qwerty"
  = [ "Keyboard pattern detected: 'qwer'";
      "Keyboard pattern detected: 'wert'";
      "Keyboard pattern detected: 'erty'" ].
Proof. vm_compute. reflexivity. Qed.

Example test_dictionary_word :
  found (PatternDetector.init (Some ["password"; "admin"; "test"]))
        "password123" None None
  = Ok ["leetspeak"; "dictionary_word"].
Proof. vm_compute. reflexivity. Qed.

Example test_year_pattern :
  PatternDetector._detect_year_patterns "password2020"
  = ["Year pattern detected: '2020'"].
Proof. vm_compute. reflexivity. Qed.

Example test_username_similarity :
  PatternDetector._detect_username_similarity "johnsmith123"
    (Some "johnsmith") None
  = [ "Password contains username: 'johnsmith'";
      "Password too similar to username (similarity: 0.86)" ].
Proof. vm_compute. reflexivity. Qed.

Example test_low_variety :
  PatternDetector._detect_low_variety "aaaa1111"
  = ["Low character variety: 2 unique characters out of 8 (ratio: 0.25)"].
Proof. vm_compute. reflexivity. Qed.

Example test_pattern_penalty :
  match EntropyCalculator.calculate_entropy "Random123!@#" false,
        EntropyCalculator.calculate_entropy "Random123!@#" true with
  | Ok (plain, _), Ok (penalised, _) => flt penalised plain
  | _, _ => false
  end = true.
Proof. vm_compute. reflexivity. Qed.

Example test_strength_classification :
  map PasswordScorer.classify_strength [30; 50; 70; 90; 39; 40; 59; 60; 79; 80]
  = [ "Weak"; "Medium"; "Strong"; "Very Strong"; "Weak"; "Medium"; "Medium";
      "Strong"; "Strong"; "Very Strong" ].
Proof. reflexivity. Qed.

Example test_blacklist_lookup :
  fst (BreachChecker.check_breach timing_out config.BREACH_CONFIG
         (BreachChecker.add_to_blacklist empty_checker "testpassword")
         "testpassword")
  = (true, Some "Password found in common breach database (top 10k)")
  /\ BreachChecker.check_breach timing_out config.BREACH_CONFIG
       (BreachChecker.add_to_blacklist empty_checker "testpassword")
       "totallyunseenstring"
     = ((false, None), []).
Proof. split; vm_compute; reflexivity. Qed.

Example test_weak_password :
  summary (fst (PasswordEvaluator.evaluate default_evaluator
                  "password" None None))
  = Ok (20, "Weak", "26.32",
        ["Leetspeak substitution detected (resembles 'password')"],
        [ "Password is weak. Consider using a longer, more complex password.";
          "Consider using a longer password (12+ characters) for better security.";
          "Add uppercase letters to increase character variety.";
          "Add numbers to increase character variety.";
          "Add special characters to increase character variety.";
          "Leetspeak substitutions (p@ssw0rd) are predictable. Use truly random characters." ],
        false, None).
Proof. vm_compute. reflexivity. Qed.

Example test_very_strong_password :
  summary (fst (PasswordEvaluator.evaluate default_evaluator
                  "Xk9#mP2$vL7@nQ4&wR8!" None None))
  = Ok (85, "Very Strong", "131.40", ["No major issues detected"],
        ["Password meets good security practices. Keep it secure and don't reuse it."],
        false, None).
Proof. vm_compute. reflexivity. Qed.

(** The password of [test_unicode_password], with U+00E4 and U+00F6. *)
Example test_unicode_password :
  summary (fst (PasswordEvaluator.evaluate default_evaluator
                  ("p" +:+ String (Str.chr 228) "ssw"
                       +:+ String (Str.chr 246) "rd123")
                  None None))
  = Ok (67, "Strong", "56.87", ["No major issues detected"],
        [ "Consider using a longer password (12+ characters) for better security.";
          "Add uppercase letters to increase character variety.";
          "Add special characters to increase character variety." ],
        false, None).
Proof. vm_compute. reflexivity. Qed.

(** The scenarios of the specification. *)
Example scenario_password123 :
  found (PatternDetector.init (Some ["password"])) "password123" None None
  = Ok ["leetspeak"; "dictionary_word"]
  /\ summary (fst (PasswordEvaluator.evaluate
                     (PasswordEvaluator.init timing_out config.BREACH_CONFIG
                        no_files (Some ["password"]) None)
                     "password123" None None))
     = Ok (10, "Weak", "39.81",
           [ "Leetspeak substitution detected (resembles 'password')";
             "Contains dictionary word: 'password'" ],
           [ "Password is weak. Consider using a longer, more complex password.";
             "Consider using a longer password (12+ characters) for better security.";
             "Add uppercase letters to increase character variety.";
             "Add special characters to increase character variety.";
             "Avoid common dictionary words. Use random or uncommon words.";
             "Leetspeak substitutions (p@ssw0rd) are predictable. Use truly random characters." ],
           false, None).
Proof. split; vm_compute; reflexivity. Qed.

Example scenario_aaaa1111 :
  PatternDetector.detect_all detector "aaaa1111" None None
  = Ok [ ("repeated_chars",
          ["Repeated character 'a' 4 times"; "Repeated character '1' 4 times"]);
         ("leetspeak", ["High leetspeak substitution ratio detected"]);
         ("low_variety",
          ["Low character variety: 2 unique characters out of 8 (ratio: 0.25)"]) ].
Proof. vm_compute. reflexivity. Qed.

Example scenario_empty_password :
  summary (fst (PasswordEvaluator.evaluate default_evaluator "" None None))
  = Ok (0, "Weak", "0.00", ["Password is empty"],
        ["Password cannot be empty"], false, None).
Proof. vm_compute. reflexivity. Qed.

End Tests.
